(** * WiFi intrusion backend: observation intake and threat correlation

    A shallow embedding of the server side of the repository:
    - [models/Network]            the mongoose schema of one access point,
    - [services/threatDetection]  the [ThreatDetector] class,
    - [routes/api]                the handlers of POST /scan,
                                  PATCH /networks/:id/status and GET /threats.

    JavaScript strings are modelled as [string]; a character stands for one
    code unit below 256, and [toUpperCase] and the [i] flag of the regular
    expressions act on the ASCII letters.  Numbers that the sensor reports
    (rssi, channel) and counters are integers ([Z]); dates are [Z]. *)

From Stdlib Require Import ZArith List String Ascii Bool Lia Arith.
From Stdlib Require Import Permutation Sorted DecimalString.
Import ListNotations.

Local Open Scope string_scope.
Local Open Scope Z_scope.

(** ** Strings the way the handlers use them *)

Module Js.

(** [String.prototype.toUpperCase] on one code unit of ASCII text: the
    letters a to z.  Outside ASCII the upper-casing of JavaScript differs
    ([asciiText] below marks the texts on which the two agree). *)
Definition upperChar (c : ascii) : ascii :=
  let n := nat_of_ascii c in
  if ((97 <=? n) && (n <=? 122))%nat then ascii_of_nat (n - 32) else c.

Fixpoint toUpperCase (s : string) : string :=
  match s with
  | EmptyString => EmptyString
  | String c r => String (upperChar c) (toUpperCase r)
  end.

(** [s.substring(0, n)]. *)
Fixpoint substring0 (n : nat) (s : string) : string :=
  match n, s with
  | O, _ => EmptyString
  | S _, EmptyString => EmptyString
  | S m, String c r => String c (substring0 m r)
  end.

(** [s.startsWith(p)]. *)
Fixpoint startsWith (s p : string) : bool :=
  match p, s with
  | EmptyString, _ => true
  | String _ _, EmptyString => false
  | String a p', String b s' => Ascii.eqb a b && startsWith s' p'
  end.

Definition isWhiteSpace (c : ascii) : bool :=
  let n := nat_of_ascii c in
  (((9 <=? n) && (n <=? 13)) || (n =? 32) || (n =? 160))%nat.

Fixpoint trimStart (s : string) : string :=
  match s with
  | EmptyString => EmptyString
  | String c r => if isWhiteSpace c then trimStart r else s
  end.

(** Drops the white space at the end: the tail is trimmed first, and a
    white-space character in front of an empty tail goes too. *)
Fixpoint trimEnd (s : string) : string :=
  match s with
  | EmptyString => EmptyString
  | String c r =>
      match trimEnd r with
      | EmptyString => if isWhiteSpace c then EmptyString else String c EmptyString
      | r' => String c r'
      end
  end.

Definition trim (s : string) : string := trimEnd (trimStart s).

(** Template-literal rendering of an integer of magnitude below 1e21,
    where JavaScript prints every digit. *)
Definition ofZ (z : Z) : string := NilZero.string_of_int (Z.to_int z).

(** Template-literal rendering of a possibly absent string. *)
Definition ofOpt (o : option string) : string :=
  match o with
  | Some s => s
  | None => "undefined"
  end.

(** The text [s] between double quotes. *)
Definition quoted (s : string) : string :=
  String "034"%char (s ++ String "034"%char EmptyString).

(** [arr.includes(x)] on strings. *)
Definition includes (l : list string) (x : string) : bool :=
  existsb (String.eqb x) l.

(** [arr.slice(-n)]: the last [n] elements, all of them when there are
    fewer. *)
Definition sliceLast {A : Type} (n : nat) (l : list A) : list A :=
  skipn (List.length l - n) l.

End Js.

(** ** Regular expressions of [threatPatterns.suspiciousSSIDs]

    Every pattern there is a sequence of literal characters with, at most,
    [.?] between them, under the [i] flag. *)

Module Regex.

Inductive item : Type :=
| Lit (c : ascii)
| OptAny.

Definition t : Type := list item.

(** [.] matches any character except a line terminator. *)
Definition isLineTerminator (c : ascii) : bool :=
  let n := nat_of_ascii c in ((n =? 10) || (n =? 13))%nat.

Definition eqIgnoreCase (a b : ascii) : bool :=
  Ascii.eqb (Js.upperChar a) (Js.upperChar b).

Fixpoint matchHere (p : t) (s : string) {struct p} : bool :=
  match p with
  | [] => true
  | Lit c :: p' =>
      match s with
      | EmptyString => false
      | String d s' => eqIgnoreCase c d && matchHere p' s'
      end
  | OptAny :: p' =>
      match s with
      | EmptyString => false
      | String d s' => negb (isLineTerminator d) && matchHere p' s'
      end || matchHere p' s
  end.

(** [pattern.test(s)]: a match may start at any position. *)
Fixpoint test (p : t) (s : string) : bool :=
  matchHere p s ||
  match s with
  | EmptyString => false
  | String _ s' => test p s'
  end.

Fixpoint lits (s : string) : t :=
  match s with
  | EmptyString => []
  | String c r => Lit c :: lits r
  end.

(** [/a.?b/i] *)
Definition gap (a b : string) : t := (lits a ++ OptAny :: lits b)%list.

End Regex.

(** ** Data model: [models/Network] *)

Inductive Status : Type :=
| trusted
| unknown
| suspicious.

Definition Status_eqb (a b : Status) : bool :=
  match a, b with
  | trusted, trusted | unknown, unknown | suspicious, suspicious => true
  | _, _ => false
  end.

Record HistoryEntry : Type := mkHistoryEntry {
  h_rssi : Z;
  h_timestamp : Z
}.

(** One document of the collection.  [createdAt] and [updatedAt] come from
    the schema option [timestamps: true]. *)
Record Network : Type := mkNetwork {
  _id : nat;
  ssid : string;
  bssid : string;
  rssi : Z;
  channel : Z;
  encType : string;
  firstSeen : Z;
  lastSeen : Z;
  seenCount : Z;
  status : Status;
  history : list HistoryEntry;
  deviceId : string;
  createdAt : Z;
  updatedAt : Z
}.

(** ** [services/threatDetection] *)

Module threatPatterns.

Definition suspiciousSSIDs : list Regex.t :=
  [ Regex.gap "free" "wifi";
    Regex.gap "guest" "network";
    Regex.gap "open" "wifi";
    Regex.gap "wifi" "free";
    Regex.lits "hotspot";
    Regex.gap "android" "ap";
    Regex.gap "iphone" "hotspot";
    Regex.gap "mobile" "hotspot" ].

Definition evilTwinIndicators : list string :=
  ["linksys"; "netgear"; "tp-link"; "dlink"; "asus"].

(** [deauthPatterns] *)
Definition rapidSignalChanges : Z := 20.
Definition abnormalChannelHopping : Z := 3.
Definition highSeenCount : Z := 100.

End threatPatterns.

Record ThreatFinding : Type := mkFinding {
  type : string;
  severity : string;
  description : string;
  details : string
}.

Inductive RiskLevel : Type :=
| low
| medium
| high
| critical.

Definition RiskLevel_eqb (a b : RiskLevel) : bool :=
  match a, b with
  | low, low | medium, medium | high, high | critical, critical => true
  | _, _ => false
  end.

Record Recommendation : Type := mkRecommendation {
  general : string;
  specific : list string
}.

Record ThreatAssessment : Type := mkAssessment {
  networkId : nat;
  a_ssid : string;
  a_bssid : string;
  riskLevel : RiskLevel;
  harmScore : Z;
  threats : list ThreatFinding;
  recommendation : Recommendation;
  isHarmful : bool;
  timestamp : Z
}.

Module ThreatDetector.

Definition checkSuspiciousSSID (ssid : string) : option ThreatFinding :=
  if (ssid =? "")%string || (ssid =? "Hidden Network")%string then None
  else if existsb (fun pattern => Regex.test pattern ssid)
                  threatPatterns.suspiciousSSIDs
  then Some {| type := "suspicious_ssid";
               severity := "medium";
               description :=
                 "Potentially deceptive network name: " ++ Js.quoted ssid;
               details := "This SSID pattern is commonly used by attackers for social engineering" |}
  else None.

Definition similarTo (network : Network) (n : Network) : bool :=
  (ssid n =? ssid network)%string && negb (bssid n =? bssid network)%string.

Definition weakerThan (network : Network) (n : Network) : bool :=
  ((encType network =? "Open")%string && negb (encType n =? "Open")%string)
  || ((encType network =? "WEP")%string
      && Js.includes ["WPA"; "WPA2"; "WPA3"] (encType n)).

Definition detectEvilTwin (network : Network) (allNetworks : list Network)
  : option ThreatFinding :=
  let similarNetworks := filter (similarTo network) allNetworks in
  if (0 <? List.length similarNetworks)%nat then
    let hasWeakerSecurity := existsb (weakerThan network) similarNetworks in
    if hasWeakerSecurity || (encType network =? "Open")%string then
      Some {| type := "evil_twin";
              severity := "high";
              description :=
                "Potential Evil Twin attack detected for " ++ Js.quoted (ssid network);
              details :=
                "Found " ++ Js.ofZ (Z.of_nat (List.length similarNetworks) + 1)
                ++ " networks with same name but different security levels" |}
    else None
  else None.

Definition checkOpenNetwork (network : Network) : option ThreatFinding :=
  if (encType network =? "Open")%string then
    Some {| type := "open_network";
            severity := "medium";
            description := "Unsecured wireless network detected";
            details := "Open networks can be used for man-in-the-middle attacks and data interception" |}
  else None.

(** [Math.max(...l)] and [Math.min(...l)] for a non-empty [l]; the
    detector calls them on five values or more. *)
Definition maxOf (l : list Z) : Z :=
  match l with
  | [] => 0
  | x :: r => fold_left Z.max r x
  end.

Definition minOf (l : list Z) : Z :=
  match l with
  | [] => 0
  | x :: r => fold_left Z.min r x
  end.

Definition signalVariation (historicalData : list HistoryEntry) : Z :=
  let recentSignals := map h_rssi (Js.sliceLast 10 historicalData) in
  maxOf recentSignals - minOf recentSignals.

Definition detectSignalAnomalies (network : Network)
           (historicalData : list HistoryEntry) : option ThreatFinding :=
  if (List.length historicalData <? 5)%nat then None
  else if threatPatterns.rapidSignalChanges <? signalVariation historicalData then
    Some {| type := "signal_anomaly";
            severity := "medium";
            description := "Unusual signal strength fluctuations detected";
            details :=
              "Signal variation of " ++ Js.ofZ (signalVariation historicalData)
              ++ "dBm may indicate deauth attacks or jamming" |}
  else if threatPatterns.highSeenCount <? seenCount network then
    Some {| type := "high_frequency";
            severity := "medium";
            description := "Abnormally high detection frequency";
            details := "This network appears unusually often, may indicate probe flooding" |}
  else None.

Definition detectChannelThreats (network : Network)
           (allNetworks : list Network) : option ThreatFinding :=
  let sameChannelNetworks :=
    filter (fun n => channel n =? channel network) allNetworks in
  if (15 <? List.length sameChannelNetworks)%nat then
    Some {| type := "channel_congestion";
            severity := "low";
            description := "High network density on channel " ++ Js.ofZ (channel network);
            details :=
              Js.ofZ (Z.of_nat (List.length sameChannelNetworks))
              ++ " networks detected on same channel" |}
  else None.

Definition suspiciousPrefixes : list string :=
  ["02:00:00"; "AA:BB:CC"; "00:11:22"; "12:34:56"].

Definition analyzeMACAddress (bssid : string) : option ThreatFinding :=
  if (bssid =? "")%string then None
  else
    let macPrefix := Js.toUpperCase (Js.substring0 8 bssid) in
    if existsb (fun prefix => Js.startsWith macPrefix prefix) suspiciousPrefixes
    then Some {| type := "suspicious_mac";
                 severity := "low";
                 description := "Potentially spoofed MAC address detected";
                 details := "MAC address pattern suggests possible device identity masking" |}
    else None.

Definition recommendations (r : RiskLevel) : string :=
  match r with
  | critical => "IMMEDIATE ACTION REQUIRED: Block this network and investigate immediately. High probability of malicious activity."
  | high => "CAUTION: Avoid connecting to this network. Monitor closely and consider blocking."
  | medium => "WARNING: Exercise caution. Verify network legitimacy before connecting."
  | low => "INFO: Minor security concerns detected. Standard security practices recommended."
  end.

Definition tipOf (threat : ThreatFinding) : list string :=
  if (type threat =? "evil_twin")%string then
    ["Verify with network administrator which is the legitimate network"]
  else if (type threat =? "open_network")%string then
    ["Use VPN if connection is necessary"]
  else if (type threat =? "suspicious_ssid")%string then
    ["Verify network legitimacy with venue staff"]
  else if (type threat =? "signal_anomaly")%string then
    ["Monitor for deauth attacks or jamming attempts"]
  else [].

Definition getRecommendation (riskLevel : RiskLevel)
           (threats : list ThreatFinding) : Recommendation :=
  let specific := flat_map tipOf threats in
  {| general := recommendations riskLevel;
     specific := match specific with
                 | [] => ["Follow standard WiFi security practices"]
                 | _ => specific
                 end |}.

(** The accumulator of [assessThreat]: the [threats] array and
    [harmScore] after some of the six checks. *)
Definition tally : Type := (list ThreatFinding * Z)%type.

(** [if (finding) { threats.push(finding); harmScore += points; }] *)
Definition record (finding : option ThreatFinding) (points : Z) (acc : tally)
  : tally :=
  match finding with
  | Some f => ((fst acc ++ [f])%list, snd acc + points)
  | None => acc
  end.

Definition classify (harmScore : Z) : RiskLevel :=
  if 70 <=? harmScore then critical
  else if 40 <=? harmScore then high
  else if 20 <=? harmScore then medium
  else low.

Definition assessThreat (now : Z) (network : Network)
           (allNetworks : list Network) (historicalData : list HistoryEntry)
  : ThreatAssessment :=
  let acc0 : tally := ([], 0) in
  let acc1 := record (checkSuspiciousSSID (ssid network)) 30 acc0 in
  let acc2 := record (detectEvilTwin network allNetworks) 50 acc1 in
  let acc3 := record (checkOpenNetwork network) 25 acc2 in
  let acc4 := record (detectSignalAnomalies network historicalData) 35 acc3 in
  let acc5 := record (detectChannelThreats network allNetworks) 20 acc4 in
  let acc6 := record (analyzeMACAddress (bssid network)) 15 acc5 in
  let threats := fst acc6 in
  let harmScore := snd acc6 in
  let riskLevel := classify harmScore in
  {| networkId := _id network;
     a_ssid := ssid network;
     a_bssid := bssid network;
     riskLevel := riskLevel;
     harmScore := harmScore;
     threats := threats;
     recommendation := getRecommendation riskLevel threats;
     isHarmful := 40 <=? harmScore;
     timestamp := now |}.

End ThreatDetector.

(** ** The collection behind the [Network] model

    The documents in their natural (insertion) order, which is the order
    [Network.find({})] reads them in, and the next fresh [_id]. *)

Record Store : Type := mkStore {
  docs : list Network;
  nextId : nat
}.

Module Mongo.

(** A plain object literal: its keys with their (numeric) values. *)
Definition Obj : Type := list (string * Z).

Fixpoint get (k : string) (o : Obj) : option Z :=
  match o with
  | [] => None
  | (k', v) :: r => if (k =? k')%string then Some v else get k r
  end.

(** The argument of [$push] for the path [history].  The store reads
    [$slice] (and the other modifiers) only next to [$each]; any other
    object is one element to append. *)
Inductive PushArg : Type :=
| Element (o : Obj)
| Each (items : list Obj) (slice : option Z).

(** Casting an object to the sub-schema of [history],
    [{ rssi: Number, timestamp: { type: Date, default: Date.now } }]:
    the schema is strict, keys outside it are dropped. *)
Definition castHistory (now : Z) (o : Obj) : HistoryEntry :=
  {| h_rssi := match get "rssi" o with Some v => v | None => 0 end;
     h_timestamp := match get "timestamp" o with Some v => v | None => now end |}.

(** [$slice: n] keeps the first [n] elements for [n >= 0] and the last
    [-n] for [n < 0]. *)
Definition applySlice {A : Type} (slice : option Z) (l : list A) : list A :=
  match slice with
  | None => l
  | Some n => if n <? 0 then Js.sliceLast (Z.to_nat (- n)) l
              else firstn (Z.to_nat n) l
  end.

Definition applyPush (now : Z) (arg : PushArg) (h : list HistoryEntry)
  : list HistoryEntry :=
  match arg with
  | Element o => (h ++ [castHistory now o])%list
  | Each items slice => applySlice slice (h ++ map (castHistory now) items)%list
  end.

(** The update document that POST /scan builds: plain keys ([$set]),
    [$inc: { seenCount }] and [$push: { history }]. *)
Record Update : Type := mkUpdate {
  u_ssid : string;
  u_rssi : Z;
  u_channel : Z;
  u_encType : string;
  u_lastSeen : Z;
  u_deviceId : string;
  u_inc_seenCount : Z;
  u_push_history : PushArg
}.

Definition find (s : Store) : list Network := docs s.

Definition applyUpdate (now : Z) (u : Update) (n : Network) : Network :=
  {| _id := _id n;
     ssid := Js.trim (u_ssid u);
     bssid := bssid n;
     rssi := u_rssi u;
     channel := u_channel u;
     encType := u_encType u;
     firstSeen := firstSeen n;
     lastSeen := u_lastSeen u;
     seenCount := seenCount n + u_inc_seenCount u;
     status := status n;
     history := applyPush now (u_push_history u) (history n);
     deviceId := u_deviceId u;
     createdAt := createdAt n;
     updatedAt := now |}.

(** The document an upsert inserts: the filter's [bssid], the update
    applied to an empty document, and the schema defaults of the paths
    the update does not write ([firstSeen], [status]). *)
Definition inserted (now : Z) (id : nat) (b : string) (u : Update) : Network :=
  {| _id := id;
     ssid := Js.trim (u_ssid u);
     bssid := Js.toUpperCase b;
     rssi := u_rssi u;
     channel := u_channel u;
     encType := u_encType u;
     firstSeen := now;
     lastSeen := u_lastSeen u;
     seenCount := u_inc_seenCount u;
     status := unknown;
     history := applyPush now (u_push_history u) [];
     deviceId := u_deviceId u;
     createdAt := now;
     updatedAt := now |}.

(** The first document that satisfies [p] is replaced by [f] of it. *)
Fixpoint updateFirst (p : Network -> bool) (f : Network -> Network)
         (l : list Network) : option (list Network * Network) :=
  match l with
  | [] => None
  | n :: r =>
      if p n then Some (f n :: r, f n)
      else match updateFirst p f r with
           | Some (r', m) => Some (n :: r', m)
           | None => None
           end
  end.

(** [Network.findOneAndUpdate({ bssid: b }, u,
      { upsert: true, new: true, setDefaultsOnInsert: true })]:
    the document after the update.  The filter is cast by the schema
    ([uppercase: true]). *)
Definition findOneAndUpdate (now : Z) (b : string) (u : Update) (s : Store)
  : Store * Network :=
  match updateFirst (fun n => (bssid n =? Js.toUpperCase b)%string)
                    (applyUpdate now u) (docs s) with
  | Some (l, n) => ({| docs := l; nextId := nextId s |}, n)
  | None =>
      let n := inserted now (nextId s) b u in
      ({| docs := (docs s ++ [n])%list; nextId := S (nextId s) |}, n)
  end.

Definition setStatus (now : Z) (st : Status) (n : Network) : Network :=
  {| _id := _id n;
     ssid := ssid n;
     bssid := bssid n;
     rssi := rssi n;
     channel := channel n;
     encType := encType n;
     firstSeen := firstSeen n;
     lastSeen := lastSeen n;
     seenCount := seenCount n;
     status := st;
     history := history n;
     deviceId := deviceId n;
     createdAt := createdAt n;
     updatedAt := now |}.

(** [Network.findByIdAndUpdate(id, { status }, { new: true })]. *)
Definition findByIdAndUpdate (now : Z) (id : nat) (st : Status) (s : Store)
  : Store * option Network :=
  match updateFirst (fun n => (_id n =? id)%nat) (setStatus now st) (docs s) with
  | Some (l, n) => ({| docs := l; nextId := nextId s |}, Some n)
  | None => (s, None)
  end.

Definition findById (id : nat) (s : Store) : option Network :=
  List.find (fun n => (_id n =? id)%nat) (docs s).

End Mongo.

(** ** [routes/api] *)

(** One element of [req.body.networks]. *)
Record NetworkData : Type := mkNetworkData {
  nd_ssid : option string;
  nd_bssid : option string;
  nd_rssi : Z;
  nd_channel : Z;
  nd_encType : option string
}.

(** One element of [results.threats]. *)
Record ThreatItem : Type := mkThreatItem {
  t_ssid : string;
  t_bssid : string;
  t_riskLevel : RiskLevel;
  t_harmScore : Z;
  t_threats : list ThreatFinding;
  t_recommendation : Recommendation;
  t_isHarmful : bool
}.

Record Results : Type := mkResults {
  processed : Z;
  updated : Z;
  created : Z;
  r_threats : list ThreatItem;
  errors : list string
}.

Inductive Response (A : Type) : Type :=
| Ok (body : A)
| Err (code : nat) (error : string).

Arguments Ok {A} body.
Arguments Err {A} code error.

Module Api.

(** [x || fallback] on a possibly absent string. *)
Definition orElse (x : option string) (fallback : string) : string :=
  match x with
  | Some s => if (s =? "")%string then fallback else s
  | None => fallback
  end.

(** The string [x] when [!x] is false. *)
Definition present (x : option string) : option string :=
  match x with
  | Some s => if (s =? "")%string then None else Some s
  | None => None
  end.

(** The [update] object of POST /scan.  [$slice: -20] is a key of the
    object under [$push.history], beside [rssi] and [timestamp]; there is
    no [$each]. *)
Definition updateOf (deviceId : string) (now : Z) (networkData : NetworkData)
  : Mongo.Update :=
  {| Mongo.u_ssid := orElse (nd_ssid networkData) "Hidden Network";
     Mongo.u_rssi := nd_rssi networkData;
     Mongo.u_channel := nd_channel networkData;
     Mongo.u_encType := orElse (nd_encType networkData) "Unknown";
     Mongo.u_lastSeen := now;
     Mongo.u_deviceId := deviceId;
     Mongo.u_inc_seenCount := 1;
     Mongo.u_push_history :=
       Mongo.Element
         [("rssi", nd_rssi networkData); ("timestamp", now); ("$slice", -20)] |}.

(** What one turn of the loop over [networks] did. *)
Inductive Outcome : Type :=
| Rejected (error : string)
| Handled (network : Network) (threatAssessment : ThreatAssessment).

Definition upsert (deviceId : string) (now : Z) (bssid : string)
           (networkData : NetworkData) (s : Store) : Store * Network :=
  Mongo.findOneAndUpdate now (Js.toUpperCase bssid)
                         (updateOf deviceId now networkData) s.

(** The auto-update of the status: the write happens in the same turn,
    right after the upsert and the assessment. *)
Definition autoStatus (now : Z) (network : Network)
           (threatAssessment : ThreatAssessment) (s : Store) : Store :=
  if isHarmful threatAssessment && Status_eqb (status network) unknown
  then fst (Mongo.findByIdAndUpdate now (_id network) suspicious s)
  else s.

(** The body of [for (const networkData of networks)] on a report that is
    an object with a bssid and an ssid that are strings or absent and with
    integer readings, upserted by a store that accepts it.  [allNetworks]
    is the array read once before the loop.  The turns that throw (a null
    element, a bssid that is no string, an upsert that the store refuses)
    are in [Wire.scanItem]. *)
Definition scanItem (deviceId : string) (allNetworks : list Network)
           (now : Z) (networkData : NetworkData) (s : Store)
  : Store * Outcome :=
  match present (nd_bssid networkData) with
  | None =>
      (s, Rejected ("Missing BSSID for network: " ++ Js.ofOpt (nd_ssid networkData)))
  | Some bssid =>
      let '(s1, network) := upsert deviceId now bssid networkData s in
      let threatAssessment :=
        ThreatDetector.assessThreat now network allNetworks (history network) in
      (autoStatus now network threatAssessment s1,
       Handled network threatAssessment)
  end.

Definition threatItem (network : Network) (a : ThreatAssessment) : ThreatItem :=
  {| t_ssid := ssid network;
     t_bssid := bssid network;
     t_riskLevel := riskLevel a;
     t_harmScore := harmScore a;
     t_threats := threats a;
     t_recommendation := recommendation a;
     t_isHarmful := isHarmful a |}.

(** The bookkeeping in [results] for one turn. *)
Definition account (results : Results) (o : Outcome) : Results :=
  match o with
  | Rejected e =>
      {| processed := processed results;
         updated := updated results;
         created := created results;
         r_threats := r_threats results;
         errors := (errors results ++ [e])%list |}
  | Handled network a =>
      {| processed := processed results + 1;
         updated := if seenCount network =? 1 then updated results
                    else updated results + 1;
         created := if seenCount network =? 1 then created results + 1
                    else created results;
         r_threats := if (0 <? List.length (threats a))%nat
                      then (r_threats results ++ [threatItem network a])%list
                      else r_threats results;
         errors := errors results |}
  end.

(** The instant of a turn: [clock k] is what [new Date()] reads in the
    [k]-th turn that reaches the upsert. *)
Definition turns (o : Outcome) (k : nat) : nat :=
  match o with
  | Rejected _ => k
  | Handled _ _ => S k
  end.

Fixpoint scanLoop (deviceId : string) (allNetworks : list Network)
         (clock : nat -> Z) (k : nat) (networks : list NetworkData)
         (s : Store) (results : Results) : Store * Results :=
  match networks with
  | [] => (s, results)
  | networkData :: rest =>
      let '(s', o) := scanItem deviceId allNetworks (clock k) networkData s in
      scanLoop deviceId allNetworks clock (turns o k) rest s' (account results o)
  end.

Record SecuritySummary : Type := mkSecuritySummary {
  threatsDetected : nat;
  criticalThreats : nat;
  highThreats : nat;
  harmfulNetworks : nat
}.

Record ScanResponse : Type := mkScanResponse {
  message : string;
  securitySummary : SecuritySummary;
  results : Results
}.

Definition emptyResults : Results :=
  {| processed := 0; updated := 0; created := 0; r_threats := []; errors := [] |}.

Definition summarize (l : list ThreatItem) : SecuritySummary :=
  {| threatsDetected := List.length l;
     criticalThreats :=
       List.length (filter (fun t => RiskLevel_eqb (t_riskLevel t) critical) l);
     highThreats :=
       List.length (filter (fun t => RiskLevel_eqb (t_riskLevel t) high) l);
     harmfulNetworks := List.length (filter t_isHarmful l) |}.

(** [const { networks, deviceId = 'ESP8266_001' } = req.body] *)
Definition deviceIdOf (deviceId : option string) : string :=
  match deviceId with
  | Some d => d
  | None => "ESP8266_001"
  end.

(** POST /scan, behind [validateApiKey], on reports as [scanItem] takes
    them.  [networks] is [None] when the body has no array under that key.
    The answer 500 of the outer [catch] is in [Wire.scan]. *)
Definition scan (deviceId : option string) (clock : nat -> Z)
           (networks : option (list NetworkData)) (s : Store)
  : Store * Response ScanResponse :=
  match networks with
  | None => (s, Err 400 "Invalid payload: networks array required")
  | Some l =>
      let allNetworks := Mongo.find s in
      let '(s', r) :=
        scanLoop (deviceIdOf deviceId) allNetworks clock 0 l s emptyResults in
      (s', Ok {| message := "Processed " ++ Js.ofZ (processed r) ++ " networks";
                 securitySummary := summarize (r_threats r);
                 results := r |})
  end.

Definition parseStatus (x : option string) : option Status :=
  match x with
  | Some s =>
      if (s =? "trusted")%string then Some trusted
      else if (s =? "unknown")%string then Some unknown
      else if (s =? "suspicious")%string then Some suspicious
      else None
  | None => None
  end.

(** PATCH /networks/:id/status for an [id] that the store takes as an
    ObjectId; [Wire.patchStatus] has the other ids. *)
Definition patchStatus (now : Z) (id : nat) (status : option string) (s : Store)
  : Store * Response Network :=
  match parseStatus status with
  | None => (s, Err 400 "Invalid status. Must be: trusted, unknown, or suspicious")
  | Some st =>
      match Mongo.findByIdAndUpdate now id st s with
      | (s', Some network) => (s', Ok network)
      | (s', None) => (s', Err 404 "Network not found")
      end
  end.

(** [threats.sort((a, b) => b.harmScore - a.harmScore)]: [Array.sort] is
    stable; here by insertion from the right, an element going in front
    of the first one whose score is not higher. *)
Fixpoint insertByHarm (a : ThreatAssessment) (l : list ThreatAssessment)
  : list ThreatAssessment :=
  match l with
  | [] => [a]
  | b :: r => if harmScore b <=? harmScore a then a :: b :: r
              else b :: insertByHarm a r
  end.

Fixpoint sortByHarm (l : list ThreatAssessment) : list ThreatAssessment :=
  match l with
  | [] => []
  | a :: r => insertByHarm a (sortByHarm r)
  end.

Record ThreatSummary : Type := mkThreatSummary {
  s_critical : nat;
  s_high : nat;
  s_medium : nat;
  s_low : nat;
  s_harmful : nat
}.

Record ThreatsResponse : Type := mkThreatsResponse {
  totalNetworks : nat;
  threatsAnalyzed : nat;
  summary : ThreatSummary;
  tr_threats : list ThreatAssessment
}.

Definition countLevel (r : RiskLevel) (l : list ThreatAssessment) : nat :=
  List.length (filter (fun t => RiskLevel_eqb (riskLevel t) r) l).

(** The test that keeps an assessment in GET /threats. *)
Definition reported (a : ThreatAssessment) : bool :=
  (0 <? List.length (threats a))%nat || (0 <? harmScore a).

(** GET /threats *)
Definition getThreats (now : Z) (s : Store) : ThreatsResponse :=
  let networks := Mongo.find s in
  let threats :=
    filter reported
      (map (fun network =>
              ThreatDetector.assessThreat now network networks (history network))
           networks) in
  let threats := sortByHarm threats in
  {| totalNetworks := List.length networks;
     threatsAnalyzed := List.length threats;
     summary := {| s_critical := countLevel critical threats;
                   s_high := countLevel high threats;
                   s_medium := countLevel medium threats;
                   s_low := countLevel low threats;
                   s_harmful := List.length (filter isHarmful threats) |};
     tr_threats := threats |}.

End Api.

(** * Properties *)

(** ** The threat correlation engine *)

Module Findings.

(** A check that returned a finding has fired. *)
Definition fired (o : option ThreatFinding) : bool :=
  match o with
  | Some _ => true
  | None => false
  end.

(** The points a check adds to [harmScore]. *)
Definition points (o : option ThreatFinding) (p : Z) : Z :=
  if fired o then p else 0.

(** The findings a check adds to [threats]. *)
Definition found (o : option ThreatFinding) : list ThreatFinding :=
  match o with
  | Some f => [f]
  | None => []
  end.

End Findings.

Import Findings.

Lemma record_eq (o : option ThreatFinding) (p : Z) (acc : ThreatDetector.tally) :
  ThreatDetector.record o p acc = ((fst acc ++ found o)%list, snd acc + points o p).
Proof.
  destruct o as [f|], acc as [l z]; unfold points; simpl.
  - reflexivity.
  - now rewrite app_nil_r, Z.add_0_r.
Qed.

Lemma found_length (o : option ThreatFinding) : (List.length (found o) <= 1)%nat.
Proof. destruct o; simpl; lia. Qed.

Lemma points_range (o : option ThreatFinding) (p : Z) :
  0 <= p -> 0 <= points o p <= p.
Proof. unfold points; destruct (fired o); lia. Qed.

Section Assessment.

Variables (now : Z) (network : Network) (allNetworks : list Network)
          (historicalData : list HistoryEntry).

Let a := ThreatDetector.assessThreat now network allNetworks historicalData.
Let c1 := ThreatDetector.checkSuspiciousSSID (ssid network).
Let c2 := ThreatDetector.detectEvilTwin network allNetworks.
Let c3 := ThreatDetector.checkOpenNetwork network.
Let c4 := ThreatDetector.detectSignalAnomalies network historicalData.
Let c5 := ThreatDetector.detectChannelThreats network allNetworks.
Let c6 := ThreatDetector.analyzeMACAddress (bssid network).

Lemma assessThreat_harmScore :
  harmScore a
  = points c1 30 + points c2 50 + points c3 25
    + points c4 35 + points c5 20 + points c6 15.
Proof.
  subst a; unfold ThreatDetector.assessThreat; cbn [harmScore].
  rewrite !record_eq; cbn [fst snd]. subst c1 c2 c3 c4 c5 c6. ring.
Qed.

Lemma assessThreat_threats :
  threats a
  = (found c1 ++ found c2 ++ found c3 ++ found c4 ++ found c5 ++ found c6)%list.
Proof.
  subst a; unfold ThreatDetector.assessThreat; cbn [threats].
  rewrite !record_eq; cbn [fst snd]. subst c1 c2 c3 c4 c5 c6.
  now rewrite <- !app_assoc.
Qed.

Lemma assessThreat_riskLevel :
  riskLevel a = ThreatDetector.classify (harmScore a).
Proof. reflexivity. Qed.

Lemma assessThreat_isHarmful : isHarmful a = (40 <=? harmScore a).
Proof. reflexivity. Qed.

End Assessment.

(** The three comparisons of [classify], case by case. *)
Ltac classify_cases h :=
  unfold ThreatDetector.classify;
  destruct (Z.leb_spec 70 h), (Z.leb_spec 40 h), (Z.leb_spec 20 h);
  split; intros; try discriminate; try lia; reflexivity.

Lemma classify_critical (h : Z) : ThreatDetector.classify h = critical <-> 70 <= h.
Proof. classify_cases h. Qed.

Lemma classify_high (h : Z) : ThreatDetector.classify h = high <-> 40 <= h < 70.
Proof. classify_cases h. Qed.

Lemma classify_medium (h : Z) : ThreatDetector.classify h = medium <-> 20 <= h < 40.
Proof. classify_cases h. Qed.

Lemma classify_low (h : Z) : ThreatDetector.classify h = low <-> h < 20.
Proof. classify_cases h. Qed.

(** C4.  For every call of [assessThreat], [harmScore] is the sum of the
    fixed points 30, 50, 25, 35, 20 and 15 of exactly the checks that
    returned a finding, with no ceiling, and [threats] holds the findings of
    those checks in the order of the checks; [riskLevel] is critical iff
    [harmScore >= 70], high iff [40 <= harmScore < 70], medium iff
    [20 <= harmScore < 40], low iff [harmScore < 20]; and [isHarmful] is
    true iff [harmScore >= 40]. *)
Theorem assessThreat_score_and_level :
  forall (now : Z) (network : Network) (allNetworks : list Network)
         (historicalData : list HistoryEntry),
    let a := ThreatDetector.assessThreat now network allNetworks historicalData in
    harmScore a
    = points (ThreatDetector.checkSuspiciousSSID (ssid network)) 30
      + points (ThreatDetector.detectEvilTwin network allNetworks) 50
      + points (ThreatDetector.checkOpenNetwork network) 25
      + points (ThreatDetector.detectSignalAnomalies network historicalData) 35
      + points (ThreatDetector.detectChannelThreats network allNetworks) 20
      + points (ThreatDetector.analyzeMACAddress (bssid network)) 15
    /\ threats a
       = (found (ThreatDetector.checkSuspiciousSSID (ssid network))
          ++ found (ThreatDetector.detectEvilTwin network allNetworks)
          ++ found (ThreatDetector.checkOpenNetwork network)
          ++ found (ThreatDetector.detectSignalAnomalies network historicalData)
          ++ found (ThreatDetector.detectChannelThreats network allNetworks)
          ++ found (ThreatDetector.analyzeMACAddress (bssid network)))%list
    /\ (riskLevel a = critical <-> 70 <= harmScore a)
    /\ (riskLevel a = high <-> 40 <= harmScore a < 70)
    /\ (riskLevel a = medium <-> 20 <= harmScore a < 40)
    /\ (riskLevel a = low <-> harmScore a < 20)
    /\ (isHarmful a = true <-> 40 <= harmScore a).
Proof.
  intros now network allNetworks historicalData a.
  split; [apply assessThreat_harmScore|].
  split; [apply assessThreat_threats|].
  subst a; rewrite assessThreat_riskLevel, assessThreat_isHarmful.
  repeat split;
    first [ apply classify_critical | apply classify_high
          | apply classify_medium | apply classify_low
          | apply Z.leb_le ]; assumption.
Qed.

Module Crowded.

(** An open access point with a deceptive name, a placeholder MAC and a
    jumping signal, among sixteen records on its channel, one of them a
    namesake. *)
Definition record (id : nat) (name mac enc : string) : Network :=
  {| _id := id; ssid := name; bssid := mac;
     rssi := -30; channel := 6; encType := enc;
     firstSeen := 0; lastSeen := 0; seenCount := 5; status := unknown;
     history := map (fun r => {| h_rssi := r; h_timestamp := 0 |})
                    [-30; -88; -31; -90; -30];
     deviceId := "ESP8266_001"; createdAt := 0; updatedAt := 0 |}.

Definition target : Network := record 0 "Free WiFi" "AA:BB:CC:00:00:00" "Open".

Definition others : list Network :=
  record 1 "Free WiFi" "AA:BB:CC:00:00:01" "WPA2"
  :: map (fun i => record (2 + i) "Cafe"
                          ("10:20:30:40:50:" ++ Js.ofZ (Z.of_nat (10 + i))) "WPA2")
         (seq 0 14).

Definition all : list Network := target :: others.

(** A secured access point of which nothing is known yet. *)
Definition quiet : Network := record 20 "Cafe" "10:20:30:40:50:60" "WPA2".

End Crowded.

(** C10.  For every call of [assessThreat], each of the six checks adds at
    most one finding, so [threats] has at most 6 entries, and [harmScore]
    lies between 0 and 175 = 30+50+25+35+20+15 inclusive; both ends are
    reached. *)
Theorem assessThreat_bounded :
  (forall (now : Z) (network : Network) (allNetworks : list Network)
          (historicalData : list HistoryEntry),
      let a := ThreatDetector.assessThreat now network allNetworks historicalData in
      (List.length (threats a) <= 6)%nat /\ 0 <= harmScore a <= 175)
  /\ harmScore (ThreatDetector.assessThreat 0 Crowded.target Crowded.all
                  (history Crowded.target)) = 175
  /\ List.length (threats (ThreatDetector.assessThreat 0 Crowded.target Crowded.all
                             (history Crowded.target))) = 6%nat
  /\ harmScore (ThreatDetector.assessThreat 0 Crowded.quiet [Crowded.quiet] []) = 0.
Proof.
  split; [|vm_compute; repeat split].
  intros now network allNetworks historicalData a; subst a.
  rewrite assessThreat_threats, assessThreat_harmScore, !length_app.
  pose proof (found_length (ThreatDetector.checkSuspiciousSSID (ssid network))).
  pose proof (found_length (ThreatDetector.detectEvilTwin network allNetworks)).
  pose proof (found_length (ThreatDetector.checkOpenNetwork network)).
  pose proof (found_length (ThreatDetector.detectSignalAnomalies network historicalData)).
  pose proof (found_length (ThreatDetector.detectChannelThreats network allNetworks)).
  pose proof (found_length (ThreatDetector.analyzeMACAddress (bssid network))).
  pose proof (points_range (ThreatDetector.checkSuspiciousSSID (ssid network)) 30).
  pose proof (points_range (ThreatDetector.detectEvilTwin network allNetworks) 50).
  pose proof (points_range (ThreatDetector.checkOpenNetwork network) 25).
  pose proof (points_range (ThreatDetector.detectSignalAnomalies network historicalData) 35).
  pose proof (points_range (ThreatDetector.detectChannelThreats network allNetworks) 20).
  pose proof (points_range (ThreatDetector.analyzeMACAddress (bssid network)) 15).
  lia.
Qed.

(** ** Signal anomalies *)

(** [m] is the largest (smallest) value of [l]. *)
Definition isMaxOf (m : Z) (l : list Z) : Prop :=
  In m l /\ forall x, In x l -> x <= m.

Definition isMinOf (m : Z) (l : list Z) : Prop :=
  In m l /\ forall x, In x l -> m <= x.

Lemma fold_left_max_spec (r : list Z) :
  forall x, isMaxOf (fold_left Z.max r x) (x :: r).
Proof.
  induction r as [|y r IH]; intros x; simpl.
  - split; [now left | intros z [<-|[]]; lia].
  - destruct (IH (Z.max x y)) as [Hin Hle]. split.
    + destruct Hin as [E|Hin].
      * rewrite <- E. destruct (Z.max_spec x y) as [[_ ->]|[_ ->]]; simpl; auto.
      * simpl; auto.
    + pose proof (Hle (Z.max x y) (or_introl eq_refl)) as Hxy.
      intros z [<-|[<-|Hz]]; [lia | lia | apply Hle; now right].
Qed.

Lemma fold_left_min_spec (r : list Z) :
  forall x, isMinOf (fold_left Z.min r x) (x :: r).
Proof.
  induction r as [|y r IH]; intros x; simpl.
  - split; [now left | intros z [<-|[]]; lia].
  - destruct (IH (Z.min x y)) as [Hin Hle]. split.
    + destruct Hin as [E|Hin].
      * rewrite <- E. destruct (Z.min_spec x y) as [[_ ->]|[_ ->]]; simpl; auto.
      * simpl; auto.
    + pose proof (Hle (Z.min x y) (or_introl eq_refl)) as Hxy.
      intros z [<-|[<-|Hz]]; [lia | lia | apply Hle; now right].
Qed.

Lemma maxOf_spec (l : list Z) : l <> [] -> isMaxOf (ThreatDetector.maxOf l) l.
Proof. destruct l; [congruence | intros _; apply fold_left_max_spec]. Qed.

Lemma minOf_spec (l : list Z) : l <> [] -> isMinOf (ThreatDetector.minOf l) l.
Proof. destruct l; [congruence | intros _; apply fold_left_min_spec]. Qed.

Lemma sliceLast_suffix {A : Type} (n : nat) (l : list A) :
  l = (firstn (List.length l - n) l ++ Js.sliceLast n l)%list.
Proof. unfold Js.sliceLast. now rewrite firstn_skipn. Qed.

Lemma sliceLast_length {A : Type} (n : nat) (l : list A) :
  List.length (Js.sliceLast n l) = Nat.min n (List.length l).
Proof. unfold Js.sliceLast. rewrite length_skipn. lia. Qed.

Lemma isMaxOf_unique (l : list Z) (m m' : Z) :
  isMaxOf m l -> isMaxOf m' l -> m = m'.
Proof. intros [I1 L1] [I2 L2]. specialize (L1 _ I2). specialize (L2 _ I1). lia. Qed.

Lemma isMinOf_unique (l : list Z) (m m' : Z) :
  isMinOf m l -> isMinOf m' l -> m = m'.
Proof. intros [I1 L1] [I2 L2]. specialize (L1 _ I2). specialize (L2 _ I1). lia. Qed.

(** C7.  The signal-anomaly check returns nothing when the history passed
    to it has fewer than 5 entries.  Otherwise, with [hi] and [lo] the
    largest and the smallest rssi over the last 10 entries: if
    [hi - lo > 20] it returns the variation finding, whatever the
    observation count; else if the observation count is above 100 it
    returns the high-frequency finding; else nothing.  It returns at most
    one finding per call, worth 35 points in [assessThreat]. *)
Theorem detectSignalAnomalies_cases :
  forall (network : Network) (historicalData : list HistoryEntry),
    let recent := Js.sliceLast 10 historicalData in
    let r := ThreatDetector.detectSignalAnomalies network historicalData in
    (exists older, historicalData = (older ++ recent)%list)
    /\ List.length recent = Nat.min 10 (List.length historicalData)
    /\ ((List.length historicalData < 5)%nat -> r = None)
    /\ ((5 <= List.length historicalData)%nat ->
        forall hi lo,
          isMaxOf hi (map h_rssi recent) -> isMinOf lo (map h_rssi recent) ->
          (20 < hi - lo ->
           exists f, r = Some f /\ type f = "signal_anomaly"
                     /\ severity f = "medium")
          /\ (hi - lo <= 20 -> 100 < seenCount network ->
              exists f, r = Some f /\ type f = "high_frequency"
                        /\ severity f = "medium")
          /\ (hi - lo <= 20 -> seenCount network <= 100 -> r = None))
    /\ ((5 <= List.length historicalData)%nat ->
        exists hi lo,
          isMaxOf hi (map h_rssi recent) /\ isMinOf lo (map h_rssi recent))
    /\ (forall now allNetworks,
          harmScore (ThreatDetector.assessThreat now network allNetworks historicalData)
          = (if fired r then 35 else 0)
            + (points (ThreatDetector.checkSuspiciousSSID (ssid network)) 30
               + points (ThreatDetector.detectEvilTwin network allNetworks) 50
               + points (ThreatDetector.checkOpenNetwork network) 25
               + points (ThreatDetector.detectChannelThreats network allNetworks) 20
               + points (ThreatDetector.analyzeMACAddress (bssid network)) 15)).
Proof.
  intros network historicalData recent r.
  assert (Hne : (5 <= List.length historicalData)%nat -> map h_rssi recent <> []).
  { intros H E. apply (f_equal (@List.length Z)) in E.
    subst recent. rewrite length_map, sliceLast_length in E.
    cbn [List.length] in E. lia. }
  split; [exists (firstn (List.length historicalData - 10) historicalData);
          apply sliceLast_suffix|].
  split; [apply sliceLast_length|].
  split.
  { intros H. subst r. unfold ThreatDetector.detectSignalAnomalies.
    apply Nat.ltb_lt in H. now rewrite H. }
  split.
  { intros H hi lo Hhi Hlo.
    assert (Hv : ThreatDetector.signalVariation historicalData = hi - lo).
    { unfold ThreatDetector.signalVariation. fold recent.
      rewrite (isMaxOf_unique _ _ _ (maxOf_spec _ (Hne H)) Hhi).
      now rewrite (isMinOf_unique _ _ _ (minOf_spec _ (Hne H)) Hlo). }
    subst r. unfold ThreatDetector.detectSignalAnomalies.
    assert (Hl : (List.length historicalData <? 5)%nat = false)
      by (apply Nat.ltb_ge; exact H).
    rewrite Hl, Hv.
    unfold threatPatterns.rapidSignalChanges, threatPatterns.highSeenCount.
    repeat split.
    - intros Hgt. apply Z.ltb_lt in Hgt. rewrite Hgt. eexists. repeat split.
    - intros Hle Hc. apply Z.ltb_ge in Hle. apply Z.ltb_lt in Hc.
      rewrite Hle, Hc. eexists. repeat split.
    - intros Hle Hc. apply Z.ltb_ge in Hle. apply Z.ltb_ge in Hc.
      now rewrite Hle, Hc. }
  split.
  { intros H. exists (ThreatDetector.maxOf (map h_rssi recent)),
                     (ThreatDetector.minOf (map h_rssi recent)).
    split; [apply maxOf_spec | apply minOf_spec]; auto. }
  intros now allNetworks. rewrite assessThreat_harmScore.
  fold r. unfold points at 4. ring.
Qed.

(** ** Evil twins *)

(** [n] is another record with the name of [t]: same ssid, different
    bssid. *)
Definition sibling (t n : Network) : Prop :=
  ssid n = ssid t /\ bssid n <> bssid t.

(** The order of the specification on encryption types,
    Open < WEP < {WPA, WPA2, WPA3}; any other value has no rank. *)
Definition encRank (e : string) : option nat :=
  if (e =? "Open")%string then Some 0%nat
  else if (e =? "WEP")%string then Some 1%nat
  else if Js.includes ["WPA"; "WPA2"; "WPA3"] e then Some 2%nat
  else None.

(** [a] is strictly stronger than [b] in that order. *)
Definition strictlyStronger (a b : string) : Prop :=
  match encRank a, encRank b with
  | Some x, Some y => (y < x)%nat
  | _, _ => False
  end.

Lemma similarTo_sibling (t n : Network) :
  ThreatDetector.similarTo t n = true <-> sibling t n.
Proof.
  unfold ThreatDetector.similarTo, sibling.
  rewrite andb_true_iff, negb_true_iff, String.eqb_eq, String.eqb_neq.
  reflexivity.
Qed.

Lemma weakerThan_stronger (t n : Network) :
  ThreatDetector.weakerThan t n = true ->
  encType t = "Open" \/ strictlyStronger (encType n) (encType t).
Proof.
  unfold ThreatDetector.weakerThan, strictlyStronger, encRank.
  set (wpa := Js.includes ["WPA"; "WPA2"; "WPA3"]).
  destruct (String.eqb_spec (encType t) "Open") as [Ho|Ho]; [now left|].
  destruct (String.eqb_spec (encType t) "WEP") as [Hw|Hw]; simpl; [|discriminate].
  intros Hin. right.
  destruct (String.eqb_spec (encType n) "Open") as [Hno|Hno].
  { rewrite Hno in Hin. discriminate. }
  destruct (String.eqb_spec (encType n) "WEP") as [Hnw|Hnw].
  { rewrite Hnw in Hin. discriminate. }
  rewrite Hin. lia.
Qed.

Lemma stronger_weakerThan (t n : Network) :
  strictlyStronger (encType n) (encType t) ->
  encType t <> "Open" ->
  ThreatDetector.weakerThan t n = true.
Proof.
  unfold ThreatDetector.weakerThan, strictlyStronger, encRank.
  set (wpa := Js.includes ["WPA"; "WPA2"; "WPA3"]).
  intros H Ho.
  destruct (String.eqb_spec (encType t) "Open") as [|_]; [contradiction|].
  destruct (String.eqb_spec (encType t) "WEP") as [Hw|Hw]; simpl.
  - destruct (String.eqb_spec (encType n) "Open"); [lia|].
    destruct (String.eqb_spec (encType n) "WEP"); [lia|].
    destruct (wpa (encType n)); [reflexivity|contradiction].
  - destruct (wpa (encType t)).
    + destruct (String.eqb_spec (encType n) "Open"); [lia|].
      destruct (String.eqb_spec (encType n) "WEP"); [lia|].
      destruct (wpa (encType n)); [lia|contradiction].
    + destruct (String.eqb_spec (encType n) "Open"); [contradiction|].
      destruct (String.eqb_spec (encType n) "WEP"); [contradiction|].
      destruct (wpa (encType n)); contradiction.
Qed.

Lemma detectEvilTwin_fired (t : Network) (allNetworks : list Network) :
  fired (ThreatDetector.detectEvilTwin t allNetworks) = true
  <-> (exists n, In n allNetworks /\ sibling t n)
      /\ (encType t = "Open"
          \/ exists n, In n allNetworks /\ sibling t n
                       /\ strictlyStronger (encType n) (encType t)).
Proof.
  unfold ThreatDetector.detectEvilTwin.
  set (sim := filter (ThreatDetector.similarTo t) allNetworks).
  assert (Hsim : forall n, In n sim <-> In n allNetworks /\ sibling t n).
  { intros n. subst sim. now rewrite filter_In, similarTo_sibling. }
  split.
  - destruct (0 <? List.length sim)%nat eqn:Hlen; [|discriminate].
    destruct (existsb (ThreatDetector.weakerThan t) sim
              || (encType t =? "Open")%string) eqn:Hw; [|discriminate].
    intros _. split.
    + destruct sim as [|n0 sim'] eqn:E; [discriminate|].
      exists n0. apply Hsim. now left.
    + apply orb_true_iff in Hw. destruct Hw as [Hw|Hw].
      * apply existsb_exists in Hw. destruct Hw as [n [Hn Hweak]].
        destruct (weakerThan_stronger _ _ Hweak) as [Ho|Hs]; [now left|].
        right. exists n. apply Hsim in Hn. tauto.
      * left. now apply String.eqb_eq.
  - intros [[n0 Hn0] Hor].
    apply Hsim in Hn0.
    assert (Hlen : (0 <? List.length sim)%nat = true).
    { apply Nat.ltb_lt. destruct sim; [contradiction | simpl; lia]. }
    rewrite Hlen.
    assert (Hw : existsb (ThreatDetector.weakerThan t) sim
                 || (encType t =? "Open")%string = true).
    { apply orb_true_iff.
      destruct (String.eqb_spec (encType t) "Open") as [Ho|Ho]; [now right|].
      left. destruct Hor as [Ho'|[n [Hn [Hsib Hs]]]]; [contradiction|].
      apply existsb_exists. exists n. split.
      - apply Hsim. tauto.
      - now apply stronger_weakerThan. }
    now rewrite Hw.
Qed.

Module OfficeNet.

(** The two records of the example, as intake creates them. *)
Definition secured : Network :=
  {| _id := 0; ssid := "OfficeNet"; bssid := "11:22:33:44:55:66";
     rssi := -52; channel := 6; encType := "WPA2";
     firstSeen := 0; lastSeen := 0; seenCount := 1; status := unknown;
     history := [{| h_rssi := -52; h_timestamp := 0 |}];
     deviceId := "ESP8266_001"; createdAt := 0; updatedAt := 0 |}.

Definition open : Network :=
  {| _id := 1; ssid := "OfficeNet"; bssid := "11:22:33:44:55:67";
     rssi := -47; channel := 6; encType := "Open";
     firstSeen := 0; lastSeen := 0; seenCount := 1; status := unknown;
     history := [{| h_rssi := -47; h_timestamp := 0 |}];
     deviceId := "ESP8266_001"; createdAt := 0; updatedAt := 0 |}.

Definition both : list Network := [secured; open].

Definition assess (n : Network) : ThreatAssessment :=
  ThreatDetector.assessThreat 1 n both (history n).

End OfficeNet.

(** C3.  For every target record and record set, the evil-twin check
    fires iff some other record of the set has the target's ssid with a
    different bssid and, besides, the target's encryption is Open or some
    such sibling's encryption is strictly stronger than the target's in the
    order Open < WEP < {WPA, WPA2, WPA3}; the finding has severity high and
    adds 50 points; the check never fires when no other record carries the
    target's ssid.  For the two records OfficeNet/WPA2 and OfficeNet/Open
    the Open one is assessed with an evil-twin and an open-network finding,
    score 75, critical, and the WPA2 one with no finding, score 0, low, not
    harmful. *)
Theorem detectEvilTwin_spec :
  (forall (t : Network) (allNetworks : list Network),
      fired (ThreatDetector.detectEvilTwin t allNetworks) = true
      <-> (exists n, In n allNetworks /\ sibling t n)
          /\ (encType t = "Open"
              \/ exists n, In n allNetworks /\ sibling t n
                           /\ strictlyStronger (encType n) (encType t)))
  /\ (forall (t : Network) (allNetworks : list Network) (f : ThreatFinding),
         ThreatDetector.detectEvilTwin t allNetworks = Some f ->
         type f = "evil_twin" /\ severity f = "high")
  /\ (forall (now : Z) (t : Network) (allNetworks : list Network)
             (historicalData : list HistoryEntry),
         harmScore (ThreatDetector.assessThreat now t allNetworks historicalData)
         = (if fired (ThreatDetector.detectEvilTwin t allNetworks) then 50 else 0)
           + (points (ThreatDetector.checkSuspiciousSSID (ssid t)) 30
              + points (ThreatDetector.checkOpenNetwork t) 25
              + points (ThreatDetector.detectSignalAnomalies t historicalData) 35
              + points (ThreatDetector.detectChannelThreats t allNetworks) 20
              + points (ThreatDetector.analyzeMACAddress (bssid t)) 15))
  /\ (forall (t : Network) (allNetworks : list Network),
         (forall n, In n allNetworks -> ssid n = ssid t -> bssid n = bssid t) ->
         ThreatDetector.detectEvilTwin t allNetworks = None)
  /\ (map type (threats (OfficeNet.assess OfficeNet.open))
      = ["evil_twin"; "open_network"]
      /\ harmScore (OfficeNet.assess OfficeNet.open) = 50 + 25
      /\ riskLevel (OfficeNet.assess OfficeNet.open) = critical
      /\ threats (OfficeNet.assess OfficeNet.secured) = []
      /\ harmScore (OfficeNet.assess OfficeNet.secured) = 0
      /\ riskLevel (OfficeNet.assess OfficeNet.secured) = low
      /\ isHarmful (OfficeNet.assess OfficeNet.secured) = false).
Proof.
  split; [exact detectEvilTwin_fired|].
  split.
  { intros t allNetworks f. unfold ThreatDetector.detectEvilTwin.
    destruct (0 <? _)%nat; [|discriminate].
    destruct (_ || _); [|discriminate].
    intros E; injection E as <-. split; reflexivity. }
  split.
  { intros now t allNetworks historicalData.
    rewrite assessThreat_harmScore. unfold points at 2. ring. }
  split.
  { intros t allNetworks Huniq.
    destruct (ThreatDetector.detectEvilTwin t allNetworks) as [f|] eqn:E;
      [|reflexivity].
    assert (Hf : fired (ThreatDetector.detectEvilTwin t allNetworks) = true)
      by now rewrite E.
    apply detectEvilTwin_fired in Hf. destruct Hf as [[n [Hn [Hs Hb]]] _].
    exfalso. apply Hb. now apply Huniq. }
  vm_compute. repeat split.
Qed.

(** ** The store *)

(** Documents have pairwise distinct [_id]s, all below the next fresh one. *)
Definition wf (s : Store) : Prop :=
  NoDup (map _id (docs s))
  /\ Forall (fun n => (_id n < nextId s)%nat) (docs s).

Definition findByBssid (b : string) (s : Store) : option Network :=
  List.find (fun n => (bssid n =? Js.toUpperCase b)%string) (docs s).

Lemma updateFirst_None (p : Network -> bool) (f : Network -> Network)
      (l : list Network) :
  Mongo.updateFirst p f l = None <-> List.find p l = None.
Proof.
  induction l as [|n l IH]; simpl; [tauto|].
  destruct (p n); [split; discriminate|].
  destruct (Mongo.updateFirst p f l) as [[l' m]|].
  - split; [discriminate|]. intros H. apply IH in H. discriminate.
  - split; [intros _; now apply IH | reflexivity].
Qed.

Lemma updateFirst_Some (p : Network -> bool) (f : Network -> Network)
      (l l' : list Network) (m : Network) :
  Mongo.updateFirst p f l = Some (l', m) ->
  exists pre n post,
    l = (pre ++ n :: post)%list /\ l' = (pre ++ f n :: post)%list
    /\ m = f n /\ List.find p l = Some n
    /\ forall x, In x pre -> p x = false.
Proof.
  revert l' m. induction l as [|n l IH]; simpl; intros l' m H; [discriminate|].
  destruct (p n) eqn:Hp.
  - injection H as <- <-. exists [], n, l. repeat split. intros x [].
  - destruct (Mongo.updateFirst p f l) as [[r' m']|]; [|discriminate].
    injection H as <- <-.
    destruct (IH _ _ eq_refl) as (pre & x & post & -> & -> & -> & Hf & Hpre).
    exists (n :: pre), x, post. repeat split; auto.
    intros y [<-|Hy]; auto.
Qed.

Section UpdateFirst.

Variables (p : Network -> bool) (f : Network -> Network).
Hypothesis f_id : forall n, _id (f n) = _id n.

Lemma updateFirst_ids (l l' : list Network) (m : Network) :
  Mongo.updateFirst p f l = Some (l', m) ->
  map _id l' = map _id l /\ In m l'.
Proof.
  intros H. apply updateFirst_Some in H.
  destruct H as (pre & n & post & -> & -> & -> & _ & _).
  rewrite !map_app; simpl. rewrite f_id. split; [reflexivity|].
  apply in_or_app. right. now left.
Qed.

(** A document found by its [_id] is still found after the update, and
    it is either untouched or the updated one. *)
Lemma updateFirst_find_id (l l' : list Network) (m : Network) (id : nat)
      (n : Network) :
  Mongo.updateFirst p f l = Some (l', m) ->
  List.find (fun x => (_id x =? id)%nat) l = Some n ->
  List.find (fun x => (_id x =? id)%nat) l' = Some n
  \/ List.find (fun x => (_id x =? id)%nat) l' = Some (f n).
Proof.
  revert l' m. induction l as [|x l IH]; simpl; intros l' m H Hn; [discriminate|].
  destruct (p x) eqn:Hp.
  - injection H as <- <-. simpl. rewrite f_id.
    destruct (_id x =? id)%nat; [injection Hn as <-|]; auto.
  - destruct (Mongo.updateFirst p f l) as [[r' m']|] eqn:E; [|discriminate].
    injection H as <- <-. simpl.
    destruct (_id x =? id)%nat; [auto|]. eapply IH; eauto.
Qed.

End UpdateFirst.

(** Updating the first document with a given [_id]: it is the one found
    by that [_id] afterwards, and no other [_id] sees a change. *)
Lemma updateFirst_by_id (f : Network -> Network) (k : nat)
      (l l' : list Network) (m : Network) :
  (forall n, _id (f n) = _id n) ->
  Mongo.updateFirst (fun x => (_id x =? k)%nat) f l = Some (l', m) ->
  (exists n, List.find (fun x => (_id x =? k)%nat) l = Some n /\ m = f n)
  /\ List.find (fun x => (_id x =? k)%nat) l' = Some m
  /\ forall id, id <> k ->
       List.find (fun x => (_id x =? id)%nat) l'
       = List.find (fun x => (_id x =? id)%nat) l.
Proof.
  intros f_id. revert l' m.
  induction l as [|x l IH]; simpl; intros l' m H; [discriminate|].
  destruct (_id x =? k)%nat eqn:Hk.
  - injection H as <- <-. simpl. rewrite f_id, Hk.
    split; [eauto|]. split; [reflexivity|].
    intros id Hid. apply Nat.eqb_eq in Hk.
    assert (Hne : (_id x =? id)%nat = false) by (apply Nat.eqb_neq; lia).
    now rewrite Hne.
  - destruct (Mongo.updateFirst _ f l) as [[r' m']|] eqn:E; [|discriminate].
    injection H as <- <-. simpl. rewrite Hk.
    destruct (IH _ _ eq_refl) as (Hex & Hm & Hother).
    split; [exact Hex|]. split; [exact Hm|].
    intros id Hid. rewrite (Hother id Hid). reflexivity.
Qed.

Lemma find_id_unique (l : list Network) (n : Network) :
  NoDup (map _id l) -> In n l ->
  List.find (fun x => (_id x =? _id n)%nat) l = Some n.
Proof.
  induction l as [|x l IH]; simpl; intros Hnd Hin; [contradiction|].
  inversion Hnd as [|? ? Hx Hnd']; subst.
  destruct Hin as [->|Hin].
  - now rewrite Nat.eqb_refl.
  - destruct (Nat.eqb_spec (_id x) (_id n)) as [E|_]; [|auto].
    exfalso. apply Hx. rewrite E. now apply in_map.
Qed.

Lemma find_app_found {A : Type} (p : A -> bool) (l r : list A) (x : A) :
  List.find p l = Some x -> List.find p (l ++ r) = Some x.
Proof.
  induction l as [|y l IH]; simpl; [discriminate|].
  destruct (p y); auto.
Qed.

Lemma applyUpdate_id (now : Z) (u : Mongo.Update) (n : Network) :
  _id (Mongo.applyUpdate now u n) = _id n.
Proof. reflexivity. Qed.

Lemma setStatus_id (now : Z) (st : Status) (n : Network) :
  _id (Mongo.setStatus now st n) = _id n.
Proof. reflexivity. Qed.

(** What [findOneAndUpdate] does to the collection, by cases on the
    document that carries the bssid. *)
Lemma findOneAndUpdate_cases (now : Z) (b : string) (u : Mongo.Update) (s : Store) :
  let '(s1, network) := Mongo.findOneAndUpdate now b u s in
  match findByBssid b s with
  | Some n =>
      network = Mongo.applyUpdate now u n
      /\ map _id (docs s1) = map _id (docs s)
      /\ nextId s1 = nextId s
      /\ In network (docs s1)
  | None =>
      network = Mongo.inserted now (nextId s) b u
      /\ docs s1 = (docs s ++ [network])%list
      /\ nextId s1 = S (nextId s)
  end.
Proof.
  unfold Mongo.findOneAndUpdate, findByBssid.
  destruct (Mongo.updateFirst _ _ (docs s)) as [[l m]|] eqn:E.
  - pose proof (updateFirst_ids _ _ (applyUpdate_id now u) _ _ _ E) as [Hids Hin].
    apply updateFirst_Some in E.
    destruct E as (pre & n & post & _ & _ & -> & Hf & _).
    rewrite Hf. simpl. auto.
  - apply updateFirst_None in E. rewrite E. auto.
Qed.

Lemma findOneAndUpdate_wf (now : Z) (b : string) (u : Mongo.Update) (s : Store) :
  wf s ->
  wf (fst (Mongo.findOneAndUpdate now b u s))
  /\ In (snd (Mongo.findOneAndUpdate now b u s))
        (docs (fst (Mongo.findOneAndUpdate now b u s))).
Proof.
  intros [Hnd Hlt].
  pose proof (findOneAndUpdate_cases now b u s) as H.
  destruct (Mongo.findOneAndUpdate now b u s) as [s1 network]; simpl.
  destruct (findByBssid b s) as [n|].
  - destruct H as (_ & Hids & Hnext & Hin). split; [|exact Hin].
    unfold wf. split; [now rewrite Hids|].
    rewrite Hnext. apply Forall_forall. intros x Hx.
    apply (in_map _id) in Hx. rewrite Hids in Hx.
    apply in_map_iff in Hx. destruct Hx as (y & <- & Hy).
    rewrite Forall_forall in Hlt. now apply Hlt.
  - destruct H as (-> & Hdocs & Hnext). unfold wf. rewrite Hdocs, Hnext.
    split; [|apply in_or_app; right; now left].
    split.
    + rewrite map_app. simpl.
      apply NoDup_app; [exact Hnd | constructor; [intros []|constructor] |].
      intros x Hx [<-|[]]. apply in_map_iff in Hx.
      destruct Hx as (y & Hy & Hin). rewrite Forall_forall in Hlt.
      specialize (Hlt _ Hin). simpl in Hy. lia.
    + apply Forall_app. split.
      * eapply Forall_impl; [|exact Hlt]. simpl. intros; lia.
      * constructor; [simpl; lia | constructor].
Qed.

(** The upsert leaves the status of every stored document as it is. *)
Lemma findOneAndUpdate_status (now : Z) (b : string) (u : Mongo.Update)
      (s : Store) (id : nat) (n : Network) :
  Mongo.findById id s = Some n ->
  exists n', Mongo.findById id (fst (Mongo.findOneAndUpdate now b u s)) = Some n'
             /\ status n' = status n.
Proof.
  unfold Mongo.findById, Mongo.findOneAndUpdate. intros Hn.
  destruct (Mongo.updateFirst _ _ (docs s)) as [[l m]|] eqn:E; simpl.
  - destruct (updateFirst_find_id _ _ (applyUpdate_id now u) _ _ _ id n E Hn)
      as [H|H]; rewrite H; eauto.
  - exists n. split; [|reflexivity]. now apply find_app_found.
Qed.

Lemma findByIdAndUpdate_wf (now : Z) (k : nat) (st : Status) (s : Store) :
  wf s -> wf (fst (Mongo.findByIdAndUpdate now k st s)).
Proof.
  intros [Hnd Hlt]. unfold Mongo.findByIdAndUpdate.
  destruct (Mongo.updateFirst _ _ (docs s)) as [[l m]|] eqn:E; simpl;
    [|split; assumption].
  pose proof (updateFirst_ids _ _ (setStatus_id now st) _ _ _ E) as [Hids _].
  split; simpl; [now rewrite Hids|].
  apply Forall_forall. intros x Hx.
  apply (in_map _id) in Hx. rewrite Hids in Hx.
  apply in_map_iff in Hx. destruct Hx as (y & <- & Hy).
  rewrite Forall_forall in Hlt. now apply Hlt.
Qed.

(** ** Intake: one observation *)

(** The history entry that an observation appends. *)
Definition observed (now : Z) (networkData : NetworkData) : HistoryEntry :=
  {| h_rssi := nd_rssi networkData; h_timestamp := now |}.

Lemma upsert_observation (deviceId : string) (now : Z) (b : string)
      (networkData : NetworkData) (s : Store) :
  let network := snd (Api.upsert deviceId now b networkData s) in
  match findByBssid (Js.toUpperCase b) s with
  | Some n =>
      _id network = _id n
      /\ status network = status n
      /\ seenCount network = seenCount n + 1
      /\ history network = (history n ++ [observed now networkData])%list
  | None =>
      status network = unknown
      /\ seenCount network = 1
      /\ history network = [observed now networkData]
  end.
Proof.
  unfold Api.upsert.
  pose proof (findOneAndUpdate_cases now (Js.toUpperCase b)
                (Api.updateOf deviceId now networkData) s) as H.
  destruct (Mongo.findOneAndUpdate _ _ _ s) as [s1 network]; simpl.
  destruct (findByBssid (Js.toUpperCase b) s) as [n|].
  - destruct H as (-> & _). repeat split.
  - destruct H as (-> & _). repeat split.
Qed.

(** With [$each], [$slice: -20] would cap the array. *)
Lemma applyPush_each_capped (now : Z) (o : Mongo.Obj) (h : list HistoryEntry) :
  List.length (Mongo.applyPush now (Mongo.Each [o] (Some (-20))) h)
  = Nat.min (List.length h + 1) 20.
Proof.
  unfold Mongo.applyPush, Mongo.applySlice.
  change (-20 <? 0) with true. cbv iota.
  change (Z.to_nat (- -20)) with 20%nat.
  rewrite sliceLast_length, length_app, length_map. cbn [List.length]. lia.
Qed.

Module Repeated.

(** The same access point, reported 21 times. *)
Definition report : NetworkData :=
  {| nd_ssid := Some "HomeNet"; nd_bssid := Some "3c:84:6a:10:20:30";
     nd_rssi := -61; nd_channel := 1; nd_encType := Some "WPA2" |}.

Definition empty : Store := {| docs := []; nextId := 0 |}.

Definition after (times : nat) : Store :=
  fst (Api.scan None (fun k => Z.of_nat k)
                (Some (repeat report times)) empty).

End Repeated.

(** C1.  Every observation of a stored bssid adds one to [seenCount] and
    appends one entry to [history]; nothing is evicted: the [$slice: -20]
    of the update is a key of the pushed element, which the sub-schema of
    [history] drops.  After 20 observations of one access point the history
    has 20 entries, after the 21st it has 21. *)
Theorem history_exceeds_20 :
  (forall (deviceId : string) (now : Z) (b : string)
          (networkData : NetworkData) (s : Store) (n : Network),
      findByBssid (Js.toUpperCase b) s = Some n ->
      let network := snd (Api.upsert deviceId now b networkData s) in
      seenCount network = seenCount n + 1
      /\ List.length (history network) = S (List.length (history n)))
  /\ map (fun n => (seenCount n, List.length (history n))) (docs (Repeated.after 20))
     = [(20, 20%nat)]
  /\ map (fun n => (seenCount n, List.length (history n))) (docs (Repeated.after 21))
     = [(21, 21%nat)].
Proof.
  split.
  - intros deviceId now b networkData s n Hn network.
    pose proof (upsert_observation deviceId now b networkData s) as H.
    fold network in H. rewrite Hn in H. destruct H as (_ & _ & Hc & Hh).
    split; [exact Hc|]. rewrite Hh, length_app. simpl. lia.
  - split; vm_compute; reflexivity.
Qed.

(** ** Intake: the status of a record *)

Lemma upsert_wf (deviceId : string) (now : Z) (b : string)
      (networkData : NetworkData) (s : Store) :
  wf s ->
  wf (fst (Api.upsert deviceId now b networkData s))
  /\ Mongo.findById (_id (snd (Api.upsert deviceId now b networkData s)))
                    (fst (Api.upsert deviceId now b networkData s))
     = Some (snd (Api.upsert deviceId now b networkData s)).
Proof.
  intros Hwf. unfold Api.upsert.
  destruct (findOneAndUpdate_wf now (Js.toUpperCase b)
              (Api.updateOf deviceId now networkData) s Hwf) as [Hwf1 Hin].
  split; [exact Hwf1|].
  apply find_id_unique; [apply Hwf1 | exact Hin].
Qed.

(** The status that the auto-update leaves on the record of the turn. *)
Definition escalated (network : Network) (a : ThreatAssessment) : Status :=
  if isHarmful a && Status_eqb (status network) unknown then suspicious
  else status network.

Lemma Status_eqb_eq (a b : Status) : Status_eqb a b = true <-> a = b.
Proof. destruct a, b; simpl; split; intros; congruence. Qed.

Lemma autoStatus_effect (now : Z) (network : Network) (a : ThreatAssessment)
      (s1 : Store) :
  Mongo.findById (_id network) s1 = Some network ->
  let s2 := Api.autoStatus now network a s1 in
  (exists n2, Mongo.findById (_id network) s2 = Some n2
              /\ status n2 = escalated network a)
  /\ (forall id, id <> _id network -> Mongo.findById id s2 = Mongo.findById id s1)
  /\ (isHarmful a && Status_eqb (status network) unknown = false -> s2 = s1).
Proof.
  intros Hfind s2. subst s2. unfold Api.autoStatus, escalated.
  destruct (isHarmful a && Status_eqb (status network) unknown) eqn:Hc.
  - unfold Mongo.findByIdAndUpdate, Mongo.findById in *.
    destruct (Mongo.updateFirst _ _ (docs s1)) as [[l m]|] eqn:E.
    + destruct (updateFirst_by_id _ _ _ _ _ (setStatus_id now suspicious) E)
        as ((n & Hn & ->) & Hm & Hother).
      simpl. split; [eauto|]. split; [exact Hother | discriminate].
    + apply updateFirst_None in E. rewrite E in Hfind. discriminate.
  - split; [eauto|]. split; reflexivity.
Qed.

Lemma autoStatus_wf (now : Z) (network : Network) (a : ThreatAssessment)
      (s : Store) :
  wf s -> wf (Api.autoStatus now network a s).
Proof.
  intros H. unfold Api.autoStatus.
  destruct (_ && _); [now apply findByIdAndUpdate_wf | exact H].
Qed.

Lemma scanItem_rejected (deviceId : string) (allNetworks : list Network)
      (now : Z) (networkData : NetworkData) (s : Store) :
  Api.present (nd_bssid networkData) = None ->
  Api.scanItem deviceId allNetworks now networkData s
  = (s, Api.Rejected ("Missing BSSID for network: "
                      ++ Js.ofOpt (nd_ssid networkData))).
Proof. intros H. unfold Api.scanItem. now rewrite H. Qed.

Lemma scanItem_handled (deviceId : string) (allNetworks : list Network)
      (now : Z) (networkData : NetworkData) (s : Store) (b : string) :
  Api.present (nd_bssid networkData) = Some b ->
  let s1 := fst (Api.upsert deviceId now b networkData s) in
  let network := snd (Api.upsert deviceId now b networkData s) in
  let a := ThreatDetector.assessThreat now network allNetworks (history network) in
  Api.scanItem deviceId allNetworks now networkData s
  = (Api.autoStatus now network a s1, Api.Handled network a).
Proof.
  intros H. unfold Api.scanItem. rewrite H.
  now destruct (Api.upsert deviceId now b networkData s).
Qed.

Lemma scanItem_wf (deviceId : string) (allNetworks : list Network)
      (now : Z) (networkData : NetworkData) (s : Store) :
  wf s -> wf (fst (Api.scanItem deviceId allNetworks now networkData s)).
Proof.
  intros Hwf. destruct (Api.present (nd_bssid networkData)) as [b|] eqn:Hb.
  - rewrite (scanItem_handled _ _ _ _ _ _ Hb). simpl.
    apply autoStatus_wf. now apply upsert_wf.
  - now rewrite (scanItem_rejected _ _ _ _ _ Hb).
Qed.

(** One turn never changes a status other than [unknown]. *)
Lemma scanItem_status_kept (deviceId : string) (allNetworks : list Network)
      (now : Z) (networkData : NetworkData) (s : Store) (id : nat) (n : Network) :
  wf s ->
  Mongo.findById id s = Some n ->
  status n <> unknown ->
  exists n',
    Mongo.findById id (fst (Api.scanItem deviceId allNetworks now networkData s))
    = Some n'
    /\ status n' = status n.
Proof.
  intros Hwf Hn Hst.
  destruct (Api.present (nd_bssid networkData)) as [b|] eqn:Hb.
  2:{ rewrite (scanItem_rejected _ _ _ _ _ Hb). simpl. eauto. }
  rewrite (scanItem_handled _ _ _ _ _ _ Hb). simpl.
  destruct (upsert_wf deviceId now b networkData s Hwf) as [_ Hfind].
  destruct (findOneAndUpdate_status now (Js.toUpperCase b)
              (Api.updateOf deviceId now networkData) s id n Hn)
    as (n1 & Hn1 & Hs1).
  fold (Api.upsert deviceId now b networkData s) in Hn1.
  set (s1 := fst (Api.upsert deviceId now b networkData s)) in *.
  set (network := snd (Api.upsert deviceId now b networkData s)) in *.
  set (a := ThreatDetector.assessThreat now network allNetworks (history network)).
  destruct (autoStatus_effect now network a s1 Hfind) as (Hown & Hother & Hsame).
  destruct (Nat.eq_dec id (_id network)) as [->|Hne].
  - assert (n1 = network) by congruence. subst n1.
    destruct Hown as (n2 & Hn2 & Hs2). exists n2. split; [exact Hn2|].
    rewrite Hs2, <- Hs1. unfold escalated.
    destruct (Status_eqb (status network) unknown) eqn:Hu.
    + apply Status_eqb_eq in Hu. congruence.
    + now rewrite andb_false_r.
  - exists n1. rewrite (Hother id Hne). auto.
Qed.

Lemma scanLoop_wf (deviceId : string) (allNetworks : list Network)
      (clock : nat -> Z) (networks : list NetworkData) :
  forall (k : nat) (s : Store) (results : Results),
    wf s ->
    wf (fst (Api.scanLoop deviceId allNetworks clock k networks s results)).
Proof.
  induction networks as [|networkData rest IH]; intros k s results Hwf; simpl;
    [exact Hwf|].
  pose proof (scanItem_wf deviceId allNetworks (clock k) networkData s Hwf) as H.
  destruct (Api.scanItem deviceId allNetworks (clock k) networkData s) as [s' o].
  now apply IH.
Qed.

(** A whole batch never changes a status other than [unknown]. *)
Lemma scanLoop_status_kept (deviceId : string) (allNetworks : list Network)
      (clock : nat -> Z) (networks : list NetworkData) (id : nat) :
  forall (k : nat) (s : Store) (results : Results) (n : Network),
    wf s ->
    Mongo.findById id s = Some n ->
    status n <> unknown ->
    exists n',
      Mongo.findById id
        (fst (Api.scanLoop deviceId allNetworks clock k networks s results))
      = Some n'
      /\ status n' = status n.
Proof.
  induction networks as [|networkData rest IH]; intros k s results n Hwf Hn Hst;
    simpl; [eauto|].
  pose proof (scanItem_wf deviceId allNetworks (clock k) networkData s Hwf) as Hwf'.
  destruct (scanItem_status_kept deviceId allNetworks (clock k) networkData
              s id n Hwf Hn Hst) as (n1 & Hn1 & Hs1).
  destruct (Api.scanItem deviceId allNetworks (clock k) networkData s) as [s' o].
  simpl in *.
  destruct (IH (Api.turns o k) s' (Api.account results o) n1 Hwf' Hn1)
    as (n' & Hn' & Hs'); [congruence|].
  exists n'. split; [exact Hn' | congruence].
Qed.

Module FreeWifi.

(** An open access point with a deceptive name and a placeholder MAC. *)
Definition report : NetworkData :=
  {| nd_ssid := Some "Free_WiFi"; nd_bssid := Some "aa:bb:cc:11:22:33";
     nd_rssi := -40; nd_channel := 6; nd_encType := Some "Open" |}.

Definition empty : Store := {| docs := []; nextId := 0 |}.

Definition clock (k : nat) : Z := 1000 + Z.of_nat k.

(** The store after the report was ingested once. *)
Definition seen : Store :=
  fst (Api.scan (Some "ESP8266_001") clock (Some [report]) empty).

(** The operator marks the record as trusted. *)
Definition cleared : Store :=
  fst (Api.patchStatus 2000 0 (Some "trusted") seen).

End FreeWifi.

Lemma wf_empty : wf FreeWifi.empty.
Proof. split; constructor. Qed.

Lemma wf_cleared : wf FreeWifi.cleared.
Proof.
  split.
  - vm_compute. constructor; [intros []|constructor].
  - vm_compute. repeat constructor.
Qed.

(** C5.  In a turn of the intake loop that reaches the upsert, the record
    of the turn ends with status suspicious when the assessment is harmful
    and its status was exactly unknown, and with the status it had
    otherwise; no other record changes in the auto-update, and nothing is
    written when the condition fails.  The write is part of the turn: the
    next report is processed on the store that already has it.  Over a whole
    batch a record that is trusted or suspicious keeps its status. *)
Theorem autoStatus_only_from_unknown :
  forall (deviceId : string) (allNetworks : list Network) (clock : nat -> Z)
         (k : nat) (networkData : NetworkData) (rest networks : list NetworkData)
         (s : Store) (results : Results) (b : string),
    wf s ->
    Api.present (nd_bssid networkData) = Some b ->
    let s1 := fst (Api.upsert deviceId (clock k) b networkData s) in
    let network := snd (Api.upsert deviceId (clock k) b networkData s) in
    let a := ThreatDetector.assessThreat (clock k) network allNetworks
                                         (history network) in
    let s2 := fst (Api.scanItem deviceId allNetworks (clock k) networkData s) in
    (exists n2,
        Mongo.findById (_id network) s2 = Some n2
        /\ status n2 = (if isHarmful a && Status_eqb (status network) unknown
                        then suspicious else status network))
    /\ (forall id, id <> _id network -> Mongo.findById id s2 = Mongo.findById id s1)
    /\ (isHarmful a = false \/ status network <> unknown -> s2 = s1)
    /\ Api.scanLoop deviceId allNetworks clock k (networkData :: rest) s results
       = Api.scanLoop deviceId allNetworks clock (S k) rest s2
                      (Api.account results (Api.Handled network a))
    /\ (forall id n,
           Mongo.findById id s = Some n ->
           status n = trusted \/ status n = suspicious ->
           exists n',
             Mongo.findById id
               (fst (Api.scanLoop deviceId allNetworks clock k networks s results))
             = Some n'
             /\ status n' = status n).
Proof.
  intros deviceId allNetworks clock k networkData rest networks s results b
         Hwf Hb s1 network a s2.
  pose proof (scanItem_handled deviceId allNetworks (clock k) networkData s b Hb)
    as Hitem.
  cbv zeta in Hitem. fold s1 network a in Hitem.
  assert (Hs2 : s2 = Api.autoStatus (clock k) network a s1)
    by (subst s2; now rewrite Hitem).
  destruct (upsert_wf deviceId (clock k) b networkData s Hwf) as [_ Hfind].
  fold s1 network in Hfind.
  destruct (autoStatus_effect (clock k) network a s1 Hfind) as (Hown & Hother & Hsame).
  rewrite <- Hs2 in Hown, Hother, Hsame.
  split; [exact Hown|]. split; [exact Hother|]. split.
  { intros Hc. apply Hsame. destruct Hc as [->|Hc]; [reflexivity|].
    destruct (Status_eqb (status network) unknown) eqn:Hu.
    - apply Status_eqb_eq in Hu. contradiction.
    - apply andb_false_r. }
  split.
  { simpl. rewrite Hitem. simpl. now rewrite Hs2. }
  intros id n Hn Hst.
  apply scanLoop_status_kept; auto.
  destruct Hst as [->| ->]; discriminate.
Qed.

Lemma autoStatus_only_from_unknown_witness :
  wf FreeWifi.empty
  /\ Api.present (nd_bssid FreeWifi.report) = Some "aa:bb:cc:11:22:33"
  /\ exists n2,
       Mongo.findById 0
         (fst (Api.scanItem "ESP8266_001" [] (FreeWifi.clock 0)
                            FreeWifi.report FreeWifi.empty))
       = Some n2
       /\ status n2 = suspicious.
Proof.
  split; [exact wf_empty|]. split; [reflexivity|].
  destruct (autoStatus_only_from_unknown "ESP8266_001" [] FreeWifi.clock 0
              FreeWifi.report [] [] FreeWifi.empty Api.emptyResults
              "aa:bb:cc:11:22:33" wf_empty eq_refl) as [H _].
  exact H.
Defined.

(** C6, as the code has it.  The intake never returns a record to
    unknown: a record that is trusted or suspicious has the same status
    after any batch.  The manual patch writes whichever of the three
    statuses is asked for, unknown included, on the record with the given
    id and on no other; any other text is refused and nothing is written. *)
Theorem unknown_again_only_by_patch :
  forall (deviceId : string) (allNetworks : list Network) (clock : nat -> Z)
         (k : nat) (networks : list NetworkData) (s : Store) (results : Results)
         (now : Z) (id : nat) (n : Network),
    wf s ->
    Mongo.findById id s = Some n ->
    (status n <> unknown ->
     exists n',
       Mongo.findById id
         (fst (Api.scanLoop deviceId allNetworks clock k networks s results))
       = Some n'
       /\ status n' = status n /\ status n' <> unknown)
    /\ (forall text st,
           Api.parseStatus text = Some st ->
           exists n',
             Api.patchStatus now id text s
             = (fst (Api.patchStatus now id text s), Ok n')
             /\ Mongo.findById id (fst (Api.patchStatus now id text s)) = Some n'
             /\ status n' = st
             /\ forall id', id' <> id ->
                  Mongo.findById id' (fst (Api.patchStatus now id text s))
                  = Mongo.findById id' s)
    /\ (forall text,
           Api.parseStatus text = None ->
           Api.patchStatus now id text s
           = (s, Err 400 "Invalid status. Must be: trusted, unknown, or suspicious"))
    /\ Api.parseStatus (Some "unknown") = Some unknown
    /\ Api.parseStatus (Some "trusted") = Some trusted
    /\ Api.parseStatus (Some "suspicious") = Some suspicious.
Proof.
  intros deviceId allNetworks clock k networks s results now id n Hwf Hn.
  split.
  { intros Hst.
    destruct (scanLoop_status_kept deviceId allNetworks clock networks id
                k s results n Hwf Hn Hst) as (n' & Hn' & Hs').
    exists n'. repeat split; auto. congruence. }
  split.
  { intros text st Hp. unfold Api.patchStatus, Mongo.findByIdAndUpdate.
    rewrite Hp.
    destruct (Mongo.updateFirst _ _ (docs s)) as [[l m]|] eqn:E.
    - destruct (updateFirst_by_id _ _ _ _ _ (setStatus_id now st) E)
        as ((n0 & Hn0 & ->) & Hm & Hother).
      exists (Mongo.setStatus now st n0). simpl. repeat split; auto.
    - apply updateFirst_None in E. unfold Mongo.findById in Hn.
      rewrite E in Hn. discriminate. }
  split.
  { intros text Hp. unfold Api.patchStatus. now rewrite Hp. }
  repeat split.
Qed.

Lemma unknown_again_only_by_patch_witness :
  wf FreeWifi.cleared
  /\ option_map status (Mongo.findById 0 FreeWifi.cleared) = Some trusted
  /\ exists n',
       Mongo.findById 0
         (fst (Api.scanLoop "ESP8266_001" (Mongo.find FreeWifi.cleared)
                 FreeWifi.clock 0 [FreeWifi.report] FreeWifi.cleared
                 Api.emptyResults))
       = Some n'
       /\ status n' = trusted.
Proof.
  split; [exact wf_cleared|]. split; [reflexivity|].
  destruct (unknown_again_only_by_patch "ESP8266_001" (Mongo.find FreeWifi.cleared)
              FreeWifi.clock 0 [FreeWifi.report] FreeWifi.cleared
              Api.emptyResults 0 0
              (Mongo.setStatus 2000 trusted
                 (snd (Api.upsert "ESP8266_001" 1000 "aa:bb:cc:11:22:33"
                                  FreeWifi.report FreeWifi.empty)))
              wf_cleared eq_refl) as [H _].
  destruct H as (n' & Hn' & Hs' & _); [discriminate|].
  exists n'. split; [exact Hn' | exact Hs'].
Defined.

(** The patch returns a trusted record to unknown. *)
Lemma patch_returns_to_unknown :
  option_map status (Mongo.findById 0 FreeWifi.cleared) = Some trusted
  /\ option_map status
       (Mongo.findById 0
          (fst (Api.patchStatus 3000 0 (Some "unknown") FreeWifi.cleared)))
     = Some unknown.
Proof. split; reflexivity. Qed.

(** ** Intake: which record set an assessment sees *)






Module TwinBatch.

(** One batch that reports a secured network and an open one of the same
    name, on an empty store. *)
Definition networks : list NetworkData :=
  [ {| nd_ssid := Some "OfficeNet"; nd_bssid := Some "11:22:33:44:55:66";
       nd_rssi := -52; nd_channel := 6; nd_encType := Some "WPA2" |};
    {| nd_ssid := Some "OfficeNet"; nd_bssid := Some "11:22:33:44:55:67";
       nd_rssi := -47; nd_channel := 6; nd_encType := Some "Open" |} ].

Definition empty : Store := {| docs := []; nextId := 0 |}.

Definition clock (k : nat) : Z := Z.of_nat k.


Definition response : Store * Response Api.ScanResponse :=
  Api.scan (Some "ESP8266_001") clock (Some networks) empty.

End TwinBatch.




(** ** Intake: a report without bssid *)

(** The number of reports of [l] that reach the upsert. *)
Definition reached (l : list NetworkData) : nat :=
  List.length
    (filter (fun networkData =>
               match Api.present (nd_bssid networkData) with
               | Some _ => true
               | None => false
               end) l).

Lemma scanLoop_app (deviceId : string) (allNetworks : list Network)
      (clock : nat -> Z) (l1 l2 : list NetworkData) :
  forall (k : nat) (s : Store) (results : Results),
    Api.scanLoop deviceId allNetworks clock k (l1 ++ l2) s results
    = Api.scanLoop deviceId allNetworks clock (k + reached l1) l2
        (fst (Api.scanLoop deviceId allNetworks clock k l1 s results))
        (snd (Api.scanLoop deviceId allNetworks clock k l1 s results)).
Proof.
  induction l1 as [|networkData rest IH]; intros k s results; simpl.
  - unfold reached. simpl. now rewrite Nat.add_0_r.
  - unfold reached. simpl.
    destruct (Api.present (nd_bssid networkData)) as [b|] eqn:Hb.
    + rewrite (scanItem_handled _ _ _ _ _ _ Hb). cbv zeta. simpl.
      rewrite IH. unfold reached. now rewrite Nat.add_succ_r.
    + rewrite (scanItem_rejected _ _ _ _ _ Hb). simpl. now rewrite IH.
Qed.

(** [rt] is [r] with the error [e] put in after the errors [e1]. *)
Definition insertedAt (e1 : list string) (e : string) (r rt : Results) : Prop :=
  processed rt = processed r
  /\ updated rt = updated r
  /\ created rt = created r
  /\ r_threats rt = r_threats r
  /\ exists e2, errors r = (e1 ++ e2)%list /\ errors rt = (e1 ++ e :: e2)%list.

Lemma account_insertedAt (e1 : list string) (e : string) (r rt : Results)
      (o : Api.Outcome) :
  insertedAt e1 e r rt -> insertedAt e1 e (Api.account r o) (Api.account rt o).
Proof.
  intros (Hp & Hu & Hc & Ht & e2 & He & Het).
  destruct o as [e'|network a]; unfold insertedAt; simpl.
  - repeat split; auto. exists (e2 ++ [e'])%list.
    rewrite He, Het. split; [now rewrite app_assoc|].
    now rewrite <- app_assoc.
  - rewrite Hp, Hu, Hc, Ht. repeat split. eauto.
Qed.

Lemma scanLoop_insertedAt (deviceId : string) (allNetworks : list Network)
      (clock : nat -> Z) (e1 : list string) (e : string) (l : list NetworkData) :
  forall (k : nat) (s : Store) (r rt : Results),
    insertedAt e1 e r rt ->
    fst (Api.scanLoop deviceId allNetworks clock k l s rt)
    = fst (Api.scanLoop deviceId allNetworks clock k l s r)
    /\ insertedAt e1 e
         (snd (Api.scanLoop deviceId allNetworks clock k l s r))
         (snd (Api.scanLoop deviceId allNetworks clock k l s rt)).
Proof.
  induction l as [|networkData rest IH]; intros k s r rt H; simpl; [auto|].
  destruct (Api.scanItem deviceId allNetworks (clock k) networkData s) as [s' o].
  apply IH. now apply account_insertedAt.
Qed.

Module BadBatch.

(** A batch whose second report has no bssid. *)
Definition unnamed : NetworkData :=
  {| nd_ssid := Some "CoffeeShop"; nd_bssid := None;
     nd_rssi := -70; nd_channel := 11; nd_encType := Some "WPA2" |}.

Definition before : list NetworkData := [FreeWifi.report].
Definition after : list NetworkData := TwinBatch.networks.

End BadBatch.

(** A report whose bssid is absent writes nothing to the store and
    adds one error to the error list, a text that names the report's ssid,
    put after the errors of the reports before it; the reports after it are
    processed as they are without it: the store, the counters and the
    alerts at the end of the batch are those of the batch without the
    report, and the error list is that of the batch without the report with
    the one error put in. *)
Theorem missing_bssid_isolated :
  forall (deviceId : string) (allNetworks : list Network) (clock : nat -> Z)
         (k : nat) (before after : list NetworkData) (bad : NetworkData)
         (s : Store) (results : Results),
    Api.present (nd_bssid bad) = None ->
    let e := "Missing BSSID for network: " ++ Js.ofOpt (nd_ssid bad) in
    let run := Api.scanLoop deviceId allNetworks clock k
                            (before ++ bad :: after) s results in
    let ref := Api.scanLoop deviceId allNetworks clock k
                            (before ++ after) s results in
    let e1 := errors (snd (Api.scanLoop deviceId allNetworks clock k
                                        before s results)) in
    (forall now s0,
        Api.scanItem deviceId allNetworks now bad s0 = (s0, Api.Rejected e))
    /\ fst run = fst ref
    /\ processed (snd run) = processed (snd ref)
    /\ updated (snd run) = updated (snd ref)
    /\ created (snd run) = created (snd ref)
    /\ r_threats (snd run) = r_threats (snd ref)
    /\ exists e2,
         errors (snd ref) = (e1 ++ e2)%list
         /\ errors (snd run) = (e1 ++ e :: e2)%list.
Proof.
  intros deviceId allNetworks clock k before after bad s results Hb e run ref e1.
  split; [intros now s0; now apply scanItem_rejected|].
  subst run ref. rewrite !scanLoop_app.
  set (r1 := snd (Api.scanLoop deviceId allNetworks clock k before s results)) in *.
  set (s1 := fst (Api.scanLoop deviceId allNetworks clock k before s results)).
  simpl. rewrite (scanItem_rejected _ _ _ _ _ Hb). simpl. fold e.
  assert (H : insertedAt e1 e r1 (Api.account r1 (Api.Rejected e))).
  { unfold insertedAt; simpl. repeat split. exists []. subst e1.
    now rewrite app_nil_r. }
  destruct (scanLoop_insertedAt deviceId allNetworks clock e1 e after
              (k + reached before)%nat s1 _ _ H)
    as (Hs & Hp & Hu & Hc & Ht & He).
  repeat split; assumption.
Qed.

Lemma missing_bssid_isolated_witness :
  Api.present (nd_bssid BadBatch.unnamed) = None
  /\ fst (Api.scanLoop "ESP8266_001" [] FreeWifi.clock 0
            (BadBatch.before ++ BadBatch.unnamed :: BadBatch.after)
            FreeWifi.empty Api.emptyResults)
     = fst (Api.scanLoop "ESP8266_001" [] FreeWifi.clock 0
              (BadBatch.before ++ BadBatch.after)
              FreeWifi.empty Api.emptyResults)
  /\ errors (snd (Api.scanLoop "ESP8266_001" [] FreeWifi.clock 0
                    (BadBatch.before ++ BadBatch.unnamed :: BadBatch.after)
                    FreeWifi.empty Api.emptyResults))
     = ["Missing BSSID for network: CoffeeShop"].
Proof.
  split; [reflexivity|].
  destruct (missing_bssid_isolated "ESP8266_001" [] FreeWifi.clock 0
              BadBatch.before BadBatch.after BadBatch.unnamed
              FreeWifi.empty Api.emptyResults eq_refl)
    as (_ & Hs & _).
  split; [exact Hs | reflexivity].
Defined.

(** ** The threat query *)

(** [a] may stand before [b] in the report: its score is not lower. *)
Definition notLower (a b : ThreatAssessment) : Prop :=
  harmScore b <= harmScore a.

(** The assessments of [l] whose score is [z], in the order of [l]. *)
Definition scoring (z : Z) (l : list ThreatAssessment) : list ThreatAssessment :=
  filter (fun a => harmScore a =? z) l.

Lemma insertByHarm_perm (a : ThreatAssessment) (l : list ThreatAssessment) :
  Permutation (a :: l) (Api.insertByHarm a l).
Proof.
  induction l as [|b r IH]; simpl; [reflexivity|].
  destruct (harmScore b <=? harmScore a); [reflexivity|].
  rewrite perm_swap. now apply perm_skip.
Qed.

Lemma sortByHarm_perm (l : list ThreatAssessment) :
  Permutation l (Api.sortByHarm l).
Proof.
  induction l as [|a r IH]; simpl; [constructor|].
  rewrite <- insertByHarm_perm. now apply perm_skip.
Qed.

Lemma insertByHarm_sorted (a : ThreatAssessment) (l : list ThreatAssessment) :
  StronglySorted notLower l -> StronglySorted notLower (Api.insertByHarm a l).
Proof.
  induction l as [|b r IH]; simpl; intros Hs.
  - repeat constructor.
  - inversion Hs as [|? ? Hr Hb]; subst.
    destruct (Z.leb_spec (harmScore b) (harmScore a)) as [Hle|Hlt].
    + constructor; [exact Hs|]. constructor; [exact Hle|].
      eapply Forall_impl; [|exact Hb]. unfold notLower. intros; lia.
    + constructor; [now apply IH|].
      apply (Permutation_Forall (insertByHarm_perm a r)).
      constructor; [unfold notLower; lia | exact Hb].
Qed.

Lemma sortByHarm_sorted (l : list ThreatAssessment) :
  StronglySorted notLower (Api.sortByHarm l).
Proof.
  induction l as [|a r IH]; simpl; [constructor|].
  now apply insertByHarm_sorted.
Qed.

Lemma insertByHarm_scoring (z : Z) (a : ThreatAssessment)
      (l : list ThreatAssessment) :
  scoring z (Api.insertByHarm a l) = scoring z (a :: l).
Proof.
  induction l as [|b r IH]; simpl; [reflexivity|].
  destruct (Z.leb_spec (harmScore b) (harmScore a)) as [Hle|Hlt]; [reflexivity|].
  unfold scoring in *. simpl in *. rewrite IH.
  destruct (Z.eqb_spec (harmScore a) z), (Z.eqb_spec (harmScore b) z);
    try reflexivity. lia.
Qed.

Lemma sortByHarm_stable (z : Z) (l : list ThreatAssessment) :
  scoring z (Api.sortByHarm l) = scoring z l.
Proof.
  induction l as [|a r IH]; simpl; [reflexivity|].
  rewrite insertByHarm_scoring. unfold scoring in *. simpl. now rewrite IH.
Qed.

Lemma sorted_descending (l : list ThreatAssessment) :
  StronglySorted notLower l ->
  StronglySorted (fun a b => harmScore a >= harmScore b) l.
Proof.
  induction 1 as [|a l _ IH Hall]; constructor; [exact IH|].
  eapply Forall_impl; [|exact Hall]. unfold notLower. intros; lia.
Qed.

Lemma filter_length_perm {A : Type} (f : A -> bool) (l l' : list A) :
  Permutation l l' -> List.length (filter f l) = List.length (filter f l').
Proof.
  induction 1; simpl; try congruence.
  - destruct (f x); simpl; congruence.
  - destruct (f x), (f y); reflexivity.
Qed.

(** C8.  GET /threats reads every stored record, assesses each against
    the whole set that was read, with its own history, and keeps exactly
    the assessments with a finding or a positive score.  The reported list
    is those assessments in descending order of [harmScore], assessments of
    equal score in the order their records were read; the summary counts
    the kept assessments of each risk level and the harmful ones. *)
Theorem getThreats_spec :
  forall (now : Z) (s : Store),
    let networks := Mongo.find s in
    let assess := fun network =>
      ThreatDetector.assessThreat now network networks (history network) in
    let kept :=
      filter (fun a => (0 <? harmScore a) || negb (List.length (threats a) =? 0)%nat)
             (map assess networks) in
    let response := Api.getThreats now s in
    Permutation kept (Api.tr_threats response)
    /\ (forall a, In a (Api.tr_threats response)
                  <-> exists network,
                        In network (docs s) /\ a = assess network
                        /\ (0 < harmScore a \/ threats a <> []))
    /\ StronglySorted (fun a b => harmScore a >= harmScore b)
                      (Api.tr_threats response)
    /\ (forall z, filter (fun a => harmScore a =? z) (Api.tr_threats response)
                  = filter (fun a => harmScore a =? z) kept)
    /\ Api.totalNetworks response = List.length (docs s)
    /\ Api.threatsAnalyzed response = List.length kept
    /\ Api.s_critical (Api.summary response)
       = List.length (filter (fun a => RiskLevel_eqb (riskLevel a) critical) kept)
    /\ Api.s_high (Api.summary response)
       = List.length (filter (fun a => RiskLevel_eqb (riskLevel a) high) kept)
    /\ Api.s_medium (Api.summary response)
       = List.length (filter (fun a => RiskLevel_eqb (riskLevel a) medium) kept)
    /\ Api.s_low (Api.summary response)
       = List.length (filter (fun a => RiskLevel_eqb (riskLevel a) low) kept)
    /\ Api.s_harmful (Api.summary response)
       = List.length (filter isHarmful kept).
Proof.
  intros now s networks assess kept response.
  assert (Hkept : kept = filter Api.reported (map assess networks)).
  { subst kept. apply filter_ext. intros a. unfold Api.reported.
    rewrite orb_comm. f_equal.
    destruct (threats a); reflexivity. }
  assert (Hresp : Api.tr_threats response = Api.sortByHarm kept).
  { subst response. unfold Api.getThreats. cbn [Api.tr_threats].
    now rewrite Hkept. }
  assert (Hperm : Permutation kept (Api.tr_threats response)).
  { rewrite Hresp. apply sortByHarm_perm. }
  split; [exact Hperm|].
  split.
  { intros a. split.
    - intros Ha. apply (Permutation_in _ (Permutation_sym Hperm)) in Ha.
      subst kept. apply filter_In in Ha. destruct Ha as [Ha Hk].
      apply in_map_iff in Ha. destruct Ha as (network & <- & Hn).
      exists network. split; [exact Hn|]. split; [reflexivity|].
      apply orb_true_iff in Hk. destruct Hk as [Hk|Hk].
      + left. now apply Z.ltb_lt.
      + right. intros E. rewrite E in Hk. discriminate.
    - intros (network & Hn & -> & Hk).
      apply (Permutation_in _ Hperm). subst kept. apply filter_In.
      split; [now apply in_map|].
      apply orb_true_iff. destruct Hk as [Hk|Hk].
      + left. now apply Z.ltb_lt.
      + right. destruct (threats (assess network)); [congruence|reflexivity]. }
  split.
  { rewrite Hresp. apply sorted_descending, sortByHarm_sorted. }
  split.
  { intros z. rewrite Hresp. apply (sortByHarm_stable z). }
  split; [reflexivity|].
  subst response. unfold Api.getThreats, Api.countLevel.
  cbn [Api.threatsAnalyzed Api.summary Api.s_critical Api.s_high Api.s_medium
       Api.s_low Api.s_harmful].
  fold networks. fold assess. rewrite <- Hkept.
  pose proof (sortByHarm_perm kept) as Hp. apply Permutation_sym in Hp.
  split; [now apply Permutation_length|].
  repeat split; now apply filter_length_perm.
Qed.

(** * Further properties *)

(** ** The engine and the record set *)

Lemma existsb_perm {A : Type} (f : A -> bool) (l l' : list A) :
  Permutation l l' -> existsb f l = existsb f l'.
Proof.
  induction 1; simpl; try congruence.
  destruct (f x), (f y); reflexivity.
Qed.

Lemma filter_perm {A : Type} (f : A -> bool) (l l' : list A) :
  Permutation l l' -> Permutation (filter f l) (filter f l').
Proof.
  induction 1; simpl.
  - constructor.
  - destruct (f x); auto.
  - destruct (f x), (f y); auto. apply perm_swap.
  - etransitivity; eauto.
Qed.

Lemma detectEvilTwin_perm (t : Network) (l l' : list Network) :
  Permutation l l' ->
  ThreatDetector.detectEvilTwin t l = ThreatDetector.detectEvilTwin t l'.
Proof.
  intros H. unfold ThreatDetector.detectEvilTwin. cbv zeta.
  rewrite (filter_length_perm (ThreatDetector.similarTo t) l l' H).
  rewrite (existsb_perm (ThreatDetector.weakerThan t) _ _
             (filter_perm (ThreatDetector.similarTo t) l l' H)).
  reflexivity.
Qed.

Lemma detectChannelThreats_perm (t : Network) (l l' : list Network) :
  Permutation l l' ->
  ThreatDetector.detectChannelThreats t l = ThreatDetector.detectChannelThreats t l'.
Proof.
  intros H. unfold ThreatDetector.detectChannelThreats. cbv zeta.
  now rewrite (filter_length_perm (fun n => channel n =? channel t) l l' H).
Qed.

(** X1.  The assessment of a record does not depend on the order in which
    the record set is read: two sets that are permutations of each other
    give the same assessment, findings included. *)
Theorem assessThreat_perm :
  forall (now : Z) (network : Network) (l l' : list Network)
         (historicalData : list HistoryEntry),
    Permutation l l' ->
    ThreatDetector.assessThreat now network l historicalData
    = ThreatDetector.assessThreat now network l' historicalData.
Proof.
  intros now network l l' historicalData H.
  unfold ThreatDetector.assessThreat.
  now rewrite (detectEvilTwin_perm network l l' H),
              (detectChannelThreats_perm network l l' H).
Qed.

Lemma assessThreat_perm_witness :
  Permutation [OfficeNet.secured; OfficeNet.open]
              [OfficeNet.open; OfficeNet.secured]
  /\ ThreatDetector.assessThreat 1 OfficeNet.open
       [OfficeNet.secured; OfficeNet.open] (history OfficeNet.open)
     = ThreatDetector.assessThreat 1 OfficeNet.open
         [OfficeNet.open; OfficeNet.secured] (history OfficeNet.open).
Proof.
  split; [apply perm_swap|].
  apply assessThreat_perm. apply perm_swap.
Defined.

Lemma fired_points_le (o o' : option ThreatFinding) (p : Z) :
  0 <= p -> (fired o = true -> fired o' = true) -> points o p <= points o' p.
Proof.
  unfold points. intros Hp H.
  destruct (fired o); [rewrite H by reflexivity; lia|].
  destruct (fired o'); lia.
Qed.

Lemma detectEvilTwin_more (t : Network) (l extra : list Network) :
  fired (ThreatDetector.detectEvilTwin t l) = true ->
  fired (ThreatDetector.detectEvilTwin t (l ++ extra)) = true.
Proof.
  rewrite !detectEvilTwin_fired.
  intros [[n [Hn Hs]] Hor]. split.
  - exists n. split; [apply in_or_app; now left | exact Hs].
  - destruct Hor as [Ho|[m [Hm Hrest]]]; [now left|].
    right. exists m. split; [apply in_or_app; now left | exact Hrest].
Qed.

Lemma detectChannelThreats_fired (t : Network) (l : list Network) :
  fired (ThreatDetector.detectChannelThreats t l) = true
  <-> (15 < List.length (filter (fun n => (channel n =? channel t)%Z) l))%nat.
Proof.
  unfold ThreatDetector.detectChannelThreats. cbv zeta.
  destruct (Nat.ltb_spec 15
              (List.length (filter (fun n => (channel n =? channel t)%Z) l)));
    simpl; split; intros; try lia; try discriminate; reflexivity.
Qed.

Lemma detectChannelThreats_more (t : Network) (l extra : list Network) :
  fired (ThreatDetector.detectChannelThreats t l) = true ->
  fired (ThreatDetector.detectChannelThreats t (l ++ extra)) = true.
Proof.
  rewrite !detectChannelThreats_fired, filter_app, length_app. lia.
Qed.

(** X2.  Reading more records never lowers a score: against a record set
    extended by further records, [harmScore] is at least what it was, an
    assessment that was harmful stays harmful, and one that was critical
    stays critical. *)
Theorem assessThreat_more_records :
  forall (now : Z) (network : Network) (l extra : list Network)
         (historicalData : list HistoryEntry),
    let a := ThreatDetector.assessThreat now network l historicalData in
    let a' := ThreatDetector.assessThreat now network (l ++ extra) historicalData in
    harmScore a <= harmScore a'
    /\ (isHarmful a = true -> isHarmful a' = true)
    /\ (riskLevel a = critical -> riskLevel a' = critical).
Proof.
  intros now network l extra historicalData a a'.
  assert (H : harmScore a <= harmScore a').
  { subst a a'. rewrite !assessThreat_harmScore.
    pose proof (fired_points_le _ _ 50 ltac:(lia)
                  (detectEvilTwin_more network l extra)).
    pose proof (fired_points_le _ _ 20 ltac:(lia)
                  (detectChannelThreats_more network l extra)).
    lia. }
  split; [exact H|]. split.
  - subst a a'. rewrite !assessThreat_isHarmful, !Z.leb_le. lia.
  - subst a a'. rewrite !assessThreat_riskLevel, !classify_critical. lia.
Qed.

(** X3.  The evil-twin check ignores every record that carries the
    target's own bssid: with those records taken out of the set it returns
    the same finding, so a copy of the target in the set, stale or not,
    never makes it its own twin. *)
Theorem detectEvilTwin_ignores_own_bssid :
  forall (t : Network) (allNetworks : list Network),
    ThreatDetector.detectEvilTwin t
      (filter (fun n => negb (bssid n =? bssid t)%string) allNetworks)
    = ThreatDetector.detectEvilTwin t allNetworks.
Proof.
  intros t allNetworks. unfold ThreatDetector.detectEvilTwin. cbv zeta.
  assert (E : filter (ThreatDetector.similarTo t)
                (filter (fun n => negb (bssid n =? bssid t)%string) allNetworks)
              = filter (ThreatDetector.similarTo t) allNetworks).
  { induction allNetworks as [|n l IH]; simpl; [reflexivity|].
    unfold ThreatDetector.similarTo at 2.
    destruct (bssid n =? bssid t)%string eqn:Hb; simpl.
    - rewrite andb_false_r. exact IH.
    - unfold ThreatDetector.similarTo at 1. rewrite Hb, andb_true_r. simpl.
      destruct (ssid n =? ssid t)%string; [now rewrite IH | exact IH]. }
  now rewrite E.
Qed.

(** X4.  The signal-anomaly check reads the last ten entries of the
    history only: whatever older entries stand in front of ten entries, the
    result is that of the ten alone. *)
Theorem detectSignalAnomalies_last_ten :
  forall (network : Network) (older recent : list HistoryEntry),
    List.length recent = 10%nat ->
    ThreatDetector.detectSignalAnomalies network (older ++ recent)%list
    = ThreatDetector.detectSignalAnomalies network recent.
Proof.
  intros network older recent Hlen.
  assert (Hs : Js.sliceLast 10 (older ++ recent) = recent).
  { unfold Js.sliceLast. rewrite length_app, Hlen.
    replace (List.length older + 10 - 10)%nat with (List.length older + 0)%nat by lia.
    rewrite skipn_app, skipn_all2 by lia.
    replace (List.length older + 0 - List.length older)%nat with 0%nat by lia.
    reflexivity. }
  assert (Hr : Js.sliceLast 10 recent = recent).
  { unfold Js.sliceLast. now rewrite Hlen. }
  unfold ThreatDetector.detectSignalAnomalies, ThreatDetector.signalVariation.
  rewrite Hs, Hr, length_app, Hlen.
  destruct (Nat.ltb_spec (List.length older + 10) 5); [lia|].
  reflexivity.
Qed.

Lemma detectSignalAnomalies_last_ten_witness :
  List.length (history Crowded.target ++ history Crowded.target) = 10%nat
  /\ ThreatDetector.detectSignalAnomalies Crowded.target
       ([{| h_rssi := 0; h_timestamp := 0 |}]
        ++ (history Crowded.target ++ history Crowded.target))%list
     = ThreatDetector.detectSignalAnomalies Crowded.target
         (history Crowded.target ++ history Crowded.target)%list.
Proof.
  split; [reflexivity|].
  apply detectSignalAnomalies_last_ten. reflexivity.
Defined.

(** ** Names and addresses *)

Lemma upperChar_idem (c : ascii) : Js.upperChar (Js.upperChar c) = Js.upperChar c.
Proof. destruct c as [[] [] [] [] [] [] [] []]; reflexivity. Qed.

Lemma isLineTerminator_upper (c : ascii) :
  Regex.isLineTerminator (Js.upperChar c) = Regex.isLineTerminator c.
Proof. destruct c as [[] [] [] [] [] [] [] []]; reflexivity. Qed.

Lemma toUpperCase_idem (s : string) :
  Js.toUpperCase (Js.toUpperCase s) = Js.toUpperCase s.
Proof.
  induction s as [|c r IH]; simpl; [reflexivity|].
  now rewrite upperChar_idem, IH.
Qed.

Lemma matchHere_upper (p : Regex.t) :
  forall s, Regex.matchHere p (Js.toUpperCase s) = Regex.matchHere p s.
Proof.
  induction p as [|[c|] p IH]; intros s; simpl; [reflexivity| |].
  - destruct s as [|d s]; simpl; [reflexivity|].
    unfold Regex.eqIgnoreCase. now rewrite upperChar_idem, IH.
  - rewrite IH. destruct s as [|d s]; simpl; [reflexivity|].
    now rewrite isLineTerminator_upper, IH.
Qed.

Lemma test_upper (p : Regex.t) (s : string) :
  Regex.test p (Js.toUpperCase s) = Regex.test p s.
Proof.
  induction s as [|c r IH].
  - reflexivity.
  - change (Js.toUpperCase (String c r))
      with (String (Js.upperChar c) (Js.toUpperCase r)).
    cbn [Regex.test]. rewrite IH.
    change (String (Js.upperChar c) (Js.toUpperCase r))
      with (Js.toUpperCase (String c r)).
    now rewrite matchHere_upper.
Qed.

Lemma matchHere_append (p : Regex.t) :
  forall s post, Regex.matchHere p s = true ->
                 Regex.matchHere p (s ++ post) = true.
Proof.
  induction p as [|[c|] p IH]; intros s post; simpl; [reflexivity| |].
  - destruct s as [|d s]; simpl; [discriminate|].
    rewrite !andb_true_iff. intros [H1 H2]. split; [exact H1 | now apply IH].
  - rewrite !orb_true_iff. intros [H|H].
    + destruct s as [|d s]; simpl; [discriminate|].
      rewrite andb_true_iff in *. left. split; [tauto | apply IH; tauto].
    + right. now apply IH.
Qed.

Lemma test_append (p : Regex.t) (s post : string) :
  Regex.test p s = true -> Regex.test p (s ++ post) = true.
Proof.
  induction s as [|c r IH].
  - cbn [Regex.test]. rewrite orb_false_r. intros H.
    apply (matchHere_append p "" post) in H.
    destruct post; cbn [Regex.test]; simpl in H |- *; rewrite H; reflexivity.
  - change ((String c r ++ post)%string) with (String c (r ++ post)%string).
    cbn [Regex.test]. rewrite !orb_true_iff. intros [H|H].
    + left. apply (matchHere_append p (String c r) post H).
    + right. now apply IH.
Qed.

Lemma test_prepend (p : Regex.t) (pre s : string) :
  Regex.test p s = true -> Regex.test p (pre ++ s) = true.
Proof.
  intros H. induction pre as [|c r IH]; [exact H|].
  change ((String c r ++ s)%string) with (String c (r ++ s)%string).
  cbn [Regex.test]. rewrite IH. apply orb_true_r.
Qed.

(** Some pattern of [suspiciousSSIDs] matches in [s]. *)
Definition deceptive (s : string) : bool :=
  existsb (fun pattern => Regex.test pattern s) threatPatterns.suspiciousSSIDs.

Lemma checkSuspiciousSSID_fired (s : string) :
  fired (ThreatDetector.checkSuspiciousSSID s) = true
  <-> s <> "" /\ s <> "Hidden Network" /\ deceptive s = true.
Proof.
  unfold ThreatDetector.checkSuspiciousSSID. fold (deceptive s).
  destruct (String.eqb_spec s ""), (String.eqb_spec s "Hidden Network");
    simpl; try (split; [discriminate | tauto]).
  destruct (deceptive s); simpl; split; try tauto; try discriminate.
Qed.

Lemma deceptive_upper (s : string) : deceptive (Js.toUpperCase s) = deceptive s.
Proof.
  unfold deceptive.
  induction threatPatterns.suspiciousSSIDs as [|p l IH]; simpl; [reflexivity|].
  now rewrite test_upper, IH.
Qed.

Lemma deceptive_inside (pre s post : string) :
  deceptive s = true -> deceptive (pre ++ s ++ post) = true.
Proof.
  unfold deceptive. rewrite !existsb_exists.
  intros (p & Hp & Ht). exists p. split; [exact Hp|].
  now apply test_prepend, test_append.
Qed.

Lemma sentinel_not_deceptive : deceptive "Hidden Network" = false.
Proof. reflexivity. Qed.

Lemma toUpperCase_empty (s : string) : Js.toUpperCase s = "" <-> s = "".
Proof. destruct s; simpl; split; intros; congruence. Qed.

(** Texts of ASCII characters: on them [Js.toUpperCase] is the
    upper-casing of JavaScript. *)
Definition asciiChar (c : ascii) : bool := (nat_of_ascii c <? 128)%nat.

Fixpoint asciiText (s : string) : bool :=
  match s with
  | EmptyString => true
  | String c r => asciiChar c && asciiText r
  end.

Lemma asciiChar_upper (c : ascii) : asciiChar (Js.upperChar c) = asciiChar c.
Proof. destruct c as [[] [] [] [] [] [] [] []]; reflexivity. Qed.

Lemma asciiText_upper (s : string) : asciiText (Js.toUpperCase s) = asciiText s.
Proof.
  induction s as [|c r IH]; simpl; [reflexivity|].
  now rewrite asciiChar_upper, IH.
Qed.

(** X5.  On a name of ASCII characters the suspicious-SSID check does not
    depend on the case of the letters: the name and its upper-case form
    either both get the finding or both get none. *)
Theorem checkSuspiciousSSID_ignores_case :
  forall s : string,
    asciiText s = true ->
    fired (ThreatDetector.checkSuspiciousSSID (Js.toUpperCase s))
    = fired (ThreatDetector.checkSuspiciousSSID s).
Proof.
  intros s _.
  destruct (fired (ThreatDetector.checkSuspiciousSSID s)) eqn:E.
  - apply checkSuspiciousSSID_fired in E. destruct E as (He & Hh & Hd).
    apply checkSuspiciousSSID_fired. split; [|split].
    + now rewrite toUpperCase_empty.
    + intros H. pose proof (f_equal Js.toUpperCase H) as H2.
      rewrite toUpperCase_idem, H in H2. vm_compute in H2. discriminate.
    + now rewrite deceptive_upper.
  - destruct (fired (ThreatDetector.checkSuspiciousSSID (Js.toUpperCase s))) eqn:E';
      [|reflexivity].
    apply checkSuspiciousSSID_fired in E'. destruct E' as (He & Hh & Hd).
    rewrite deceptive_upper in Hd. rewrite toUpperCase_empty in He.
    assert (Hs : s <> "Hidden Network").
    { intros ->. vm_compute in Hd. discriminate. }
    assert (F : fired (ThreatDetector.checkSuspiciousSSID s) = true)
      by (apply checkSuspiciousSSID_fired; auto).
    congruence.
Qed.

Lemma checkSuspiciousSSID_ignores_case_witness :
  asciiText "Mobile Hotspot" = true
  /\ fired (ThreatDetector.checkSuspiciousSSID "MOBILE HOTSPOT")
     = fired (ThreatDetector.checkSuspiciousSSID "Mobile Hotspot")
  /\ fired (ThreatDetector.checkSuspiciousSSID "Mobile Hotspot") = true.
Proof.
  split; [reflexivity|]. split; [|reflexivity].
  apply (checkSuspiciousSSID_ignores_case "Mobile Hotspot"). reflexivity.
Defined.

Lemma append_empty (a b : string) : (a ++ b)%string = "" -> a = "" /\ b = "".
Proof. destruct a; simpl; [auto | discriminate]. Qed.

(** X6.  A name that gets the suspicious-SSID finding keeps it inside any
    longer name: whatever text is put before and after it, the check fires
    on the whole. *)
Theorem checkSuspiciousSSID_inside :
  forall pre s post : string,
    fired (ThreatDetector.checkSuspiciousSSID s) = true ->
    fired (ThreatDetector.checkSuspiciousSSID (pre ++ s ++ post)) = true.
Proof.
  intros pre s post H.
  apply checkSuspiciousSSID_fired in H. destruct H as (He & _ & Hd).
  apply checkSuspiciousSSID_fired. split; [|split].
  - intros E. apply append_empty in E. destruct E as [_ E].
    apply append_empty in E. tauto.
  - intros E. pose proof (deceptive_inside pre s post Hd) as H.
    rewrite E, sentinel_not_deceptive in H. discriminate.
  - now apply deceptive_inside.
Qed.

Lemma checkSuspiciousSSID_inside_witness :
  fired (ThreatDetector.checkSuspiciousSSID "hotspot") = true
  /\ fired (ThreatDetector.checkSuspiciousSSID
              ("Hotel " ++ "hotspot" ++ " 5G")) = true.
Proof.
  split; [reflexivity|].
  apply checkSuspiciousSSID_inside. reflexivity.
Defined.

Lemma startsWith_same_length (s p : string) :
  Js.startsWith s p = true ->
  (String.length s <= String.length p)%nat ->
  s = p.
Proof.
  revert s. induction p as [|a p IH]; intros [|b s]; simpl;
    try discriminate; try reflexivity; try lia.
  rewrite andb_true_iff. intros [Hab Hs] Hlen.
  apply Ascii.eqb_eq in Hab. subst b. f_equal. apply IH; [exact Hs | lia].
Qed.

Lemma startsWith_refl (s : string) : Js.startsWith s s = true.
Proof. induction s; simpl; [reflexivity|]. now rewrite Ascii.eqb_refl. Qed.

Lemma substring0_length (n : nat) (s : string) :
  String.length (Js.substring0 n s) = Nat.min n (String.length s).
Proof.
  revert s. induction n as [|n IH]; intros [|c s]; simpl; try reflexivity.
  now rewrite IH.
Qed.

Lemma toUpperCase_length (s : string) :
  String.length (Js.toUpperCase s) = String.length s.
Proof. induction s; simpl; congruence. Qed.

Lemma substring0_upper (n : nat) (s : string) :
  Js.substring0 n (Js.toUpperCase s) = Js.toUpperCase (Js.substring0 n s).
Proof.
  revert s. induction n as [|n IH]; intros [|c s]; simpl; try reflexivity.
  now rewrite IH.
Qed.

Lemma analyzeMACAddress_fired (b : string) :
  fired (ThreatDetector.analyzeMACAddress b) = true
  <-> In (Js.toUpperCase (Js.substring0 8 b)) ThreatDetector.suspiciousPrefixes.
Proof.
  unfold ThreatDetector.analyzeMACAddress.
  set (m := Js.toUpperCase (Js.substring0 8 b)).
  assert (Hm : (String.length m <= 8)%nat).
  { subst m. rewrite toUpperCase_length, substring0_length. lia. }
  destruct (String.eqb_spec b "") as [->|Hb].
  { simpl. split; [discriminate|].
    intros [H|[H|[H|[H|[]]]]]; discriminate. }
  destruct (existsb (fun prefix => Js.startsWith m prefix)
                    ThreatDetector.suspiciousPrefixes) eqn:E; simpl.
  - split; [intros _|reflexivity].
    apply existsb_exists in E. destruct E as (p & Hp & Hs).
    assert (m = p); [|now subst].
    apply startsWith_same_length; [exact Hs|].
    destruct Hp as [<-|[<-|[<-|[<-|[]]]]]; exact Hm.
  - split; [discriminate|]. intros Hin. exfalso.
    assert (F : existsb (fun prefix => Js.startsWith m prefix)
                        ThreatDetector.suspiciousPrefixes = true).
    { apply existsb_exists. exists m. split; [exact Hin | apply startsWith_refl]. }
    congruence.
Qed.

(** X7.  The MAC check fires iff the first eight characters of the bssid,
    in upper case, are exactly one of the four listed prefixes; a bssid of
    fewer than eight characters never fires, and the case of the bssid makes
    no difference. *)
Theorem analyzeMACAddress_prefix :
  (forall b : string,
      fired (ThreatDetector.analyzeMACAddress b) = true
      <-> In (Js.toUpperCase (Js.substring0 8 b))
             ["02:00:00"; "AA:BB:CC"; "00:11:22"; "12:34:56"])
  /\ (forall b : string,
         (String.length b < 8)%nat -> ThreatDetector.analyzeMACAddress b = None)
  /\ (forall b : string,
         fired (ThreatDetector.analyzeMACAddress (Js.toUpperCase b))
         = fired (ThreatDetector.analyzeMACAddress b)).
Proof.
  split; [exact analyzeMACAddress_fired|]. split.
  - intros b Hlen.
    destruct (ThreatDetector.analyzeMACAddress b) eqn:E; [|reflexivity].
    assert (F : fired (ThreatDetector.analyzeMACAddress b) = true)
      by now rewrite E.
    apply analyzeMACAddress_fired in F. exfalso.
    assert (L : (String.length (Js.toUpperCase (Js.substring0 8 b)) < 8)%nat).
    { rewrite toUpperCase_length, substring0_length. lia. }
    destruct F as [H|[H|[H|[H|[]]]]]; rewrite <- H in L; simpl in L; lia.
  - intros b.
    assert (H : forall x y, (x = true <-> y = true) -> x = y).
    { intros [] [] [H1 H2]; auto; symmetry; auto. }
    apply H. rewrite !analyzeMACAddress_fired.
    now rewrite substring0_upper, toUpperCase_idem.
Qed.

Lemma tipOf_none (t : ThreatFinding) :
  ThreatDetector.tipOf t = []
  <-> ~ In (type t) ["evil_twin"; "open_network"; "suspicious_ssid"; "signal_anomaly"].
Proof.
  unfold ThreatDetector.tipOf. cbn [In].
  destruct (String.eqb_spec (type t) "evil_twin") as [E1|E1];
    [split; [discriminate | intros H; exfalso; apply H; auto]|].
  destruct (String.eqb_spec (type t) "open_network") as [E2|E2];
    [split; [discriminate | intros H; exfalso; apply H; auto]|].
  destruct (String.eqb_spec (type t) "suspicious_ssid") as [E3|E3];
    [split; [discriminate | intros H; exfalso; apply H; auto]|].
  destruct (String.eqb_spec (type t) "signal_anomaly") as [E4|E4];
    [split; [discriminate | intros H; exfalso; apply H; auto 6]|].
  split; [|reflexivity]. intros _ [H|[H|[H|[H|[]]]]]; congruence.
Qed.

Lemma tipOf_length (t : ThreatFinding) :
  (List.length (ThreatDetector.tipOf t) <= 1)%nat.
Proof.
  unfold ThreatDetector.tipOf.
  repeat (match goal with |- context [if ?c then _ else _] => destruct c end;
          [simpl; lia|]).
  simpl; lia.
Qed.

Lemma tipOf_not_fallback (t : ThreatFinding) :
  ~ In "Follow standard WiFi security practices" (ThreatDetector.tipOf t).
Proof.
  unfold ThreatDetector.tipOf.
  repeat (match goal with |- context [if ?c then _ else _] => destruct c end;
          [intros [H|[]]; discriminate|]).
  intros [].
Qed.

Lemma tips_none (findings : list ThreatFinding) :
  flat_map ThreatDetector.tipOf findings = []
  <-> forall t, In t findings ->
        ~ In (type t) ["evil_twin"; "open_network"; "suspicious_ssid";
                       "signal_anomaly"].
Proof.
  induction findings as [|t l IH]; cbn [flat_map].
  - split; [intros _ t [] | reflexivity].
  - split.
    + intros E. apply app_eq_nil in E. destruct E as [E1 E2].
      intros x [<-|Hx]; [now apply tipOf_none | now apply IH].
    + intros H. rewrite (proj2 (tipOf_none t)) by (apply H; now left).
      apply IH. intros x Hx. apply H. now right.
Qed.

(** X8.  The specific advice of a recommendation is never empty and has
    at most one tip per finding; it is the single fallback tip exactly when
    no finding is an evil twin, an open network, a suspicious ssid or a
    signal anomaly, so high-frequency, channel and MAC findings alone get
    the fallback. *)
Theorem getRecommendation_specific :
  forall (level : RiskLevel) (findings : list ThreatFinding),
    let r := ThreatDetector.getRecommendation level findings in
    specific r <> []
    /\ (List.length (specific r) <= Nat.max 1 (List.length findings))%nat
    /\ (specific r = ["Follow standard WiFi security practices"]
        <-> forall t, In t findings ->
              ~ In (type t) ["evil_twin"; "open_network"; "suspicious_ssid";
                             "signal_anomaly"]).
Proof.
  intros level findings r. subst r. unfold ThreatDetector.getRecommendation.
  cbn [specific].
  assert (Hlen : (List.length (flat_map ThreatDetector.tipOf findings)
                  <= List.length findings)%nat).
  { induction findings as [|t l IH]; simpl; [lia|].
    rewrite length_app. pose proof (tipOf_length t). lia. }
  pose proof (tips_none findings) as Hnil.
  destruct (flat_map ThreatDetector.tipOf findings) as [|tip tips] eqn:E.
  - split; [discriminate|]. split; [cbn [List.length]; lia|].
    split; [intros _; now apply Hnil | reflexivity].
  - split; [discriminate|]. split; [lia|].
    split.
    + intros H. exfalso.
      assert (Hin : In "Follow standard WiFi security practices"
                       (flat_map ThreatDetector.tipOf findings))
        by (rewrite E, H; now left).
      apply in_flat_map in Hin. destruct Hin as (t & _ & Ht).
      exact (tipOf_not_fallback t Ht).
    + intros H. apply Hnil in H. discriminate.
Qed.

(** ** The threat query, further *)

Lemma points_nonneg (o : option ThreatFinding) (p : Z) : 0 <= p -> 0 <= points o p.
Proof. intros H. apply (points_range o p H). Qed.

(** X9.  In GET /threats every stored record that shares its channel with
    more than fifteen stored records (itself counted) is reported: its
    assessment is in the list, with a channel-congestion finding and a score
    of at least 20. *)
Theorem getThreats_reports_congestion :
  forall (now : Z) (s : Store) (network : Network),
    In network (docs s) ->
    (15 < List.length
            (filter (fun n => (channel n =? channel network)%Z) (docs s)))%nat ->
    let a := ThreatDetector.assessThreat now network (docs s) (history network) in
    In a (Api.tr_threats (Api.getThreats now s))
    /\ 20 <= harmScore a
    /\ exists f, In f (threats a) /\ type f = "channel_congestion".
Proof.
  intros now s network Hin Hcount a.
  apply detectChannelThreats_fired in Hcount.
  assert (Hscore : 20 <= harmScore a).
  { subst a. rewrite assessThreat_harmScore.
    unfold points at 5. rewrite Hcount.
    pose proof (points_nonneg (ThreatDetector.checkSuspiciousSSID (ssid network)) 30).
    pose proof (points_nonneg (ThreatDetector.detectEvilTwin network (docs s)) 50).
    pose proof (points_nonneg (ThreatDetector.checkOpenNetwork network) 25).
    pose proof (points_nonneg
                  (ThreatDetector.detectSignalAnomalies network (history network)) 35).
    pose proof (points_nonneg (ThreatDetector.analyzeMACAddress (bssid network)) 15).
    lia. }
  split; [|split; [exact Hscore|]].
  - unfold Api.getThreats. cbn [Api.tr_threats].
    eapply Permutation_in; [apply sortByHarm_perm|].
    apply filter_In. split.
    + apply in_map_iff. exists network. split; [reflexivity | exact Hin].
    + unfold Api.reported. apply orb_true_iff. right. apply Z.ltb_lt.
      fold a. lia.
  - subst a. rewrite assessThreat_threats.
    destruct (ThreatDetector.detectChannelThreats network (docs s)) as [f|] eqn:E;
      [|discriminate].
    exists f. split.
    + do 4 (apply in_or_app; right). apply in_or_app. left. now left.
    + unfold ThreatDetector.detectChannelThreats in E. cbv zeta in E.
      destruct (15 <? _)%nat; [|discriminate]. now injection E as <-.
Qed.

Lemma getThreats_reports_congestion_witness :
  In Crowded.target Crowded.all
  /\ In (ThreatDetector.assessThreat 7 Crowded.target Crowded.all
           (history Crowded.target))
        (Api.tr_threats (Api.getThreats 7 {| docs := Crowded.all; nextId := 16 |})).
Proof.
  split; [now left|].
  apply (getThreats_reports_congestion 7 {| docs := Crowded.all; nextId := 16 |}
           Crowded.target).
  - now left.
  - vm_compute. lia.
Defined.

(** The level and the harmful flag of an assessment follow its score. *)
Definition graded (a : ThreatAssessment) : Prop :=
  riskLevel a = ThreatDetector.classify (harmScore a)
  /\ isHarmful a = (40 <=? harmScore a).

Lemma countLevel_total (l : list ThreatAssessment) :
  (Api.countLevel critical l + Api.countLevel high l
   + Api.countLevel medium l + Api.countLevel low l)%nat = List.length l.
Proof.
  unfold Api.countLevel. induction l as [|a l IH]; simpl; [reflexivity|].
  destruct (riskLevel a); simpl; lia.
Qed.

Lemma classify_harmful (h : Z) :
  (40 <=? h)
  = RiskLevel_eqb (ThreatDetector.classify h) critical
    || RiskLevel_eqb (ThreatDetector.classify h) high.
Proof.
  unfold ThreatDetector.classify.
  destruct (Z.leb_spec 70 h), (Z.leb_spec 40 h), (Z.leb_spec 20 h);
    simpl; try reflexivity; lia.
Qed.

Lemma harmful_count (l : list ThreatAssessment) :
  Forall graded l ->
  List.length (filter isHarmful l)
  = (Api.countLevel critical l + Api.countLevel high l)%nat.
Proof.
  unfold Api.countLevel. induction 1 as [|a l [Hr Hh] _ IH]; simpl; [reflexivity|].
  rewrite Hh, classify_harmful, <- Hr.
  destruct (riskLevel a); simpl; lia.
Qed.

(** X10.  In the response of GET /threats the four level counts add up to
    the number of reported assessments, which is at most the number of
    stored records, and the count of harmful assessments is the sum of the
    critical and the high counts. *)
Theorem getThreats_summary_adds_up :
  forall (now : Z) (s : Store),
    let response := Api.getThreats now s in
    let summary := Api.summary response in
    (Api.s_critical summary + Api.s_high summary
     + Api.s_medium summary + Api.s_low summary)%nat
    = Api.threatsAnalyzed response
    /\ Api.s_harmful summary = (Api.s_critical summary + Api.s_high summary)%nat
    /\ (Api.threatsAnalyzed response <= Api.totalNetworks response)%nat
    /\ List.length (Api.tr_threats response) = Api.threatsAnalyzed response.
Proof.
  intros now s response summary. subst summary response.
  unfold Api.getThreats.
  cbn [Api.summary Api.s_critical Api.s_high Api.s_medium Api.s_low
       Api.s_harmful Api.threatsAnalyzed Api.totalNetworks Api.tr_threats].
  set (kept := filter Api.reported _).
  split; [apply countLevel_total|]. split; [|split; [|reflexivity]].
  - apply harmful_count.
    apply (Permutation_Forall (sortByHarm_perm kept)).
    subst kept. apply Forall_forall. intros a Ha.
    apply filter_In in Ha. destruct Ha as [Ha _].
    apply in_map_iff in Ha. destruct Ha as (n & <- & _). split; reflexivity.
  - rewrite <- (Permutation_length (sortByHarm_perm kept)).
    subst kept. etransitivity; [apply filter_length_le|].
    now rewrite length_map.
Qed.

(** * The handlers on what a request can carry *)

Module Wire.

(** One element of [req.body.networks], by what the turn of the loop does
    with it.
    - [Null]: the JSON value [null]; the destructuring throws.
    - [BadBssid]: a [bssid] that is truthy and no string (a number, [true],
      an array, an object), with its text in a template literal;
      [bssid.toUpperCase()] throws.
    - [Refused]: a report that the store refuses in [findOneAndUpdate] (a
      field that the schema cannot cast), with the message of the error.
    - [Report]: any other element, as [Api.scanItem] takes it; an element
      that is no object reads as a report without fields. *)
Inductive Element : Type :=
| Null
| BadBssid (bssidText : string)
| Refused (message : string) (networkData : NetworkData)
| Report (networkData : NetworkData).

(** One turn with its [try] and [catch]: [None] when the [catch] itself
    throws, which ends the loop.  The [catch] reads [networkData.bssid] for
    its message; on [null] that read throws again. *)
Definition scanItem (deviceId : string) (allNetworks : list Network)
           (now : Z) (e : Element) (s : Store) : Store * option Api.Outcome :=
  match e with
  | Null => (s, None)
  | BadBssid bssidText =>
      (s, Some (Api.Rejected ("Error processing " ++ bssidText
                              ++ ": bssid.toUpperCase is not a function")))
  | Refused message networkData =>
      match Api.present (nd_bssid networkData) with
      | None =>
          (s, Some (Api.Rejected ("Missing BSSID for network: "
                                  ++ Js.ofOpt (nd_ssid networkData))))
      | Some bssid =>
          (s, Some (Api.Rejected ("Error processing " ++ bssid ++ ": " ++ message)))
      end
  | Report networkData =>
      let '(s', o) := Api.scanItem deviceId allNetworks now networkData s in
      (s', Some o)
  end.

(** The turn reached the upsert and read the clock. *)
Definition turns (e : Element) (k : nat) : nat :=
  match e with
  | Null | BadBssid _ => k
  | Refused _ networkData | Report networkData =>
      match Api.present (nd_bssid networkData) with
      | Some _ => S k
      | None => k
      end
  end.

(** The loop; [None] when a turn threw out of its [catch]. *)
Fixpoint scanLoop (deviceId : string) (allNetworks : list Network)
         (clock : nat -> Z) (k : nat) (networks : list Element)
         (s : Store) (results : Results) : Store * option Results :=
  match networks with
  | [] => (s, Some results)
  | e :: rest =>
      match scanItem deviceId allNetworks (clock k) e s with
      | (s', Some o) =>
          scanLoop deviceId allNetworks clock (turns e k) rest s'
                   (Api.account results o)
      | (s', None) => (s', None)
      end
  end.

(** POST /scan with its outer [try] and [catch]; what the turns before
    the throw wrote stays written. *)
Definition scan (deviceId : option string) (clock : nat -> Z)
           (networks : option (list Element)) (s : Store)
  : Store * Response Api.ScanResponse :=
  match networks with
  | None => (s, Err 400 "Invalid payload: networks array required")
  | Some l =>
      let allNetworks := Mongo.find s in
      match scanLoop (Api.deviceIdOf deviceId) allNetworks clock 0 l s
                     Api.emptyResults with
      | (s', Some r) =>
          (s', Ok {| Api.message :=
                       "Processed " ++ Js.ofZ (processed r) ++ " networks";
                     Api.securitySummary := Api.summarize (r_threats r);
                     Api.results := r |})
      | (s', None) => (s', Err 500 "Internal server error")
      end
  end.

(** PATCH /networks/:id/status with its [catch]: [id] is [None] for a
    text that the store cannot take as an ObjectId, on which
    [findByIdAndUpdate] throws. *)
Definition patchStatus (now : Z) (id : option nat) (status : option string)
           (s : Store) : Store * Response Network :=
  match Api.parseStatus status, id with
  | None, _ =>
      (s, Err 400 "Invalid status. Must be: trusted, unknown, or suspicious")
  | Some _, None => (s, Err 500 "Failed to update status")
  | Some _, Some k => Api.patchStatus now k status s
  end.


End Wire.

(** ** Intake: elements that throw *)

Lemma wire_scanLoop_reports (deviceId : string) (allNetworks : list Network)
      (clock : nat -> Z) (l : list NetworkData) :
  forall (k : nat) (s : Store) (results : Results),
    Wire.scanLoop deviceId allNetworks clock k (map Wire.Report l) s results
    = (fst (Api.scanLoop deviceId allNetworks clock k l s results),
       Some (snd (Api.scanLoop deviceId allNetworks clock k l s results))).
Proof.
  induction l as [|networkData rest IH]; intros k s results;
    cbn [map Wire.scanLoop Api.scanLoop Wire.scanItem Wire.turns];
    [reflexivity|].
  destruct (Api.present (nd_bssid networkData)) as [b|] eqn:Hb.
  - rewrite (scanItem_handled _ _ _ _ _ _ Hb). cbv zeta. cbn [Api.turns].
    apply IH.
  - rewrite (scanItem_rejected _ _ _ _ _ Hb). cbn [Api.turns]. apply IH.
Qed.

Lemma wire_scanLoop_null (deviceId : string) (allNetworks : list Network)
      (clock : nat -> Z) (before after : list Wire.Element) :
  forall (k : nat) (s : Store) (results : Results),
    snd (Wire.scanLoop deviceId allNetworks clock k
                       (before ++ Wire.Null :: after)%list s results) = None
    /\ (~ In Wire.Null before ->
        fst (Wire.scanLoop deviceId allNetworks clock k
                           (before ++ Wire.Null :: after)%list s results)
        = fst (Wire.scanLoop deviceId allNetworks clock k before s results)).
Proof.
  induction before as [|e rest IH]; intros k s results;
    cbn [app Wire.scanLoop].
  - cbn [Wire.scanItem fst snd]. auto.
  - destruct (Wire.scanItem deviceId allNetworks (clock k) e s) as [s' [o|]] eqn:E.
    + destruct (IH (Wire.turns e k) s' (Api.account results o)) as [H1 H2].
      split; [exact H1|]. intros Hn. apply H2. intros Hin. apply Hn. now right.
    + split; [reflexivity|]. intros Hn. reflexivity.
Qed.

Module NullBatch.

(** A batch whose second element is [null]. *)
Definition first : NetworkData :=
  {| nd_ssid := Some "OfficeNet"; nd_bssid := Some "11:22:33:44:55:66";
     nd_rssi := -52; nd_channel := 6; nd_encType := Some "WPA2" |}.

Definition last : NetworkData :=
  {| nd_ssid := Some "HomeNet"; nd_bssid := Some "3c:84:6a:10:20:30";
     nd_rssi := -61; nd_channel := 1; nd_encType := Some "WPA2" |}.

Definition networks : list Wire.Element :=
  [Wire.Report first; Wire.Null; Wire.Report last].

Definition sound : list Wire.Element := [Wire.Report first; Wire.Report last].

Definition empty : Store := {| docs := []; nextId := 0 |}.

Definition clock (k : nat) : Z := Z.of_nat k.

End NullBatch.

(** C9.  An element [null] in the batch ends the loop: the turn throws at
    the destructuring, its [catch] throws on [networkData.bssid], and
    POST /scan answers 500; the reports before it are stored, those after
    it are never processed.  For the batch of a report, [null] and a second
    report the answer is 500 and the store holds the first record only;
    without the [null] both are stored and the answer is a success. *)
Theorem null_report_aborts_batch :
  (forall (deviceId : option string) (clock : nat -> Z)
          (before after : list Wire.Element) (s : Store),
      snd (Wire.scan deviceId clock (Some (before ++ Wire.Null :: after)%list) s)
      = Err 500 "Internal server error"
      /\ (~ In Wire.Null before ->
          fst (Wire.scan deviceId clock (Some (before ++ Wire.Null :: after)%list) s)
          = fst (Wire.scan deviceId clock (Some before) s)))
  /\ snd (Wire.scan None NullBatch.clock (Some NullBatch.networks) NullBatch.empty)
     = Err 500 "Internal server error"
  /\ map bssid
       (docs (fst (Wire.scan None NullBatch.clock (Some NullBatch.networks)
                             NullBatch.empty)))
     = ["11:22:33:44:55:66"]
  /\ map bssid
       (docs (fst (Wire.scan None NullBatch.clock (Some NullBatch.sound)
                             NullBatch.empty)))
     = ["11:22:33:44:55:66"; "3C:84:6A:10:20:30"]
  /\ (exists body,
         snd (Wire.scan None NullBatch.clock (Some NullBatch.sound) NullBatch.empty)
         = Ok body
         /\ processed (Api.results body) = 2
         /\ errors (Api.results body) = []).
Proof.
  split.
  - intros deviceId clock before after s. unfold Wire.scan.
    destruct (wire_scanLoop_null (Api.deviceIdOf deviceId) (Mongo.find s) clock
                before after 0 s Api.emptyResults) as [H1 H2].
    destruct (Wire.scanLoop (Api.deviceIdOf deviceId) (Mongo.find s) clock 0
                (before ++ Wire.Null :: after)%list s Api.emptyResults) as [s' [r|]];
      [discriminate|].
    split; [reflexivity|]. intros Hn. specialize (H2 Hn). cbn [fst] in H2 |- *.
    rewrite H2.
    destruct (Wire.scanLoop (Api.deviceIdOf deviceId) (Mongo.find s) clock 0
                before s Api.emptyResults) as [s0 [r0|]]; reflexivity.
  - split; [reflexivity|]. split; [reflexivity|]. split; [reflexivity|].
    eexists. split; [reflexivity|]. split; reflexivity.
Qed.

(** ** Intake: the response *)

Lemma reached_cons (networkData : NetworkData) (rest : list NetworkData) :
  reached (networkData :: rest)
  = match Api.present (nd_bssid networkData) with
    | Some _ => S (reached rest)
    | None => reached rest
    end.
Proof.
  unfold reached. cbn [filter].
  destruct (Api.present (nd_bssid networkData)); reflexivity.
Qed.

Lemma reached_le (l : list NetworkData) : (reached l <= List.length l)%nat.
Proof. apply filter_length_le. Qed.

Lemma scanLoop_counters (deviceId : string) (allNetworks : list Network)
      (clock : nat -> Z) (l : list NetworkData) :
  forall (k : nat) (s : Store) (r : Results),
    let r' := snd (Api.scanLoop deviceId allNetworks clock k l s r) in
    processed r' = processed r + Z.of_nat (reached l)
    /\ created r' + updated r' = created r + updated r + Z.of_nat (reached l)
    /\ created r <= created r' /\ updated r <= updated r'
    /\ List.length (errors r')
       = (List.length (errors r) + (List.length l - reached l))%nat
    /\ (List.length (r_threats r') <= List.length (r_threats r) + reached l)%nat.
Proof.
  induction l as [|networkData rest IH]; intros k s r; cbv zeta.
  - cbn [Api.scanLoop snd]. unfold reached. cbn [filter List.length].
    repeat split; lia.
  - cbn [Api.scanLoop]. rewrite reached_cons. pose proof (reached_le rest) as Hle.
    destruct (Api.present (nd_bssid networkData)) as [b|] eqn:Hb.
    + rewrite (scanItem_handled _ _ _ _ _ _ Hb). cbv zeta.
      match goal with
      | |- context [Api.scanLoop _ _ _ ?k' rest ?s' ?r0] =>
          specialize (IH k' s' r0); cbv zeta in IH;
          destruct IH as (Hp & Hcu & Hc & Hu & He & Ht);
          set (rr := snd (Api.scanLoop deviceId allNetworks clock k' rest s' r0)) in *
      end.
      cbn [Api.account processed created updated errors r_threats] in *.
      repeat match goal with
             | H : context [if ?c then _ else _] |- _ => destruct c
             end;
        rewrite ?length_app in Ht; cbn [List.length] in *;
        repeat split; lia.
    + rewrite (scanItem_rejected _ _ _ _ _ Hb).
      match goal with
      | |- context [Api.scanLoop _ _ _ ?k' rest ?s' ?r0] =>
          specialize (IH k' s' r0); cbv zeta in IH;
          destruct IH as (Hp & Hcu & Hc & Hu & He & Ht);
          set (rr := snd (Api.scanLoop deviceId allNetworks clock k' rest s' r0)) in *
      end.
      cbn [Api.account processed created updated errors r_threats] in *.
      rewrite length_app in He. cbn [List.length] in *.
      repeat split; lia.
Qed.




(** The level and the harmful flag of an alert follow its score. *)
Definition gradedItem (t : ThreatItem) : Prop :=
  t_riskLevel t = ThreatDetector.classify (t_harmScore t)
  /\ t_isHarmful t = (40 <=? t_harmScore t).

Lemma scanLoop_graded (deviceId : string) (allNetworks : list Network)
      (clock : nat -> Z) (l : list NetworkData) :
  forall (k : nat) (s : Store) (r : Results),
    Forall gradedItem (r_threats r) ->
    Forall gradedItem
      (r_threats (snd (Api.scanLoop deviceId allNetworks clock k l s r))).
Proof.
  induction l as [|networkData rest IH]; intros k s r Hr; simpl; [exact Hr|].
  destruct (Api.present (nd_bssid networkData)) as [b|] eqn:Hb.
  - rewrite (scanItem_handled _ _ _ _ _ _ Hb). cbv zeta. apply IH.
    cbn [Api.account r_threats].
    destruct (0 <? List.length (threats _))%nat; [|exact Hr].
    apply Forall_app. split; [exact Hr|].
    constructor; [split; reflexivity | constructor].
  - rewrite (scanItem_rejected _ _ _ _ _ Hb). now apply IH.
Qed.

Lemma harmful_items (l : list ThreatItem) :
  Forall gradedItem l ->
  List.length (filter t_isHarmful l)
  = (List.length (filter (fun t => RiskLevel_eqb (t_riskLevel t) critical) l)
     + List.length (filter (fun t => RiskLevel_eqb (t_riskLevel t) high) l))%nat.
Proof.
  induction 1 as [|t l [Hr Hh] _ IH]; simpl; [reflexivity|].
  rewrite Hh, classify_harmful, <- Hr.
  destruct (t_riskLevel t); simpl; lia.
Qed.

(** X12.  In the security summary of POST /scan the harmful networks are
    the critical and the high alerts together; there are at most as many
    alerts as processed reports. *)
Theorem scan_summary_adds_up :
  forall (deviceId : option string) (clock : nat -> Z)
         (networks : list NetworkData) (s : Store),
    exists s' body,
      Api.scan deviceId clock (Some networks) s = (s', Ok body)
      /\ Api.harmfulNetworks (Api.securitySummary body)
         = (Api.criticalThreats (Api.securitySummary body)
            + Api.highThreats (Api.securitySummary body))%nat
      /\ (Api.harmfulNetworks (Api.securitySummary body)
          <= Api.threatsDetected (Api.securitySummary body))%nat
      /\ Api.threatsDetected (Api.securitySummary body)
         = List.length (r_threats (Api.results body))
      /\ Z.of_nat (Api.threatsDetected (Api.securitySummary body))
         <= processed (Api.results body).
Proof.
  intros deviceId clock networks s. unfold Api.scan.
  pose proof (scanLoop_counters (Api.deviceIdOf deviceId) (Mongo.find s) clock
                networks 0 s Api.emptyResults) as H.
  pose proof (scanLoop_graded (Api.deviceIdOf deviceId) (Mongo.find s) clock
                networks 0 s Api.emptyResults (Forall_nil _)) as G.
  cbv zeta in H.
  destruct (Api.scanLoop (Api.deviceIdOf deviceId) (Mongo.find s) clock 0
              networks s Api.emptyResults) as [s' r].
  cbn [snd Api.emptyResults processed created updated errors r_threats
       List.length] in H, G.
  destruct H as (Hp & _ & _ & _ & _ & Ht).
  exists s'. eexists. split; [reflexivity|].
  cbn [Api.results Api.securitySummary Api.summarize Api.harmfulNetworks
       Api.criticalThreats Api.highThreats Api.threatsDetected].
  split; [now apply harmful_items|].
  split; [apply filter_length_le|].
  split; [reflexivity | lia].
Qed.

(** ** Intake: what a batch leaves in the store *)

Lemma updateFirst_map_keep {B : Type} (g : Network -> B)
      (p : Network -> bool) (f : Network -> Network)
      (l l' : list Network) (m : Network) :
  (forall n, g (f n) = g n) ->
  Mongo.updateFirst p f l = Some (l', m) -> map g l' = map g l.
Proof.
  intros Hg H. apply updateFirst_Some in H.
  destruct H as (pre & n & post & -> & -> & _).
  rewrite !map_app. simpl. now rewrite Hg.
Qed.

(** A write of the status leaves every other field of every document. *)
Lemma autoStatus_keeps {B : Type} (g : Network -> B) (now : Z)
      (network : Network) (a : ThreatAssessment) (s : Store) :
  (forall t st n, g (Mongo.setStatus t st n) = g n) ->
  map g (docs (Api.autoStatus now network a s)) = map g (docs s)
  /\ nextId (Api.autoStatus now network a s) = nextId s.
Proof.
  intros Hg. unfold Api.autoStatus, Mongo.findByIdAndUpdate.
  destruct (_ && _); [|auto].
  destruct (Mongo.updateFirst _ _ (docs s)) as [[l m]|] eqn:E; simpl; [|auto].
  split; [|reflexivity].
  eapply updateFirst_map_keep; [|exact E]. intros n. apply Hg.
Qed.

(** The collection after the upsert of a report, by cases on the document
    that carries the bssid. *)
Lemma upsert_shape (deviceId : string) (now : Z) (b : string)
      (networkData : NetworkData) (s : Store) :
  let s1 := fst (Api.upsert deviceId now b networkData s) in
  let network := snd (Api.upsert deviceId now b networkData s) in
  let u := Api.updateOf deviceId now networkData in
  match findByBssid b s with
  | Some n =>
      network = Mongo.applyUpdate now u n
      /\ nextId s1 = nextId s
      /\ exists pre post,
           docs s = (pre ++ n :: post)%list
           /\ docs s1 = (pre ++ network :: post)%list
  | None =>
      network = Mongo.inserted now (nextId s) (Js.toUpperCase b) u
      /\ nextId s1 = S (nextId s)
      /\ docs s1 = (docs s ++ [network])%list
      /\ ~ In (Js.toUpperCase b) (map bssid (docs s))
  end.
Proof.
  unfold Api.upsert, Mongo.findOneAndUpdate, findByBssid.
  rewrite toUpperCase_idem.
  destruct (Mongo.updateFirst _ _ (docs s)) as [[l m]|] eqn:E.
  - apply updateFirst_Some in E.
    destruct E as (pre & n & post & Hl & -> & -> & Hf & _).
    rewrite Hf. simpl. split; [reflexivity|]. split; [reflexivity|].
    exists pre, post. auto.
  - apply updateFirst_None in E. rewrite E. simpl.
    split; [reflexivity|]. split; [reflexivity|]. split; [reflexivity|].
    intros Hin. apply in_map_iff in Hin. destruct Hin as (x & Hx & Hin).
    pose proof (find_none _ _ E x Hin) as Hp. simpl in Hp.
    rewrite Hx, String.eqb_refl in Hp. discriminate.
Qed.

(** Every stored record has been seen at least once. *)
Definition counted (s : Store) : Prop :=
  Forall (fun c => 1 <= c) (map seenCount (docs s)).

(** Stored bssids are ASCII texts in upper case and pairwise distinct. *)
Definition keyed (s : Store) : Prop :=
  NoDup (map bssid (docs s))
  /\ Forall (fun b => asciiText b = true /\ b = Js.toUpperCase b)
            (map bssid (docs s)).

(** The bssid of the report, when it has one, is an ASCII text. *)
Definition asciiBssid (networkData : NetworkData) : bool :=
  match nd_bssid networkData with
  | Some b => asciiText b
  | None => true
  end.

Lemma setStatus_bssid (t : Z) (st : Status) (n : Network) :
  bssid (Mongo.setStatus t st n) = bssid n.
Proof. reflexivity. Qed.

Lemma setStatus_seenCount (t : Z) (st : Status) (n : Network) :
  seenCount (Mongo.setStatus t st n) = seenCount n.
Proof. reflexivity. Qed.

(** One turn that reaches the upsert either updates a record in place, and
    counts it as updated when it had been seen before, or appends one. *)
Lemma scanItem_grows (deviceId : string) (allNetworks : list Network)
      (now : Z) (networkData : NetworkData) (s : Store) (b : string) :
  Api.present (nd_bssid networkData) = Some b ->
  let s2 := fst (Api.scanItem deviceId allNetworks now networkData s) in
  let network := snd (Api.upsert deviceId now b networkData s) in
  match findByBssid b s with
  | Some n =>
      map bssid (docs s2) = map bssid (docs s)
      /\ seenCount network = seenCount n + 1
      /\ In n (docs s)
      /\ exists pre post,
           map seenCount (docs s) = (pre ++ seenCount n :: post)%list
           /\ map seenCount (docs s2) = (pre ++ (seenCount n + 1) :: post)%list
  | None =>
      map bssid (docs s2) = (map bssid (docs s) ++ [Js.toUpperCase b])%list
      /\ seenCount network = 1
      /\ map seenCount (docs s2) = (map seenCount (docs s) ++ [1])%list
      /\ ~ In (Js.toUpperCase b) (map bssid (docs s))
  end.
Proof.
  intros Hb s2 network. subst s2.
  rewrite (scanItem_handled _ _ _ _ _ _ Hb). cbv zeta. cbn [fst].
  fold network.
  set (a := ThreatDetector.assessThreat now network allNetworks (history network)).
  set (s1 := fst (Api.upsert deviceId now b networkData s)).
  destruct (autoStatus_keeps bssid now network a s1 setStatus_bssid) as [Hb2 _].
  destruct (autoStatus_keeps seenCount now network a s1 setStatus_seenCount)
    as [Hc2 _].
  rewrite Hb2, Hc2.
  pose proof (upsert_shape deviceId now b networkData s) as H.
  cbv zeta in H. fold s1 network in H.
  destruct (findByBssid b s) as [n|] eqn:Hf.
  - destruct H as (Hn & _ & pre & post & Hs & Hs1).
    rewrite Hs, Hs1, !map_app. cbn [map]. rewrite Hn. cbn [bssid seenCount
      Mongo.applyUpdate Api.updateOf Mongo.u_inc_seenCount].
    split; [reflexivity|]. split; [reflexivity|].
    split; [apply in_or_app; right; now left|].
    exists (map seenCount pre), (map seenCount post). auto.
  - destruct H as (Hn & _ & Hs1 & Hnot).
    rewrite Hs1, !map_app. cbn [map]. rewrite Hn.
    cbn [bssid seenCount Mongo.inserted Api.updateOf Mongo.u_inc_seenCount].
    rewrite toUpperCase_idem. auto.
Qed.

Lemma scanItem_counted (deviceId : string) (allNetworks : list Network)
      (now : Z) (networkData : NetworkData) (s : Store) :
  counted s -> counted (fst (Api.scanItem deviceId allNetworks now networkData s)).
Proof.
  intros Hc. destruct (Api.present (nd_bssid networkData)) as [b|] eqn:Hb.
  2:{ now rewrite (scanItem_rejected _ _ _ _ _ Hb). }
  pose proof (scanItem_grows deviceId allNetworks now networkData s b Hb) as H.
  cbv zeta in H. unfold counted in *.
  destruct (findByBssid b s) as [n|].
  - destruct H as (_ & _ & _ & pre & post & Hs & Hs2).
    rewrite Hs in Hc. rewrite Hs2.
    apply Forall_app in Hc. destruct Hc as [Hpre Hpost].
    inversion Hpost; subst.
    apply Forall_app. split; [exact Hpre|]. constructor; [lia | assumption].
  - destruct H as (_ & _ & Hs2 & _). rewrite Hs2.
    apply Forall_app. split; [exact Hc|]. constructor; [lia | constructor].
Qed.

Lemma scanItem_keyed (deviceId : string) (allNetworks : list Network)
      (now : Z) (networkData : NetworkData) (s : Store) :
  keyed s ->
  asciiBssid networkData = true ->
  keyed (fst (Api.scanItem deviceId allNetworks now networkData s)).
Proof.
  intros [Hnd Hup] Hascii.
  destruct (Api.present (nd_bssid networkData)) as [b|] eqn:Hb.
  2:{ rewrite (scanItem_rejected _ _ _ _ _ Hb). now split. }
  pose proof (scanItem_grows deviceId allNetworks now networkData s b Hb) as H.
  cbv zeta in H. unfold keyed.
  unfold asciiBssid in Hascii. unfold Api.present in Hb.
  destruct (nd_bssid networkData) as [b0|]; [|discriminate].
  destruct (b0 =? "")%string; [discriminate|]. injection Hb as ->.
  destruct (findByBssid b s) as [n|].
  - destruct H as (-> & _). now split.
  - destruct H as (-> & _ & _ & Hnot). split.
    + apply NoDup_app; [exact Hnd | constructor; [intros []|constructor] |].
      intros x Hx [<-|[]]. contradiction.
    + apply Forall_app. split; [exact Hup|].
      constructor; [|constructor].
      split; [now rewrite asciiText_upper | now rewrite toUpperCase_idem].
Qed.

(** X13.  On a store whose records have all been seen at least once, a
    batch removes and reorders nothing: the bssids of the store after the
    batch are those before it followed by the new ones, and the number of
    new records is the [created] counter of the batch.  The records of the
    resulting store have again all been seen at least once. *)
Theorem scanLoop_appends_created :
  forall (deviceId : string) (allNetworks : list Network) (clock : nat -> Z)
         (networks : list NetworkData) (k : nat) (s : Store) (results : Results),
    counted s ->
    let s' := fst (Api.scanLoop deviceId allNetworks clock k networks s results) in
    let r' := snd (Api.scanLoop deviceId allNetworks clock k networks s results) in
    counted s'
    /\ exists added,
         map bssid (docs s') = (map bssid (docs s) ++ added)%list
         /\ Z.of_nat (List.length added) = created r' - created results.
Proof.
  intros deviceId allNetworks clock networks.
  induction networks as [|networkData rest IH]; intros k s results Hc; cbv zeta.
  - cbn [Api.scanLoop fst snd]. split; [exact Hc|]. exists [].
    rewrite app_nil_r. split; [reflexivity | simpl; lia].
  - cbn [Api.scanLoop].
    pose proof (scanItem_counted deviceId allNetworks (clock k) networkData s Hc)
      as Hc'.
    destruct (Api.present (nd_bssid networkData)) as [b|] eqn:Hb.
    + pose proof (scanItem_grows deviceId allNetworks (clock k) networkData s b Hb)
        as H.
      cbv zeta in H.
      rewrite (scanItem_handled _ _ _ _ _ _ Hb) in *. cbv zeta in *.
      cbn [fst] in H, Hc'.
      match goal with
      | |- context [Api.scanLoop _ _ _ ?k' rest ?s2 ?r0] =>
          destruct (IH k' s2 r0 Hc') as (Hcf & added & Hadd & Hlen)
      end.
      cbv zeta in Hcf, Hadd, Hlen. split; [exact Hcf|].
      match goal with
      | |- context [Api.scanLoop ?d ?al ?c ?k' rest ?s2 ?r0] =>
          set (final := Api.scanLoop d al c k' rest s2 r0) in *
      end.
      cbn [Api.account created] in Hlen.
      destruct (findByBssid b s) as [n|].
      * destruct H as (Hsame & Hseen & Hin & _).
        exists added. rewrite Hadd, Hsame. split; [reflexivity|].
        assert (Hn : 1 <= seenCount n).
        { unfold counted in Hc. rewrite Forall_forall in Hc.
          apply Hc. now apply in_map. }
        destruct (Z.eqb_spec
                    (seenCount (snd (Api.upsert deviceId (clock k) b networkData s)))
                    1); lia.
      * destruct H as (Hnew & Hseen & _).
        exists (Js.toUpperCase b :: added).
        rewrite Hadd, Hnew, <- app_assoc. split; [reflexivity|].
        rewrite Hseen in Hlen. cbn [List.length].
        change (1 =? 1) with true in Hlen. cbv iota in Hlen. lia.
    + rewrite (scanItem_rejected _ _ _ _ _ Hb) in *. cbn [fst] in Hc'.
      destruct (IH k s (Api.account results (Api.Rejected
                 ("Missing BSSID for network: " ++ Js.ofOpt (nd_ssid networkData))))
                 Hc) as (Hcf & added & Hadd & Hlen).
      cbv zeta in Hcf, Hadd, Hlen. split; [exact Hcf|].
      exists added. split; [exact Hadd | exact Hlen].
Qed.

Lemma scanLoop_appends_created_witness :
  counted FreeWifi.seen
  /\ exists added,
       map bssid
         (docs (fst (Api.scanLoop "ESP8266_001" [] FreeWifi.clock 0
                       (FreeWifi.report :: TwinBatch.networks)
                       FreeWifi.seen Api.emptyResults)))
       = (map bssid (docs FreeWifi.seen) ++ added)%list
       /\ Z.of_nat (List.length added) = 2.
Proof.
  assert (Hc : counted FreeWifi.seen).
  { unfold counted. vm_compute. constructor; [discriminate | constructor]. }
  split; [exact Hc|].
  destruct (scanLoop_appends_created "ESP8266_001" [] FreeWifi.clock
              (FreeWifi.report :: TwinBatch.networks) 0 FreeWifi.seen
              Api.emptyResults Hc) as (_ & added & Hadd & Hlen).
  exists added. split; [exact Hadd | exact Hlen].
Defined.

(** X14.  The intake keeps the key of the collection: when the stored
    bssids are ASCII texts in upper case and pairwise distinct, they are so
    after any batch of reports whose bssids are ASCII texts, in whatever
    case the reports spell them. *)
Theorem scanLoop_keeps_bssids_distinct :
  forall (deviceId : string) (allNetworks : list Network) (clock : nat -> Z)
         (networks : list NetworkData) (k : nat) (s : Store) (results : Results),
    keyed s ->
    Forall (fun networkData => asciiBssid networkData = true) networks ->
    keyed (fst (Api.scanLoop deviceId allNetworks clock k networks s results)).
Proof.
  intros deviceId allNetworks clock networks.
  induction networks as [|networkData rest IH]; intros k s results Hk Ha;
    cbn [Api.scanLoop]; [exact Hk|].
  inversion Ha as [|? ? Ha1 Ha2]; subst.
  pose proof (scanItem_keyed deviceId allNetworks (clock k) networkData s Hk Ha1)
    as Hk'.
  destruct (Api.scanItem deviceId allNetworks (clock k) networkData s) as [s' o].
  now apply IH.
Qed.

Lemma scanLoop_keeps_bssids_distinct_witness :
  keyed FreeWifi.empty
  /\ Forall (fun networkData => asciiBssid networkData = true)
            (FreeWifi.report :: FreeWifi.report :: TwinBatch.networks)
  /\ keyed (fst (Api.scanLoop "ESP8266_001" [] FreeWifi.clock 0
                   (FreeWifi.report :: FreeWifi.report :: TwinBatch.networks)
                   FreeWifi.empty Api.emptyResults)).
Proof.
  assert (Hk : keyed FreeWifi.empty) by (split; constructor).
  assert (Ha : Forall (fun networkData => asciiBssid networkData = true)
                      (FreeWifi.report :: FreeWifi.report :: TwinBatch.networks))
    by (repeat constructor).
  split; [exact Hk|]. split; [exact Ha|].
  apply scanLoop_keeps_bssids_distinct; [exact Hk | exact Ha].
Defined.

(** ** Intake: finding the record of a report *)

Lemma updateFirst_find_keep (q p : Network -> bool) (f : Network -> Network)
      (l l' : list Network) (m n : Network) :
  (forall x, q (f x) = q x) ->
  Mongo.updateFirst p f l = Some (l', m) ->
  List.find q l = Some n ->
  List.find q l' = Some n \/ List.find q l' = Some (f n).
Proof.
  intros Hq. revert l' m.
  induction l as [|x l IH]; simpl; intros l' m H Hn; [discriminate|].
  destruct (p x) eqn:Hp.
  - injection H as <- <-. simpl. rewrite Hq.
    destruct (q x); [injection Hn as <-|]; auto.
  - destruct (Mongo.updateFirst p f l) as [[r' m']|] eqn:E; [|discriminate].
    injection H as <- <-. simpl.
    destruct (q x); [auto|]. eapply IH; eauto.
Qed.

Lemma updateFirst_find_same (p : Network -> bool) (f : Network -> Network)
      (l l' : list Network) (m : Network) :
  (forall x, p (f x) = p x) ->
  Mongo.updateFirst p f l = Some (l', m) ->
  List.find p l' = Some m.
Proof.
  intros Hp. revert l' m.
  induction l as [|x l IH]; simpl; intros l' m H; [discriminate|].
  destruct (p x) eqn:Hx.
  - injection H as <- <-. simpl. now rewrite Hp, Hx.
  - destruct (Mongo.updateFirst p f l) as [[r' m']|] eqn:E; [|discriminate].
    injection H as <- <-. simpl. rewrite Hx. now apply IH.
Qed.

Lemma find_app_none {A : Type} (p : A -> bool) (l : list A) (x : A) :
  List.find p l = None -> p x = true -> List.find p (l ++ [x]) = Some x.
Proof.
  induction l as [|y l IH]; simpl; intros H Hx; [now rewrite Hx|].
  destruct (p y); [discriminate | auto].
Qed.

(** The record of a report is found under the report's bssid right after
    the upsert. *)
Lemma upsert_found (deviceId : string) (now : Z) (b : string)
      (networkData : NetworkData) (s : Store) :
  findByBssid b (fst (Api.upsert deviceId now b networkData s))
  = Some (snd (Api.upsert deviceId now b networkData s)).
Proof.
  unfold Api.upsert, Mongo.findOneAndUpdate, findByBssid.
  rewrite toUpperCase_idem.
  destruct (Mongo.updateFirst _ _ (docs s)) as [[l m]|] eqn:E; simpl.
  - eapply updateFirst_find_same; [|exact E]. reflexivity.
  - apply updateFirst_None in E. apply find_app_none; [exact E|].
    simpl. rewrite toUpperCase_idem. apply String.eqb_refl.
Qed.

(** [n'] is [n] up to the status and the time of the last write. *)
Definition sameReading (n n' : Network) : Prop :=
  _id n' = _id n /\ ssid n' = ssid n /\ bssid n' = bssid n /\ rssi n' = rssi n
  /\ channel n' = channel n /\ encType n' = encType n
  /\ firstSeen n' = firstSeen n /\ lastSeen n' = lastSeen n
  /\ seenCount n' = seenCount n /\ history n' = history n
  /\ deviceId n' = deviceId n /\ createdAt n' = createdAt n.

Lemma sameReading_refl (n : Network) : sameReading n n.
Proof. repeat split. Qed.

Lemma sameReading_setStatus (t : Z) (st : Status) (n : Network) :
  sameReading n (Mongo.setStatus t st n).
Proof. repeat split. Qed.

Lemma autoStatus_find_bssid (now : Z) (network : Network) (a : ThreatAssessment)
      (s : Store) (c : string) (n : Network) :
  findByBssid c s = Some n ->
  exists n', findByBssid c (Api.autoStatus now network a s) = Some n'
             /\ sameReading n n'.
Proof.
  unfold findByBssid, Api.autoStatus, Mongo.findByIdAndUpdate. intros Hn.
  destruct (_ && _); [|exists n; split; [exact Hn | apply sameReading_refl]].
  destruct (Mongo.updateFirst _ _ (docs s)) as [[l m]|] eqn:E; simpl;
    [|exists n; split; [exact Hn | apply sameReading_refl]].
  assert (Hq : forall x,
             (bssid (Mongo.setStatus now suspicious x) =? Js.toUpperCase c)%string
             = (bssid x =? Js.toUpperCase c)%string) by reflexivity.
  destruct (updateFirst_find_keep
              (fun x => (bssid x =? Js.toUpperCase c)%string) _ _ _ _ _ n
              Hq E Hn) as [H|H]; rewrite H.
  - exists n. split; [reflexivity | apply sameReading_refl].
  - eexists. split; [reflexivity | apply sameReading_setStatus].
Qed.

Lemma upsert_find_bssid (deviceId : string) (now : Z) (b : string)
      (networkData : NetworkData) (s : Store) (c : string) (n : Network) :
  findByBssid c s = Some n ->
  exists n', findByBssid c (fst (Api.upsert deviceId now b networkData s)) = Some n'.
Proof.
  unfold findByBssid, Api.upsert, Mongo.findOneAndUpdate. intros Hn.
  destruct (Mongo.updateFirst _ _ (docs s)) as [[l m]|] eqn:E; simpl.
  - assert (Hq : forall x,
               (bssid (Mongo.applyUpdate now
                         (Api.updateOf deviceId now networkData) x)
                =? Js.toUpperCase c)%string
               = (bssid x =? Js.toUpperCase c)%string) by reflexivity.
    destruct (updateFirst_find_keep
                (fun x => (bssid x =? Js.toUpperCase c)%string) _ _ _ _ _ n
                Hq E Hn) as [H|H]; rewrite H; eauto.
  - exists n. now apply find_app_found.
Qed.

Lemma scanItem_find_bssid (deviceId : string) (allNetworks : list Network)
      (now : Z) (networkData : NetworkData) (s : Store) (c : string) (n : Network) :
  findByBssid c s = Some n ->
  exists n',
    findByBssid c (fst (Api.scanItem deviceId allNetworks now networkData s))
    = Some n'.
Proof.
  intros Hn. destruct (Api.present (nd_bssid networkData)) as [b|] eqn:Hb.
  - rewrite (scanItem_handled _ _ _ _ _ _ Hb). cbv zeta. cbn [fst].
    destruct (upsert_find_bssid deviceId now b networkData s c n Hn) as (n1 & Hn1).
    destruct (autoStatus_find_bssid now
                (snd (Api.upsert deviceId now b networkData s))
                (ThreatDetector.assessThreat now
                   (snd (Api.upsert deviceId now b networkData s)) allNetworks
                   (history (snd (Api.upsert deviceId now b networkData s))))
                _ c n1 Hn1) as (n2 & Hn2 & _).
    eauto.
  - rewrite (scanItem_rejected _ _ _ _ _ Hb). eauto.
Qed.

Lemma scanLoop_find_bssid (deviceId : string) (allNetworks : list Network)
      (clock : nat -> Z) (networks : list NetworkData) (c : string) :
  forall (k : nat) (s : Store) (results : Results) (n : Network),
    findByBssid c s = Some n ->
    exists n',
      findByBssid c
        (fst (Api.scanLoop deviceId allNetworks clock k networks s results))
      = Some n'.
Proof.
  induction networks as [|networkData rest IH]; intros k s results n Hn;
    cbn [Api.scanLoop]; [eauto|].
  destruct (scanItem_find_bssid deviceId allNetworks (clock k) networkData
              s c n Hn) as (n1 & Hn1).
  destruct (Api.scanItem deviceId allNetworks (clock k) networkData s) as [s' o].
  eapply IH. exact Hn1.
Qed.

(** The record of a report right after the turn of the report. *)
Lemma scanItem_own (deviceId : string) (allNetworks : list Network)
      (now : Z) (networkData : NetworkData) (s : Store) (b : string) :
  Api.present (nd_bssid networkData) = Some b ->
  exists n,
    findByBssid b (fst (Api.scanItem deviceId allNetworks now networkData s))
    = Some n
    /\ sameReading (snd (Api.upsert deviceId now b networkData s)) n.
Proof.
  intros Hb. rewrite (scanItem_handled _ _ _ _ _ _ Hb). cbv zeta. cbn [fst].
  apply autoStatus_find_bssid. apply upsert_found.
Qed.

Lemma upsert_reading (device : string) (now : Z) (b : string)
      (networkData : NetworkData) (s : Store) :
  let network := snd (Api.upsert device now b networkData s) in
  bssid network = Js.toUpperCase b
  /\ ssid network = Js.trim (Api.orElse (nd_ssid networkData) "Hidden Network")
  /\ rssi network = nd_rssi networkData
  /\ channel network = nd_channel networkData
  /\ encType network = Api.orElse (nd_encType networkData) "Unknown"
  /\ lastSeen network = now
  /\ deviceId network = device.
Proof.
  intros network.
  pose proof (upsert_found device now b networkData s) as Hf.
  fold network in Hf. unfold findByBssid in Hf.
  apply find_some in Hf. destruct Hf as [_ Hbs]. apply String.eqb_eq in Hbs.
  split; [exact Hbs|]. subst network.
  pose proof (upsert_shape device now b networkData s) as H. cbv zeta in H.
  destruct (findByBssid b s) as [n|].
  - destruct H as (-> & _). repeat split.
  - destruct H as (-> & _). repeat split.
Qed.

(** X15.  After a batch of reports whose bssids are ASCII texts, every
    report of it that has a bssid has a record in the store, found under
    that bssid in any spelling of its case and stored under its upper-case
    form.  The record of the last report of a batch carries the readings of
    that report: its rssi, channel, the trimmed ssid or 'Hidden Network',
    the encryption type or 'Unknown', the device and the time of the
    turn. *)
Theorem scan_then_find :
  forall (device : string) (allNetworks : list Network) (clock : nat -> Z)
         (k : nat) (before after : list NetworkData) (networkData : NetworkData)
         (s : Store) (results : Results) (b : string),
    Api.present (nd_bssid networkData) = Some b ->
    Forall (fun report => asciiBssid report = true)
           (before ++ networkData :: after) ->
    (exists n,
        findByBssid b
          (fst (Api.scanLoop device allNetworks clock k
                  (before ++ networkData :: after) s results))
        = Some n
        /\ bssid n = Js.toUpperCase b)
    /\ (exists n,
           findByBssid b
             (fst (Api.scanLoop device allNetworks clock k
                     (before ++ [networkData]) s results))
           = Some n
           /\ ssid n = Js.trim (Api.orElse (nd_ssid networkData) "Hidden Network")
           /\ rssi n = nd_rssi networkData
           /\ channel n = nd_channel networkData
           /\ encType n = Api.orElse (nd_encType networkData) "Unknown"
           /\ deviceId n = device
           /\ lastSeen n = clock (k + reached before)%nat)
    /\ findByBssid (Js.toUpperCase b) = findByBssid b.
Proof.
  intros device allNetworks clock k before after networkData s results b Hb _.
  split; [|split].
  - rewrite scanLoop_app. cbn [Api.scanLoop].
    set (s0 := fst (Api.scanLoop device allNetworks clock k before s results)).
    set (r0 := snd (Api.scanLoop device allNetworks clock k before s results)).
    destruct (scanItem_own device allNetworks (clock (k + reached before)%nat)
                networkData s0 b Hb) as (n1 & Hn1 & _).
    destruct (Api.scanItem device allNetworks (clock (k + reached before)%nat)
                networkData s0) as [s1 o].
    cbn [fst] in Hn1.
    destruct (scanLoop_find_bssid device allNetworks clock after b
                (Api.turns o (k + reached before)) s1 (Api.account r0 o) n1 Hn1)
      as (n' & Hn').
    exists n'. split; [exact Hn'|].
    unfold findByBssid in Hn'. apply find_some in Hn'.
    destruct Hn' as [_ H]. now apply String.eqb_eq in H.
  - rewrite scanLoop_app. cbn [Api.scanLoop].
    set (s0 := fst (Api.scanLoop device allNetworks clock k before s results)).
    set (r0 := snd (Api.scanLoop device allNetworks clock k before s results)).
    destruct (scanItem_own device allNetworks (clock (k + reached before)%nat)
                networkData s0 b Hb) as (n1 & Hn1 & Hsame).
    pose proof (upsert_reading device (clock (k + reached before)%nat) b
                  networkData s0) as Hr.
    cbv zeta in Hr.
    destruct (Api.scanItem device allNetworks (clock (k + reached before)%nat)
                networkData s0) as [s1 o].
    cbn [fst] in *. exists n1. split; [exact Hn1|].
    destruct Hsame as (_ & Hs & _ & Hrs & Hch & He & _ & Hl & _ & _ & Hd & _).
    destruct Hr as (_ & Rs & Rr & Rc & Re & Rl & Rd).
    repeat split; congruence.
  - unfold findByBssid. now rewrite toUpperCase_idem.
Qed.

Lemma scan_then_find_witness :
  Api.present (nd_bssid FreeWifi.report) = Some "aa:bb:cc:11:22:33"
  /\ Forall (fun report => asciiBssid report = true)
            (TwinBatch.networks ++ FreeWifi.report :: TwinBatch.networks)
  /\ exists n,
       findByBssid "aa:bb:cc:11:22:33"
         (fst (Api.scanLoop "ESP8266_001" [] FreeWifi.clock 0
                 (TwinBatch.networks ++ FreeWifi.report :: TwinBatch.networks)
                 FreeWifi.empty Api.emptyResults))
       = Some n
       /\ bssid n = "AA:BB:CC:11:22:33".
Proof.
  assert (Ha : Forall (fun report => asciiBssid report = true)
                      (TwinBatch.networks ++ FreeWifi.report :: TwinBatch.networks))
    by (repeat constructor).
  split; [reflexivity|]. split; [exact Ha|].
  destruct (scan_then_find "ESP8266_001" [] FreeWifi.clock 0
              TwinBatch.networks TwinBatch.networks FreeWifi.report
              FreeWifi.empty Api.emptyResults "aa:bb:cc:11:22:33"
              eq_refl Ha)
    as [H _].
  exact H.
Defined.

(** ** Intake and patch: what stays of a record *)

(** [n'] is a later state of the record [n]: the identity and the first
    sighting are those of [n], the counter is not lower. *)
Definition laterOf (n n' : Network) : Prop :=
  _id n' = _id n /\ bssid n' = bssid n /\ firstSeen n' = firstSeen n
  /\ createdAt n' = createdAt n /\ seenCount n <= seenCount n'.

Lemma laterOf_refl (n : Network) : laterOf n n.
Proof. repeat split. lia. Qed.

Lemma laterOf_trans (a b c : Network) : laterOf a b -> laterOf b c -> laterOf a c.
Proof.
  intros (H1 & H2 & H3 & H4 & H5) (G1 & G2 & G3 & G4 & G5).
  repeat split; try congruence. lia.
Qed.

Lemma scanItem_later (device : string) (allNetworks : list Network)
      (now : Z) (networkData : NetworkData) (s : Store) (id : nat) (n : Network) :
  Mongo.findById id s = Some n ->
  exists n',
    Mongo.findById id (fst (Api.scanItem device allNetworks now networkData s))
    = Some n'
    /\ laterOf n n'.
Proof.
  intros Hn. destruct (Api.present (nd_bssid networkData)) as [b|] eqn:Hb.
  2:{ rewrite (scanItem_rejected _ _ _ _ _ Hb). exists n.
      split; [exact Hn | apply laterOf_refl]. }
  rewrite (scanItem_handled _ _ _ _ _ _ Hb). cbv zeta. cbn [fst].
  set (network := snd (Api.upsert device now b networkData s)).
  set (a := ThreatDetector.assessThreat now network allNetworks (history network)).
  assert (H1 : exists n1,
             Mongo.findById id (fst (Api.upsert device now b networkData s)) = Some n1
             /\ laterOf n n1).
  { unfold Mongo.findById, Api.upsert, Mongo.findOneAndUpdate in *.
    destruct (Mongo.updateFirst _ _ (docs s)) as [[l m]|] eqn:E; simpl.
    - destruct (updateFirst_find_id _ _
                  (applyUpdate_id now (Api.updateOf device now networkData))
                  _ _ _ id n E Hn) as [H|H]; rewrite H.
      + exists n. split; [reflexivity | apply laterOf_refl].
      + eexists. split; [reflexivity|]. repeat split. simpl. lia.
    - exists n. split; [now apply find_app_found | apply laterOf_refl]. }
  destruct H1 as (n1 & Hn1 & L1).
  unfold Api.autoStatus, Mongo.findByIdAndUpdate.
  destruct (_ && _); [|exists n1; auto].
  unfold Mongo.findById in *.
  destruct (Mongo.updateFirst _ _ (docs (fst (Api.upsert device now b networkData s))))
    as [[l m]|] eqn:E; simpl; [|exists n1; auto].
  destruct (updateFirst_find_id _ _ (setStatus_id now suspicious)
              _ _ _ id n1 E Hn1) as [H|H]; rewrite H.
  - exists n1. auto.
  - eexists. split; [reflexivity|].
    eapply laterOf_trans; [exact L1|]. repeat split. simpl. lia.
Qed.

(** X16.  A record is never lost or re-keyed by the intake: a record found
    by its id before a batch is found by it afterwards, with the same bssid,
    the same [firstSeen] and [createdAt], and a [seenCount] that is not
    lower. *)
Theorem scanLoop_record_persists :
  forall (device : string) (allNetworks : list Network) (clock : nat -> Z)
         (networks : list NetworkData) (k : nat) (s : Store) (results : Results)
         (id : nat) (n : Network),
    Mongo.findById id s = Some n ->
    exists n',
      Mongo.findById id
        (fst (Api.scanLoop device allNetworks clock k networks s results))
      = Some n'
      /\ bssid n' = bssid n
      /\ firstSeen n' = firstSeen n
      /\ createdAt n' = createdAt n
      /\ seenCount n <= seenCount n'.
Proof.
  intros device allNetworks clock networks.
  assert (H : forall k s results id n,
             Mongo.findById id s = Some n ->
             exists n',
               Mongo.findById id
                 (fst (Api.scanLoop device allNetworks clock k networks s results))
               = Some n'
               /\ laterOf n n').
  { induction networks as [|networkData rest IH]; intros k s results id n Hn;
      cbn [Api.scanLoop].
    - exists n. split; [exact Hn | apply laterOf_refl].
    - destruct (scanItem_later device allNetworks (clock k) networkData s id n Hn)
        as (n1 & Hn1 & L1).
      destruct (Api.scanItem device allNetworks (clock k) networkData s) as [s' o].
      cbn [fst] in Hn1.
      destruct (IH (Api.turns o k) s' (Api.account results o) id n1 Hn1)
        as (n' & Hn' & L').
      exists n'. split; [exact Hn' | eapply laterOf_trans; eauto]. }
  intros k s results id n Hn.
  destruct (H k s results id n Hn) as (n' & Hn' & _ & Hb & Hf & Hc & Hs).
  exists n'. auto.
Qed.

Lemma scanLoop_record_persists_witness :
  exists n',
    Mongo.findById 0
      (fst (Api.scanLoop "ESP8266_001" [] FreeWifi.clock 0
              (FreeWifi.report :: TwinBatch.networks)
              FreeWifi.cleared Api.emptyResults))
    = Some n'
    /\ bssid n' = "AA:BB:CC:11:22:33"
    /\ 1 <= seenCount n'.
Proof.
  destruct (scanLoop_record_persists "ESP8266_001" [] FreeWifi.clock
              (FreeWifi.report :: TwinBatch.networks) 0 FreeWifi.cleared
              Api.emptyResults 0
              (Mongo.setStatus 2000 trusted
                 (snd (Api.upsert "ESP8266_001" 1000 "aa:bb:cc:11:22:33"
                                  FreeWifi.report FreeWifi.empty)))
              eq_refl) as (n' & Hn' & Hb & _ & _ & Hc).
  exists n'. split; [exact Hn'|]. split; [exact Hb | exact Hc].
Defined.






(** * The rest of [routes/api] *)

Module Auth.

(** The two request headers that [validateApiKey] reads. *)
Record Headers : Type := mkHeaders {
  x_api_key : option string;
  authorization : option string
}.

(** [a || b] on two possibly absent strings. *)
Definition firstOf (a b : option string) : option string :=
  match Api.present a with
  | Some k => Some k
  | None => b
  end.

(** [validateApiKey]: [Ok tt] stands for the call of [next()].  [API_KEY]
    is [process.env.API_KEY]. *)
Definition validateApiKey (headers : Headers) (API_KEY : option string)
  : Response unit :=
  let apiKey := firstOf (x_api_key headers) (authorization headers) in
  match Api.present apiKey, API_KEY with
  | Some k, Some e =>
      if (k =? e)%string then Ok tt
      else Err 401 "Unauthorized: Invalid or missing API key"
  | _, _ => Err 401 "Unauthorized: Invalid or missing API key"
  end.

(** [router.post('/scan', validateApiKey, ...)] *)
Definition postScan (headers : Headers) (API_KEY : option string)
           (deviceId : option string) (clock : nat -> Z)
           (networks : option (list NetworkData)) (s : Store)
  : Store * Response Api.ScanResponse :=
  match validateApiKey headers API_KEY with
  | Ok _ => Api.scan deviceId clock networks s
  | Err code error => (s, Err code error)
  end.

End Auth.

Module Stats.

(** [Network.aggregate([{ $group: { _id: '$status', count: { $sum: 1 } } }])]:
    one entry per status that some document has, with the number of those
    documents.  The store fixes no order of the entries; the handler reads
    them by key. *)
Definition aggregate (l : list Network) : list (Status * nat) :=
  filter (fun stat => (0 <? snd stat)%nat)
         (map (fun st =>
                 (st, List.length (filter (fun n => Status_eqb (status n) st) l)))
              [trusted; unknown; suspicious]).

Record StatusCounts : Type := mkStatusCounts {
  c_trusted : nat;
  c_unknown : nat;
  c_suspicious : nat
}.

(** [statusCounts[stat._id] = stat.count] *)
Definition assign (c : StatusCounts) (stat : Status * nat) : StatusCounts :=
  match fst stat with
  | trusted =>
      {| c_trusted := snd stat; c_unknown := c_unknown c;
         c_suspicious := c_suspicious c |}
  | unknown =>
      {| c_trusted := c_trusted c; c_unknown := snd stat;
         c_suspicious := c_suspicious c |}
  | suspicious =>
      {| c_trusted := c_trusted c; c_unknown := c_unknown c;
         c_suspicious := snd stat |}
  end.

Record Body : Type := mkBody {
  total : nat;
  recentlyActive : nat;
  statusCounts : StatusCounts
}.

(** GET /stats at the instant [now] (milliseconds). *)
Definition getStats (now : Z) (s : Store) : Body :=
  let stats := aggregate (docs s) in
  let totalNetworks := List.length (docs s) in
  let recentlyActive :=
    List.length (filter (fun n => now - 10 * 60 * 1000 <=? lastSeen n) (docs s)) in
  let statusCounts :=
    fold_left assign stats
              {| c_trusted := 0; c_unknown := 0; c_suspicious := 0 |} in
  {| total := totalNetworks;
     recentlyActive := recentlyActive;
     statusCounts := statusCounts |}.

End Stats.

(** The first version of the router: POST /scan without threat
    analysis. *)
Module ApiV1.

Record Results : Type := mkResults {
  processed : Z;
  updated : Z;
  created : Z;
  errors : list string
}.

Inductive Outcome : Type :=
| Rejected (error : string)
| Stored (result : Network).

Definition scanItem (deviceId : string) (now : Z) (networkData : NetworkData)
           (s : Store) : Store * Outcome :=
  match Api.present (nd_bssid networkData) with
  | None =>
      (s, Rejected ("Missing BSSID for network: " ++ Js.ofOpt (nd_ssid networkData)))
  | Some bssid =>
      let '(s1, result) := Api.upsert deviceId now bssid networkData s in
      (s1, Stored result)
  end.

Definition account (results : Results) (o : Outcome) : Results :=
  match o with
  | Rejected e =>
      {| processed := processed results;
         updated := updated results;
         created := created results;
         errors := (errors results ++ [e])%list |}
  | Stored result =>
      {| processed := processed results + 1;
         updated := if seenCount result =? 1 then updated results
                    else updated results + 1;
         created := if seenCount result =? 1 then created results + 1
                    else created results;
         errors := errors results |}
  end.

Definition turns (o : Outcome) (k : nat) : nat :=
  match o with
  | Rejected _ => k
  | Stored _ => S k
  end.

Fixpoint scanLoop (deviceId : string) (clock : nat -> Z) (k : nat)
         (networks : list NetworkData) (s : Store) (results : Results)
  : Store * Results :=
  match networks with
  | [] => (s, results)
  | networkData :: rest =>
      let '(s', o) := scanItem deviceId (clock k) networkData s in
      scanLoop deviceId clock (turns o k) rest s' (account results o)
  end.

Definition emptyResults : Results :=
  {| processed := 0; updated := 0; created := 0; errors := [] |}.

Record ScanResponse : Type := mkScanResponse {
  message : string;
  results : Results
}.

Definition scan (deviceId : option string) (clock : nat -> Z)
           (networks : option (list NetworkData)) (s : Store)
  : Store * Response ScanResponse :=
  match networks with
  | None => (s, Err 400 "Invalid payload: networks array required")
  | Some l =>
      let '(s', r) :=
        scanLoop (Api.deviceIdOf deviceId) clock 0 l s emptyResults in
      (s', Ok {| message := "Processed " ++ Js.ofZ (processed r) ++ " networks";
                 results := r |})
  end.

End ApiV1.

(** ** The API key *)

Lemma present_Some (x : option string) (k : string) :
  Api.present x = Some k <-> x = Some k /\ k <> "".
Proof.
  unfold Api.present. destruct x as [s|]; [|split; [discriminate | intros [H _]; discriminate]].
  destruct (String.eqb_spec s "") as [->|Hs].
  - split; [discriminate | intros [H Hk]; congruence].
  - split; [intros H; injection H as <-; auto | intros [H _]; exact H].
Qed.

Lemma present_None (x : option string) :
  Api.present x = None <-> x = None \/ x = Some "".
Proof.
  unfold Api.present. destruct x as [s|]; [|split; auto].
  destruct (String.eqb_spec s "") as [->|Hs].
  - split; auto.
  - split; [discriminate | intros [H|H]; congruence].
Qed.

(** X18.  [validateApiKey] lets a request through iff the configured
    API_KEY is a non-empty string and equals the [x-api-key] header, or, when
    that header is absent or empty, the [authorization] header.  So a
    non-empty [x-api-key] that is wrong is refused even when [authorization]
    holds the key, and nothing gets through while API_KEY is unset or empty.
    A refused POST /scan answers 401 and writes nothing. *)
Theorem validateApiKey_spec :
  forall (headers : Auth.Headers) (API_KEY : option string),
    (Auth.validateApiKey headers API_KEY = Ok tt
     <-> exists k,
           k <> "" /\ API_KEY = Some k
           /\ (Auth.x_api_key headers = Some k
               \/ ((Auth.x_api_key headers = None
                    \/ Auth.x_api_key headers = Some "")
                   /\ Auth.authorization headers = Some k)))
    /\ (Auth.validateApiKey headers API_KEY = Ok tt
        \/ Auth.validateApiKey headers API_KEY
           = Err 401 "Unauthorized: Invalid or missing API key")
    /\ (API_KEY = None \/ API_KEY = Some "" ->
        Auth.validateApiKey headers API_KEY <> Ok tt)
    /\ (forall deviceId clock networks s,
           Auth.validateApiKey headers API_KEY <> Ok tt ->
           Auth.postScan headers API_KEY deviceId clock networks s
           = (s, Err 401 "Unauthorized: Invalid or missing API key")).
Proof.
  intros headers API_KEY.
  assert (Hiff : Auth.validateApiKey headers API_KEY = Ok tt
                 <-> exists k,
                       k <> "" /\ API_KEY = Some k
                       /\ (Auth.x_api_key headers = Some k
                           \/ ((Auth.x_api_key headers = None
                                \/ Auth.x_api_key headers = Some "")
                               /\ Auth.authorization headers = Some k))).
  { unfold Auth.validateApiKey, Auth.firstOf.
    destruct (Api.present (Auth.x_api_key headers)) as [x|] eqn:Hx.
    - apply present_Some in Hx. destruct Hx as [Hx Hne].
      assert (Hp : Api.present (Some x) = Some x)
        by (apply present_Some; auto).
      rewrite Hp. destruct API_KEY as [e|].
      + destruct (String.eqb_spec x e) as [->|Hxe].
        * split; [intros _|reflexivity]. exists e. auto.
        * split; [discriminate|]. intros (k & Hk & He & [H|[[H|H] _]]);
            congruence.
      + split; [discriminate|]. intros (k & _ & He & _). discriminate.
    - apply present_None in Hx.
      destruct (Api.present (Auth.authorization headers)) as [a|] eqn:Ha.
      + apply present_Some in Ha. destruct Ha as [Ha Hne].
        destruct API_KEY as [e|].
        * destruct (String.eqb_spec a e) as [->|Hae].
          -- split; [intros _|reflexivity]. exists e. auto.
          -- split; [discriminate|].
             intros (k & Hk & He & [H|[_ H]]);
               [destruct Hx; congruence | congruence].
        * split; [discriminate|]. intros (k & _ & He & _). discriminate.
      + apply present_None in Ha. split; [discriminate|].
        intros (k & Hk & He & [H|[_ H]]);
          [destruct Hx; congruence | destruct Ha; congruence]. }
  split; [exact Hiff|]. split; [|split].
  - unfold Auth.validateApiKey.
    destruct (Api.present _) as [k|]; [|auto].
    destruct API_KEY as [e|]; [|auto].
    destruct (k =? e)%string; auto.
  - intros Hk H. apply Hiff in H. destruct H as (k & Hne & He & _).
    destruct Hk; congruence.
  - intros deviceId clock networks s H. unfold Auth.postScan.
    unfold Auth.validateApiKey in *.
    destruct (Api.present _) as [k|]; [|reflexivity].
    destruct API_KEY as [e|]; [|reflexivity].
    destruct (k =? e)%string; [|reflexivity].
    exfalso. now apply H.
Qed.

(** ** Statistics *)

Lemma count_partition (l : list Network) :
  (List.length (filter (fun n => Status_eqb (status n) trusted) l)
   + List.length (filter (fun n => Status_eqb (status n) unknown) l)
   + List.length (filter (fun n => Status_eqb (status n) suspicious) l))%nat
  = List.length l.
Proof.
  induction l as [|n l IH]; simpl; [reflexivity|].
  destruct (status n); simpl; lia.
Qed.

(** X19.  GET /stats reports, for each of the three statuses, the number
    of stored records with that status, zero when there is none; the three
    numbers add up to [total], and [recentlyActive] is at most [total]. *)
Theorem getStats_counts :
  forall (now : Z) (s : Store),
    let body := Stats.getStats now s in
    let counts := Stats.statusCounts body in
    Stats.c_trusted counts
    = List.length (filter (fun n => Status_eqb (status n) trusted) (docs s))
    /\ Stats.c_unknown counts
       = List.length (filter (fun n => Status_eqb (status n) unknown) (docs s))
    /\ Stats.c_suspicious counts
       = List.length (filter (fun n => Status_eqb (status n) suspicious) (docs s))
    /\ (Stats.c_trusted counts + Stats.c_unknown counts
        + Stats.c_suspicious counts)%nat = Stats.total body
    /\ (Stats.recentlyActive body <= Stats.total body)%nat.
Proof.
  intros now s body counts.
  assert (H : Stats.c_trusted counts
              = List.length (filter (fun n => Status_eqb (status n) trusted) (docs s))
              /\ Stats.c_unknown counts
                 = List.length (filter (fun n => Status_eqb (status n) unknown) (docs s))
              /\ Stats.c_suspicious counts
                 = List.length
                     (filter (fun n => Status_eqb (status n) suspicious) (docs s))).
  { subst counts body. unfold Stats.getStats, Stats.aggregate.
    cbn [Stats.statusCounts map filter snd].
    destruct (List.length (filter (fun n => Status_eqb (status n) trusted) (docs s)))
      as [|t];
      destruct (List.length (filter (fun n => Status_eqb (status n) unknown) (docs s)))
        as [|u];
      destruct (List.length
                  (filter (fun n => Status_eqb (status n) suspicious) (docs s)))
        as [|p];
      repeat split. }
  destruct H as (Ht & Hu & Hp).
  split; [exact Ht|]. split; [exact Hu|]. split; [exact Hp|].
  split.
  - rewrite Ht, Hu, Hp. apply count_partition.
  - subst body. unfold Stats.getStats. cbn [Stats.recentlyActive Stats.total].
    apply filter_length_le.
Qed.

(** ** The two versions of POST /scan *)









(** * The sensor and the dashboard *)

Module Firmware.

Section Codes.

(** The encryption codes of the WiFi library of the board; their values
    are the library's. *)
Variables ENC_TYPE_WEP ENC_TYPE_TKIP ENC_TYPE_CCMP ENC_TYPE_AUTO ENC_TYPE_NONE : Z.

Definition getEncryptionType (encryptionType : Z) : string :=
  if encryptionType =? ENC_TYPE_WEP then "WEP"
  else if encryptionType =? ENC_TYPE_TKIP then "WPA"
  else if encryptionType =? ENC_TYPE_CCMP then "WPA2"
  else if encryptionType =? ENC_TYPE_AUTO then "WPA/WPA2"
  else if encryptionType =? ENC_TYPE_NONE then "Open"
  else "Unknown".

(** The object that [performNetworkScan] adds to [networks] for one
    network of the radio scan. *)
Definition networkEntry (ssid bssid : string) (rssi channel encryptionType : Z)
  : NetworkData :=
  {| nd_ssid := Some (if (0 <? String.length ssid)%nat then ssid
                      else "Hidden Network");
     nd_bssid := Some bssid;
     nd_rssi := rssi;
     nd_channel := channel;
     nd_encType := Some (getEncryptionType encryptionType) |}.

End Codes.

End Firmware.

Module Dashboard.

(** One bar of the channel chart. *)
Definition Bar : Type := (string * nat)%type.

(** The body of the [reduce] of [chartData]: the first bar with the label
    is counted up, or a new bar is pushed. *)
Fixpoint bump (label : string) (acc : list Bar) : list Bar :=
  match acc with
  | [] => [(label, 1%nat)]
  | (l, count) :: rest =>
      if (l =? label)%string then (l, S count) :: rest
      else (l, count) :: bump label rest
  end.

Definition labelOf (network : Network) : string :=
  "Ch " ++ Js.ofZ (channel network).

Definition chartData (networks : list Network) : list Bar :=
  fold_left (fun acc network => bump (labelOf network) acc) networks [].

(** [acc.find(item => item.channel === label)], its count. *)
Definition countOf (label : string) (acc : list Bar) : nat :=
  match List.find (fun item => (fst item =? label)%string) acc with
  | Some item => snd item
  | None => 0%nat
  end.

End Dashboard.

(** ** What the sensor sends *)

(** X21.  A report the firmware builds is stored as sent: its encryption
    type is one of the six strings of [getEncryptionType] and never empty, so
    the server's 'Unknown' fallback does not apply; a network with an empty
    SSID is sent and stored as 'Hidden Network' and never gets the
    suspicious-SSID finding; a report with a non-empty bssid is not
    refused.  The string 'WPA/WPA2' of the firmware is outside the list the
    evil-twin check compares with: a record that is not Open is never the
    weaker one because of a 'WPA/WPA2' namesake. *)
Theorem firmware_report_stored_as_sent :
  forall (WEP TKIP CCMP AUTO NONE : Z) (radioSsid radioBssid : string)
         (rssi channel encryptionType : Z) (device : string) (now : Z) (s : Store),
    let sent := Firmware.networkEntry WEP TKIP CCMP AUTO NONE radioSsid radioBssid
                                      rssi channel encryptionType in
    let network := snd (Api.upsert device now radioBssid sent s) in
    encType network
    = Firmware.getEncryptionType WEP TKIP CCMP AUTO NONE encryptionType
    /\ In (encType network) ["WEP"; "WPA"; "WPA2"; "WPA/WPA2"; "Open"; "Unknown"]
    /\ (radioSsid <> "" -> ssid network = Js.trim radioSsid)
    /\ (radioSsid = "" ->
        ssid network = "Hidden Network"
        /\ ThreatDetector.checkSuspiciousSSID (ssid network) = None)
    /\ (radioBssid <> "" -> Api.present (nd_bssid sent) = Some radioBssid)
    /\ (forall t n,
           encType n = "WPA/WPA2" -> encType t <> "Open" ->
           ThreatDetector.weakerThan t n = false).
Proof.
  intros WEP TKIP CCMP AUTO NONE radioSsid radioBssid rssi channel
         encryptionType device now s sent network.
  pose proof (upsert_reading device now radioBssid sent s) as H.
  cbv zeta in H. fold network in H.
  destruct H as (_ & Hs & _ & _ & He & _).
  assert (Henc : encType network
                 = Firmware.getEncryptionType WEP TKIP CCMP AUTO NONE encryptionType).
  { rewrite He. subst sent. cbn [nd_encType Firmware.networkEntry].
    unfold Firmware.getEncryptionType, Api.orElse.
    repeat match goal with
           | |- context [if (?a =? ?b) then _ else _] => destruct (a =? b)
           end; reflexivity. }
  split; [exact Henc|]. split; [|split; [|split; [|split]]].
  - rewrite Henc. unfold Firmware.getEncryptionType.
    repeat match goal with
           | |- context [if (?a =? ?b) then _ else _] => destruct (a =? b)
           end; simpl; auto 10.
  - intros Hne. rewrite Hs. subst sent. cbn [nd_ssid Firmware.networkEntry].
    destruct radioSsid as [|c r]; [contradiction|].
    cbn [String.length Nat.ltb Nat.leb]. reflexivity.
  - intros ->. rewrite Hs. subst sent. cbn [nd_ssid Firmware.networkEntry].
    split; reflexivity.
  - intros Hne. subst sent. cbn [nd_bssid Firmware.networkEntry].
    apply present_Some. auto.
  - intros t n Hn Ht. unfold ThreatDetector.weakerThan. rewrite Hn.
    destruct (String.eqb_spec (encType t) "Open"); [contradiction|].
    cbn [andb orb]. apply andb_false_r.
Qed.

(** ** The channel chart *)

Lemma bump_sum (label : string) (acc : list Dashboard.Bar) :
  list_sum (map snd (Dashboard.bump label acc)) = S (list_sum (map snd acc)).
Proof.
  induction acc as [|[l c] rest IH]; simpl; [reflexivity|].
  destruct (l =? label)%string; simpl; [reflexivity|]. rewrite IH. lia.
Qed.

Lemma bump_labels (label : string) (acc : list Dashboard.Bar) :
  map fst (Dashboard.bump label acc)
  = if existsb (fun l => (l =? label)%string) (map fst acc)
    then map fst acc
    else (map fst acc ++ [label])%list.
Proof.
  induction acc as [|[l c] rest IH]; simpl; [reflexivity|].
  destruct (l =? label)%string; simpl; [reflexivity|]. rewrite IH.
  destruct (existsb _ (map fst rest)); reflexivity.
Qed.

Lemma bump_NoDup (label : string) (acc : list Dashboard.Bar) :
  NoDup (map fst acc) -> NoDup (map fst (Dashboard.bump label acc)).
Proof.
  intros H. rewrite bump_labels.
  destruct (existsb _ (map fst acc)) eqn:E; [exact H|].
  apply NoDup_app; [exact H | constructor; [intros []|constructor] |].
  intros x Hx [<-|[]].
  assert (F : existsb (fun l => (l =? label)%string) (map fst acc) = true).
  { apply existsb_exists. exists label. split; [exact Hx | apply String.eqb_refl]. }
  congruence.
Qed.

Lemma bump_countOf (label other : string) (acc : list Dashboard.Bar) :
  Dashboard.countOf other (Dashboard.bump label acc)
  = if (label =? other)%string then S (Dashboard.countOf other acc)
    else Dashboard.countOf other acc.
Proof.
  unfold Dashboard.countOf.
  induction acc as [|[l c] rest IH]; simpl.
  - destruct (label =? other)%string; reflexivity.
  - destruct (String.eqb_spec l label) as [->|Hl]; simpl.
    + destruct (label =? other)%string; reflexivity.
    + destruct (String.eqb_spec l other) as [->|Ho]; simpl; [|exact IH].
      destruct (String.eqb_spec label other); [congruence | reflexivity].
Qed.

(** X22.  The channel chart of the dashboard has one bar per channel
    label that occurs among the listed networks and no other; the count of
    a bar is the number of listed networks with that label, and the counts
    add up to the number of listed networks. *)
Theorem chartData_counts :
  forall networks : list Network,
    list_sum (map snd (Dashboard.chartData networks)) = List.length networks
    /\ NoDup (map fst (Dashboard.chartData networks))
    /\ (forall label,
           Dashboard.countOf label (Dashboard.chartData networks)
           = List.length
               (filter (fun n => (Dashboard.labelOf n =? label)%string) networks))
    /\ (forall label,
           In label (map fst (Dashboard.chartData networks))
           <-> exists n, In n networks /\ Dashboard.labelOf n = label).
Proof.
  intros networks. unfold Dashboard.chartData.
  assert (H : forall acc,
             NoDup (map fst acc) ->
             let out := fold_left
                          (fun acc network =>
                             Dashboard.bump (Dashboard.labelOf network) acc)
                          networks acc in
             list_sum (map snd out)
             = (list_sum (map snd acc) + List.length networks)%nat
             /\ NoDup (map fst out)
             /\ (forall label,
                    Dashboard.countOf label out
                    = (Dashboard.countOf label acc
                       + List.length
                           (filter (fun n => (Dashboard.labelOf n =? label)%string)
                                   networks))%nat)
             /\ (forall label,
                    In label (map fst out)
                    <-> In label (map fst acc)
                        \/ exists n, In n networks /\ Dashboard.labelOf n = label)).
  { induction networks as [|n rest IH]; intros acc Hnd; cbv zeta; cbn [fold_left].
    - split; [simpl; lia|]. split; [exact Hnd|]. split; [intros; simpl; lia|].
      intros label. split; [auto|]. intros [H|(n & [] & _)]. exact H.
    - destruct (IH (Dashboard.bump (Dashboard.labelOf n) acc)
                   (bump_NoDup _ _ Hnd)) as (Hs & Hn & Hc & Hi).
      cbv zeta in Hs, Hn, Hc, Hi.
      split; [rewrite Hs, bump_sum; simpl; lia|].
      split; [exact Hn|]. split.
      + intros label. rewrite Hc, bump_countOf. cbn [filter].
        destruct (Dashboard.labelOf n =? label)%string; simpl; lia.
      + intros label. rewrite Hi, bump_labels.
        destruct (existsb _ (map fst acc)) eqn:E.
        * split.
          -- intros [H|(m & Hm & Hl)]; [auto|]. right. exists m. simpl. auto.
          -- intros [H|(m & [<-|Hm] & Hl)]; [auto| |right; eauto].
             left. apply existsb_exists in E. destruct E as (x & Hx & Hxl).
             apply String.eqb_eq in Hxl. congruence.
        * rewrite in_app_iff. simpl. split.
          -- intros [[H|[H|[]]]|(m & Hm & Hl)]; [auto| |right; eauto].
             right. exists n. auto.
          -- intros [H|(m & [<-|Hm] & Hl)]; [auto|auto|right; eauto]. }
  destruct (H [] (NoDup_nil _)) as (Hs & Hn & Hc & Hi). cbv zeta in *.
  split; [exact Hs|]. split; [exact Hn|]. split; [exact Hc|].
  intros label. rewrite Hi. simpl. tauto.
Qed.

(** ** Intake: the first observation of an access point *)

(** X23.  The first report of a bssid, an ASCII text, that the store
    does not hold yet under its upper-case form creates its record with
    the next fresh id, seen once, with a history of that one reading and
    [firstSeen] at the time of the turn; the record is left suspicious when
    its first assessment is harmful and unknown otherwise, and the turn
    counts it as created. *)
Theorem first_observation :
  forall (device : string) (allNetworks : list Network) (now : Z)
         (networkData : NetworkData) (s : Store) (b : string) (results : Results),
    wf s ->
    Api.present (nd_bssid networkData) = Some b ->
    asciiText b = true ->
    findByBssid b s = None ->
    let s2 := fst (Api.scanItem device allNetworks now networkData s) in
    let o := snd (Api.scanItem device allNetworks now networkData s) in
    exists n a,
      findByBssid b s2 = Some n
      /\ o = Api.Handled (snd (Api.upsert device now b networkData s)) a
      /\ _id n = nextId s
      /\ bssid n = Js.toUpperCase b
      /\ seenCount n = 1
      /\ history n = [observed now networkData]
      /\ firstSeen n = now
      /\ status n = (if isHarmful a then suspicious else unknown)
      /\ List.length (docs s2) = S (List.length (docs s))
      /\ created (Api.account results o) = created results + 1
      /\ updated (Api.account results o) = updated results.
Proof.
  intros device allNetworks now networkData s b results Hwf Hb _ Hnone s2 o.
  subst s2 o. rewrite (scanItem_handled _ _ _ _ _ _ Hb). cbv zeta. cbn [fst snd].
  set (network := snd (Api.upsert device now b networkData s)).
  set (s1 := fst (Api.upsert device now b networkData s)).
  set (a := ThreatDetector.assessThreat now network allNetworks (history network)).
  pose proof (upsert_shape device now b networkData s) as Hshape.
  cbv zeta in Hshape. fold network s1 in Hshape. rewrite Hnone in Hshape.
  destruct Hshape as (Hnet & Hnext & Hdocs & _).
  destruct (upsert_wf device now b networkData s Hwf) as [Hwf1 Hfind].
  fold network s1 in Hwf1, Hfind.
  destruct (autoStatus_effect now network a s1 Hfind) as (Hown & _ & _).
  cbv zeta in Hown. destruct Hown as (m & Hm & Hstatus).
  pose proof (upsert_found device now b networkData s) as Hfound.
  fold network s1 in Hfound.
  destruct (autoStatus_find_bssid now network a s1 b network Hfound)
    as (n & Hn & Hsame).
  assert (Hwf2 : wf (Api.autoStatus now network a s1)) by now apply autoStatus_wf.
  assert (Hnm : n = m).
  { destruct Hsame as (Hid & _).
    unfold findByBssid in Hn. apply find_some in Hn. destruct Hn as [Hin _].
    pose proof (find_id_unique _ n (proj1 Hwf2) Hin) as Hu.
    unfold Mongo.findById in Hm. rewrite Hid in Hu. congruence. }
  subst m.
  destruct Hsame as (Hid & _ & Hbs & _ & _ & _ & Hfs & _ & Hsc & Hh & _).
  exists n, a. split; [exact Hn|]. split; [reflexivity|].
  assert (Hst0 : status network = unknown) by (rewrite Hnet; reflexivity).
  repeat split.
  - rewrite Hid, Hnet. reflexivity.
  - rewrite Hbs, Hnet. cbn [bssid Mongo.inserted]. apply toUpperCase_idem.
  - rewrite Hsc, Hnet. reflexivity.
  - rewrite Hh, Hnet. reflexivity.
  - rewrite Hfs, Hnet. reflexivity.
  - rewrite Hstatus. unfold escalated. rewrite Hst0. cbn [Status_eqb].
    now rewrite andb_true_r.
  - destruct (autoStatus_keeps _id now network a s1 setStatus_id) as [Hk _].
    apply (f_equal (@List.length nat)) in Hk. rewrite !length_map in Hk.
    rewrite Hk, Hdocs, length_app. simpl. lia.
  - cbn [Api.account created]. rewrite Hnet. reflexivity.
  - cbn [Api.account updated]. rewrite Hnet. reflexivity.
Qed.

Lemma first_observation_witness :
  wf FreeWifi.empty
  /\ Api.present (nd_bssid FreeWifi.report) = Some "aa:bb:cc:11:22:33"
  /\ asciiText "aa:bb:cc:11:22:33" = true
  /\ findByBssid "aa:bb:cc:11:22:33" FreeWifi.empty = None
  /\ exists n a,
       findByBssid "aa:bb:cc:11:22:33"
         (fst (Api.scanItem "ESP8266_001" [] 1000 FreeWifi.report FreeWifi.empty))
       = Some n
       /\ seenCount n = 1
       /\ status n = (if isHarmful a then suspicious else unknown).
Proof.
  split; [exact wf_empty|]. split; [reflexivity|]. split; [reflexivity|].
  split; [reflexivity|].
  destruct (first_observation "ESP8266_001" [] 1000 FreeWifi.report
              FreeWifi.empty "aa:bb:cc:11:22:33" Api.emptyResults
              wf_empty eq_refl eq_refl eq_refl)
    as (n & a & Hn & _ & _ & _ & Hc & _ & _ & Hs & _).
  exists n, a. split; [exact Hn|]. split; [exact Hc | exact Hs].
Defined.
